(** * Poker robot: hand evaluation, discard strategy and command sequencing

    A shallow embedding of [card_logic/poker]:
    - [card.py]            cards as (rank, suit) tuples;
    - [hand_evaluator.py]  [HandEvaluator.evaluate], [_check_straight];
    - [strategy.py]        [PokerStrategy], [get_discard_positions];
    - [robot_actions.py]   fill / swap action lists, [parse_action],
                           [count_swaps], [get_swap_positions];
    - [deck.py]            [Deck], the random generator being a parameter.

    Python ints are [Z], list indices are [nat], [str] is [string] (ASCII),
    [Optional[Card]] is [option Card], raised exceptions are the left side
    of a sum, a [Counter] or [dict] is an association list in insertion
    order (the order [items()] iterates in). *)

From Stdlib Require Import String Ascii.
From Stdlib Require Import ZArith List Bool Lia Arith.
From Stdlib Require Import Permutation Sorted.
From Stdlib Require DecimalString.
Import ListNotations.

Local Open Scope string_scope.
Local Open Scope list_scope.
Local Open Scope Z_scope.

(** ** Python values: exceptions, list reads, sorts, counters *)

Module Py.

Inductive exn : Type :=
| ValueError (msg : string)
| TypeError (msg : string)
| IndexError (msg : string).

Definition Exc (A : Type) : Type := (exn + A)%type.

Definition ret {A} (a : A) : Exc A := inr a.
Definition raise {A} (e : exn) : Exc A := inl e.
Definition bind {A B} (m : Exc A) (k : A -> Exc B) : Exc B :=
  match m with
  | inl e => inl e
  | inr a => k a
  end.

Definition raises {A} (m : Exc A) : bool :=
  match m with inl _ => true | inr _ => false end.

(** [l[0]] *)
Definition item0 {A} (l : list A) : Exc A :=
  match l with
  | x :: _ => ret x
  | [] => raise (IndexError "list index out of range")
  end.

(** [l[-1]] *)
Definition item_last {A} (l : list A) : Exc A :=
  match rev l with
  | x :: _ => ret x
  | [] => raise (IndexError "list index out of range")
  end.

(** [enumerate(l)] *)
Definition enumerate {A} (l : list A) : list (nat * A) :=
  combine (seq 0 (length l)) l.

(** [sorted(l, reverse=True)] on ints. *)
Fixpoint insert_desc (x : Z) (l : list Z) : list Z :=
  match l with
  | [] => [x]
  | y :: l' => if y <=? x then x :: l else y :: insert_desc x l'
  end.

Definition sorted_desc (l : list Z) : list Z := fold_right insert_desc [] l.

(** [l.sort(key=...)] : the stable ascending sort on a key. *)
Section SortBy.
Context {A : Type} (key : A -> Z).

Fixpoint insert_by (x : A) (l : list A) : list A :=
  match l with
  | [] => [x]
  | y :: l' => if key x <=? key y then x :: l else y :: insert_by x l'
  end.

Definition sort_by (l : list A) : list A := fold_right insert_by [] l.
End SortBy.

(** [Counter(l)]: keys in first-seen order, each with its multiplicity. *)
Section Counter.
Context {K : Type} (eqb : K -> K -> bool).

Fixpoint counter_incr (k : K) (c : list (K * nat)) : list (K * nat) :=
  match c with
  | [] => [(k, 1%nat)]
  | (k', n) :: c' =>
      if eqb k k' then (k', S n) :: c' else (k', n) :: counter_incr k c'
  end.

Definition Counter (l : list K) : list (K * nat) :=
  fold_left (fun c k => counter_incr k c) l [].
End Counter.

(** [[k for k, c in counts.items() if c == n]] *)
Definition keys_with_count {K} (n : nat) (c : list (K * nat)) : list K :=
  map fst (filter (fun kc => Nat.eqb (snd kc) n) c).

(** [n in counts.values()] *)
Definition count_in_values {K} (n : nat) (c : list (K * nat)) : bool :=
  existsb (fun kc => Nat.eqb (snd kc) n) c.

End Py.

Import Py.

Declare Scope exc_scope.
Delimit Scope exc_scope with exc.
Notation "x <- m ;; k" := (bind m (fun x => k))
  (at level 61, m at next level, right associativity) : exc_scope.
Local Open Scope exc_scope.

(** ** card.py *)

Definition Card : Type := (Z * string)%type.

Definition RANKS : list Z := [2; 3; 4; 5; 6; 7; 8; 9; 10; 11; 12; 13; 14].
Definition SUITS : list string := ["H"; "D"; "C"; "S"].

Definition is_valid_card (card : Card) : bool :=
  let '(rank, suit) := card in
  existsb (Z.eqb rank) RANKS && existsb (String.eqb suit) SUITS.

(** A holder slot: a card, or [None] for an empty position. *)
Definition Slot : Type := option Card.
Definition HandWithEmpty : Type := list Slot.

(** ** hand_evaluator.py *)

Definition HIGH_CARD : Z := 0.
Definition ONE_PAIR : Z := 1.
Definition TWO_PAIR : Z := 2.
Definition THREE_OF_A_KIND : Z := 3.
Definition STRAIGHT : Z := 4.
Definition FLUSH : Z := 5.
Definition FULL_HOUSE : Z := 6.
Definition FOUR_OF_A_KIND : Z := 7.
Definition STRAIGHT_FLUSH : Z := 8.
Definition ROYAL_FLUSH : Z := 9.

(** (rank_value, tiebreaker_ranks, hand_name) *)
Definition EvaluationResult : Type := (Z * list Z * string)%type.

Definition _check_straight (ranks : list Z) : bool * Z :=
  let sorted_ranks := sorted_desc (nodup Z.eq_dec ranks) in
  if negb (Nat.eqb (length sorted_ranks) 5) then (false, 0)
  else if nth 0 sorted_ranks 0 - nth 4 sorted_ranks 0 =? 4
       then (true, nth 0 sorted_ranks 0)
  else if list_eq_dec Z.eq_dec sorted_ranks [14; 5; 4; 3; 2] then (true, 5)
  else (false, 0).

(** [[c[0] for c in hand]] and [[c[1] for c in hand]]: subscripting an
    empty slot ([None]) raises [TypeError]. *)
Fixpoint subscript_all (hand : HandWithEmpty) : Exc (list Card) :=
  match hand with
  | [] => ret []
  | None :: _ => raise (TypeError "'NoneType' object is not subscriptable")
  | Some c :: rest => cs <- subscript_all rest ;; ret (c :: cs)
  end.

(** The body of [evaluate] once the five cards have been read. *)
Definition classify (cards : list Card) : Exc EvaluationResult :=
  let ranks := sorted_desc (map fst cards) in
  let suits := map snd cards in
  let rank_counts := Counter Z.eqb ranks in
  let is_flush := Nat.eqb (length (nodup string_dec suits)) 1 in
  let '(is_straight, straight_high) := _check_straight ranks in
  if is_flush && is_straight && (straight_high =? 14) then
    ret (ROYAL_FLUSH, [14], "Royal Flush")
  else if is_flush && is_straight then
    ret (STRAIGHT_FLUSH, [straight_high], "Straight Flush")
  else if count_in_values 4 rank_counts then
    quad_rank <- item0 (keys_with_count 4 rank_counts) ;;
    kicker <- item0 (keys_with_count 1 rank_counts) ;;
    ret (FOUR_OF_A_KIND, [quad_rank; kicker], "Four of a Kind")
  else if count_in_values 3 rank_counts && count_in_values 2 rank_counts then
    trip_rank <- item0 (keys_with_count 3 rank_counts) ;;
    pair_rank <- item0 (keys_with_count 2 rank_counts) ;;
    ret (FULL_HOUSE, [trip_rank; pair_rank], "Full House")
  else if is_flush then
    ret (FLUSH, ranks, "Flush")
  else if is_straight then
    ret (STRAIGHT, [straight_high], "Straight")
  else if count_in_values 3 rank_counts then
    trip_rank <- item0 (keys_with_count 3 rank_counts) ;;
    let kickers := sorted_desc (keys_with_count 1 rank_counts) in
    ret (THREE_OF_A_KIND, trip_rank :: kickers, "Three of a Kind")
  else
    let pairs := keys_with_count 2 rank_counts in
    if Nat.eqb (length pairs) 2 then
      let pairs := sorted_desc pairs in
      kicker <- item0 (keys_with_count 1 rank_counts) ;;
      ret (TWO_PAIR, pairs ++ [kicker], "Two Pair")
    else if Nat.eqb (length pairs) 1 then
      pair_rank <- item0 pairs ;;
      let kickers := sorted_desc (keys_with_count 1 rank_counts) in
      ret (ONE_PAIR, pair_rank :: kickers, "One Pair")
    else
      ret (HIGH_CARD, ranks, "High Card").

Definition evaluate (hand : HandWithEmpty) : Exc EvaluationResult :=
  if negb (Nat.eqb (length hand) 5) then
    raise (ValueError "Hand must contain exactly 5 cards")
  else
    cards <- subscript_all hand ;;
    classify cards.

(** ** strategy.py *)

Definition MAX_SWAP_PER_ROUND : nat := 3.

(** [d.get(k, default)] on a dict with string keys. *)
Fixpoint dict_get {V} (d : list (string * V)) (k : string) (default : V) : V :=
  match d with
  | [] => default
  | (k', v) :: d' => if String.eqb k k' then v else dict_get d' k default
  end.

Definition KEEP_THRESHOLD : list (string * Z) :=
  [("conservative", FULL_HOUSE);
   ("standard", STRAIGHT);
   ("aggressive", FOUR_OF_A_KIND)].

Record PokerStrategy : Type := {
  mode : string;
  threshold : Z
}.

(** [PokerStrategy.__init__] *)
Definition PokerStrategy_init (m : string) : PokerStrategy :=
  {| mode := m; threshold := dict_get KEEP_THRESHOLD m STRAIGHT |}.

(** [[i for i, card in enumerate(hand) if keep card]] *)
Definition positions_where (keep : Card -> bool) (hand : list Card) : list nat :=
  map fst (filter (fun ic => keep (snd ic)) (enumerate hand)).

Definition pos_in (pos : nat) (l : list nat) : bool := existsb (Nat.eqb pos) l.

(** The inner loop of [_find_straight_draw]: the entries whose rank lies
    in [base_rank .. base_rank + 4], one entry per position. *)
Definition window_candidates (base_rank : Z) (ranks_with_pos : list (Z * nat))
  : list (Z * nat) :=
  fold_left
    (fun candidates rp =>
       let '(rank, pos) := rp in
       if (base_rank <=? rank) && (rank <=? base_rank + 4) then
         if negb (pos_in pos (map snd candidates))
         then candidates ++ [(rank, pos)]
         else candidates
       else candidates)
    ranks_with_pos [].

(** The outer loop of [_find_straight_draw], with its [break]. *)
Fixpoint scan_bases (bases ranks_with_pos : list (Z * nat)) : option (list nat) :=
  match bases with
  | [] => None
  | (base_rank, _) :: rest =>
      let candidates := window_candidates base_rank ranks_with_pos in
      let unique_ranks := nodup Z.eq_dec (map fst candidates) in
      if (4 <=? length unique_ranks)%nat then
        let keep_positions := nodup Nat.eq_dec (map snd (firstn 4 candidates)) in
        if Nat.eqb (length keep_positions) 4 then Some keep_positions
        else scan_bases rest ranks_with_pos
      else scan_bases rest ranks_with_pos
  end.

Definition _find_straight_draw (hand : list Card) : option (list nat) :=
  let ranks_with_pos := map (fun ic => (fst (snd ic), fst ic)) (enumerate hand) in
  let ace_positions := positions_where (fun card => fst card =? 14) hand in
  let ranks_with_pos := ranks_with_pos ++ map (fun pos => (1, pos)) ace_positions in
  let ranks_with_pos := sort_by fst ranks_with_pos in
  scan_bases ranks_with_pos ranks_with_pos.

Definition is_empty {A} (l : list A) : bool :=
  match l with [] => true | _ => false end.

(** The [else] branch of [get_cards_to_discard] (high card). *)
Definition high_card_discards (hand : list Card) : list nat :=
  let suit_counts := Counter String.eqb (map snd hand) in
  let discard_positions :=
    match keys_with_count 4 suit_counts with
    | suit :: _ => positions_where (fun card => negb (String.eqb (snd card) suit)) hand
    | [] => []
    end in
  let discard_positions :=
    if is_empty discard_positions then
      match _find_straight_draw hand with
      | Some straight_keep =>
          filter (fun i => negb (pos_in i straight_keep)) (seq 0 5)
      | None => discard_positions
      end
    else discard_positions in
  if is_empty discard_positions then
    let indexed_ranks := map (fun ic => (fst ic, fst (snd ic))) (enumerate hand) in
    let indexed_ranks := sort_by (fun x => snd x) indexed_ranks in
    map fst (firstn 3 indexed_ranks)
  else discard_positions.

Definition get_cards_to_discard (self : PokerStrategy) (hand : HandWithEmpty)
  : Exc (list nat) :=
  ev <- evaluate hand ;;
  let '(hand_rank, tiebreakers, hand_name) := ev in
  if hand_rank >=? threshold self then ret []
  else
    cards <- subscript_all hand ;;
    let ranks := map fst cards in
    let rank_counts := Counter Z.eqb ranks in
    if hand_rank =? FOUR_OF_A_KIND then ret []
    else if hand_rank =? FULL_HOUSE then ret []
    else if hand_rank =? FLUSH then ret []
    else if hand_rank =? STRAIGHT then ret []
    else
      discard_positions <-
        (if hand_rank =? 3 then
           trip_rank <- item0 (keys_with_count 3 rank_counts) ;;
           ret (positions_where (fun card => negb (fst card =? trip_rank)) cards)
         else if hand_rank =? 2 then
           let pair_ranks := keys_with_count 2 rank_counts in
           ret (positions_where
                  (fun card => negb (existsb (Z.eqb (fst card)) pair_ranks)) cards)
         else if hand_rank =? 1 then
           pair_rank <- item0 (keys_with_count 2 rank_counts) ;;
           ret (positions_where (fun card => negb (fst card =? pair_rank)) cards)
         else ret (high_card_discards cards)) ;;
      ret (firstn MAX_SWAP_PER_ROUND discard_positions).

Definition get_discard_positions (hand : HandWithEmpty) (m : string)
  : Exc (list nat) :=
  let strategy := PokerStrategy_init m in
  get_cards_to_discard strategy hand.

(** ** Python [str] operations used by robot_actions.py (ASCII strings) *)

Module Str.

(** [str(n)] for a non-negative int, as in [f"place at {holder_pos}"]. *)
Definition of_nat (n : nat) : string :=
  DecimalString.NilZero.string_of_uint (Nat.to_uint n).

(** [c.isspace()] *)
Definition isspace (c : ascii) : bool :=
  let n := nat_of_ascii c in
  ((9 <=? n) && (n <=? 13) || (28 <=? n) && (n <=? 32))%nat.

Definition lower_ascii (c : ascii) : ascii :=
  let n := nat_of_ascii c in
  if ((65 <=? n) && (n <=? 90))%nat then ascii_of_nat (n + 32) else c.

Definition upper_ascii (c : ascii) : ascii :=
  let n := nat_of_ascii c in
  if ((97 <=? n) && (n <=? 122))%nat then ascii_of_nat (n - 32) else c.

Fixpoint map_ascii (f : ascii -> ascii) (s : string) : string :=
  match s with
  | EmptyString => EmptyString
  | String c s' => String (f c) (map_ascii f s')
  end.

Definition lower : string -> string := map_ascii lower_ascii.
Definition upper : string -> string := map_ascii upper_ascii.

Fixpoint lstrip (s : string) : string :=
  match s with
  | EmptyString => EmptyString
  | String c s' => if isspace c then lstrip s' else s
  end.

(** [rstrip] keeps a character when it is not a space or something
    non-blank follows it. *)
Fixpoint rstrip (s : string) : string :=
  match s with
  | EmptyString => EmptyString
  | String c s' =>
      match rstrip s' with
      | EmptyString => if isspace c then EmptyString else String c EmptyString
      | rest => String c rest
      end
  end.

Definition strip (s : string) : string := rstrip (lstrip s).

Definition startswith (s p : string) : bool := String.prefix p s.

(** [s.split()]: the maximal runs of non-blank characters; [cur] is the
    run being read, reversed. *)
Fixpoint split_go (cur : list ascii) (s : string) : list string :=
  let flush := match cur with
               | [] => []
               | _ => [string_of_list_ascii (rev cur)]
               end in
  match s with
  | EmptyString => flush
  | String c s' =>
      if isspace c then flush ++ split_go [] s' else split_go (c :: cur) s'
  end.

Definition split (s : string) : list string := split_go [] s.

Definition digit (c : ascii) : option Z :=
  let n := nat_of_ascii c in
  if ((48 <=? n) && (n <=? 57))%nat then Some (Z.of_nat (n - 48)) else None.

(** Decimal digits, single underscores allowed between two digits. *)
Fixpoint digits (after_digit : bool) (acc : Z) (s : string) : option Z :=
  match s with
  | EmptyString => if after_digit then Some acc else None
  | String c s' =>
      if Ascii.eqb c "_" then
        if after_digit then digits false acc s' else None
      else
        match digit c with
        | Some d => digits true (10 * acc + d) s'
        | None => None
        end
  end.

(** [int(s)] on an ASCII literal: blanks around it, an optional sign, then
    decimal digits. The message of the [ValueError] leaves out the literal
    that CPython appends, CPython's limit on the number of digits is not
    modelled, and only the ASCII digits are read. *)
Definition int (s : string) : Exc Z :=
  let err := raise (ValueError "invalid literal for int() with base 10") in
  let body := strip s in
  let '(neg, body) :=
    match body with
    | String "-" r => (true, r)
    | String "+" r => (false, r)
    | _ => (false, body)
    end in
  match digits false 0 body with
  | Some v => ret (if neg : bool then - v else v)
  | None => err
  end.

End Str.

(** ** robot_actions.py *)

Definition generate_fill_actions (hand : HandWithEmpty) : list string :=
  flat_map
    (fun pc : nat * Slot =>
       let '(pos, card) := pc in
       match card with
       | None =>
           let holder_pos := (pos + 1)%nat in
           ["take deck";
            "default position";
            ("place at " ++ Str.of_nat holder_pos)%string;
            "default position"]
       | Some _ => []
       end)
    (enumerate hand).

Definition swap_block (pos : nat) : list string :=
  let holder_pos := (pos + 1)%nat in
  [("take card " ++ Str.of_nat holder_pos)%string;
   "default position";
   "drop holding";
   "default position";
   "take deck";
   "default position";
   ("place at " ++ Str.of_nat holder_pos)%string;
   "default position"].

Definition generate_swap_actions (hand : HandWithEmpty)
  (strategy : option PokerStrategy) : Exc (list string) :=
  let strategy :=
    match strategy with
    | None => PokerStrategy_init "standard"
    | Some s => s
    end in
  discard_positions <- get_cards_to_discard strategy hand ;;
  if is_empty discard_positions then ret []
  else ret (flat_map swap_block discard_positions).

(** The values stored in the dict [parse_action] returns. *)
Inductive PyVal : Type :=
| VStr (s : string)
| VInt (z : Z).

Definition Dict : Type := list (string * PyVal).

Definition parse_action (action : string) : Exc Dict :=
  let action := Str.lower (Str.strip action) in
  if String.eqb action "default position" then ret [("type", VStr "default")]
  else if String.eqb action "drop holding" then ret [("type", VStr "drop")]
  else if String.eqb action "take deck" then ret [("type", VStr "take_deck")]
  else if Str.startswith action "take card " then
    w <- item_last (Str.split action) ;;
    pos <- Str.int w ;;
    ret [("type", VStr "take_card"); ("position", VInt pos)]
  else if Str.startswith action "place at " then
    w <- item_last (Str.split action) ;;
    pos <- Str.int w ;;
    ret [("type", VStr "place"); ("position", VInt pos)]
  else raise (ValueError ("Unknown action: " ++ action)).

Definition is_None {A} (o : option A) : bool :=
  match o with None => true | Some _ => false end.

Definition get_poker_actions (hand : HandWithEmpty) (m : string)
  : Exc (list string) :=
  let actions : list string := [] in
  let empty_positions := map fst (filter (fun ic => is_None (snd ic)) (enumerate hand)) in
  if negb (is_empty empty_positions) then
    let fill_actions := generate_fill_actions hand in
    ret (actions ++ fill_actions)
  else
    let strategy := PokerStrategy_init m in
    swap_actions <- generate_swap_actions hand (Some strategy) ;;
    ret (actions ++ swap_actions).

Definition count_swaps (actions : list string) : nat :=
  length (filter (fun a => Str.startswith a "take card ") actions).

(** * Vocabulary of the statements *)

(** ** Hands *)

(** A hand with every holder occupied. *)
Definition full (cards : list Card) : HandWithEmpty := map Some cards.

Definition royal_hand : list Card :=
  [(14, "H"); (13, "H"); (12, "H"); (11, "H"); (10, "H")].
Definition pair_hand : list Card :=
  [(10, "H"); (10, "D"); (5, "C"); (3, "S"); (7, "H")].
Definition trips_hand : list Card :=
  [(7, "H"); (7, "D"); (7, "C"); (2, "S"); (9, "H")].
Definition two_pair_hand : list Card :=
  [(10, "H"); (10, "D"); (5, "C"); (5, "S"); (7, "H")].
Definition wheel_hand : list Card :=
  [(14, "H"); (2, "D"); (3, "C"); (4, "S"); (5, "H")].
Definition flush_draw_hand : list Card :=
  [(14, "H"); (10, "H"); (8, "H"); (5, "H"); (2, "S")].
Definition partial_hand : HandWithEmpty :=
  [Some (10, "H"); None; Some (5, "C"); None; Some (7, "H")].

(** A high-card hand without a flush or straight draw. *)
Definition no_draw_hand : list Card :=
  [(13, "H"); (2, "D"); (9, "C"); (5, "S"); (3, "H")].

(** A high-card hand with 4-5-6-7 to a straight. *)
Definition straight_draw_hand : list Card :=
  [(4, "H"); (11, "D"); (5, "C"); (6, "S"); (7, "H")].

Definition card_eqb (c c' : Card) : bool :=
  (fst c =? fst c') && String.eqb (snd c) (snd c').

Fixpoint distinct_cards (cards : list Card) : bool :=
  match cards with
  | [] => true
  | c :: rest => negb (existsb (card_eqb c) rest) && distinct_cards rest
  end.

(** Five distinct cards of the 52-card deck. *)
Definition valid_hand (cards : list Card) : bool :=
  Nat.eqb (length cards) 5 && forallb is_valid_card cards && distinct_cards cards.

(** ** Errors, categories, modes *)

(** The error [evaluate] raises on purpose. *)
Definition InvalidHand : exn := ValueError "Hand must contain exactly 5 cards".

(** What subscripting an empty slot raises. *)
Definition NoneSubscript : exn := TypeError "'NoneType' object is not subscriptable".

Definition known_modes : list string := ["conservative"; "standard"; "aggressive"].

(** [classify] with the sorted ranks and the flush test named. *)
Definition classify_on (ranks : list Z) (is_flush : bool) : Exc EvaluationResult :=
  let rank_counts := Counter Z.eqb ranks in
  let '(is_straight, straight_high) := _check_straight ranks in
  if is_flush && is_straight && (straight_high =? 14) then
    ret (ROYAL_FLUSH, [14], "Royal Flush")
  else if is_flush && is_straight then
    ret (STRAIGHT_FLUSH, [straight_high], "Straight Flush")
  else if count_in_values 4 rank_counts then
    quad_rank <- item0 (keys_with_count 4 rank_counts) ;;
    kicker <- item0 (keys_with_count 1 rank_counts) ;;
    ret (FOUR_OF_A_KIND, [quad_rank; kicker], "Four of a Kind")
  else if count_in_values 3 rank_counts && count_in_values 2 rank_counts then
    trip_rank <- item0 (keys_with_count 3 rank_counts) ;;
    pair_rank <- item0 (keys_with_count 2 rank_counts) ;;
    ret (FULL_HOUSE, [trip_rank; pair_rank], "Full House")
  else if is_flush then
    ret (FLUSH, ranks, "Flush")
  else if is_straight then
    ret (STRAIGHT, [straight_high], "Straight")
  else if count_in_values 3 rank_counts then
    trip_rank <- item0 (keys_with_count 3 rank_counts) ;;
    let kickers := sorted_desc (keys_with_count 1 rank_counts) in
    ret (THREE_OF_A_KIND, trip_rank :: kickers, "Three of a Kind")
  else
    let pairs := keys_with_count 2 rank_counts in
    if Nat.eqb (length pairs) 2 then
      let pairs := sorted_desc pairs in
      kicker <- item0 (keys_with_count 1 rank_counts) ;;
      ret (TWO_PAIR, pairs ++ [kicker], "Two Pair")
    else if Nat.eqb (length pairs) 1 then
      pair_rank <- item0 pairs ;;
      let kickers := sorted_desc (keys_with_count 1 rank_counts) in
      ret (ONE_PAIR, pair_rank :: kickers, "One Pair")
    else
      ret (HIGH_CARD, ranks, "High Card").

Definition flush_test (cards : list Card) : bool :=
  Nat.eqb (length (nodup string_dec (map snd cards))) 1.

(** What each category says about the counted ranks. *)
Record category_facts (ranks : list Z) (is_flush : bool) (hr : Z) (tb : list Z)
  : Prop := {
  cf_range : 0 <= hr <= 9;
  cf_trips : hr = 3 -> count_in_values 3 (Counter Z.eqb ranks) = true;
  cf_two_pair : hr = 2 -> length (keys_with_count 2 (Counter Z.eqb ranks)) = 2%nat;
  cf_one_pair : hr = 1 -> length (keys_with_count 2 (Counter Z.eqb ranks)) = 1%nat;
  cf_high_card :
    hr = 0 ->
    is_flush = false
    /\ fst (_check_straight ranks) = false
    /\ count_in_values 4 (Counter Z.eqb ranks) = false
    /\ count_in_values 3 (Counter Z.eqb ranks) = false
    /\ (keys_with_count 2 (Counter Z.eqb ranks) = []
        \/ (3 <= length (keys_with_count 2 (Counter Z.eqb ranks)))%nat)
}.

(** ** Orders and counters *)

(** The order a sort on [key] produces. *)
Definition key_le {A : Type} (key : A -> Z) (x y : A) : Prop := key x <= key y.

Section CounterReading.
Context {K : Type} (eqb : K -> K -> bool).

(** The multiplicity a counter records for a key. *)
Fixpoint counter_get (c : list (K * nat)) (k : K) : nat :=
  match c with
  | [] => 0
  | (k', n) :: c' => if eqb k k' then n else counter_get c' k
  end.

(** Keys occur once, with a positive count. *)
Definition counter_wf (c : list (K * nat)) : Prop :=
  NoDup (map fst c) /\ Forall (fun kc => (0 < snd kc)%nat) c.
End CounterReading.

(** ** Straights *)

Definition max_rank (ranks : list Z) : Z := fold_right Z.max (hd 0 ranks) ranks.
Definition min_rank (ranks : list Z) : Z := fold_right Z.min (hd 0 ranks) ranks.

Definition wheel : list Z := [14; 5; 4; 3; 2].

(** The distinct ranks are exactly those of the wheel. *)
Definition wheel_ranks (ranks : list Z) : Prop :=
  forall r, In r ranks <-> In r wheel.

(** Five distinct ranks spanning exactly five values. *)
Definition run_of_five (ranks : list Z) : Prop :=
  NoDup ranks /\ max_rank ranks - min_rank ranks = 4.

(** ** The command vocabulary

    The five action forms listed in the header of robot_actions.py, with
    1-indexed holder positions. *)

Inductive Command : Type :=
| TakeCard (n : nat)
| DefaultPosition
| DropHolding
| TakeDeck
| PlaceAt (n : nat).

(** The text form of a command, as the generators write it. *)
Definition format (c : Command) : string :=
  match c with
  | TakeCard n => "take card " ++ Str.of_nat n
  | DefaultPosition => "default position"
  | DropHolding => "drop holding"
  | TakeDeck => "take deck"
  | PlaceAt n => "place at " ++ Str.of_nat n
  end.

(** The dict [parse_action] builds for a command. *)
Definition command_dict (c : Command) : Dict :=
  match c with
  | TakeCard n => [("type", VStr "take_card"); ("position", VInt (Z.of_nat n))]
  | DefaultPosition => [("type", VStr "default")]
  | DropHolding => [("type", VStr "drop")]
  | TakeDeck => [("type", VStr "take_deck")]
  | PlaceAt n => [("type", VStr "place"); ("position", VInt (Z.of_nat n))]
  end.

Definition position_ok (n : nat) : bool := ((1 <=? n) && (n <=? 5))%nat.

Definition in_vocabulary (c : Command) : bool :=
  match c with
  | TakeCard n | PlaceAt n => position_ok n
  | _ => true
  end.

(** The fill sequence for the empty slot [pos] (0-indexed). *)
Definition fill_commands (pos : nat) : list Command :=
  [TakeDeck; DefaultPosition; PlaceAt (pos + 1); DefaultPosition].

(** The swap sequence for the discarded slot [pos] (0-indexed). *)
Definition swap_commands (pos : nat) : list Command :=
  [TakeCard (pos + 1); DefaultPosition; DropHolding; DefaultPosition;
   TakeDeck; DefaultPosition; PlaceAt (pos + 1); DefaultPosition].

Definition empty_positions (hand : HandWithEmpty) : list nat :=
  map fst (filter (fun ic => is_None (snd ic)) (enumerate hand)).

(** ** The high-card rule, step by step *)

(** The list of the "no draw" rule: the positions in ascending rank order. *)
Definition by_rank (cards : list Card) : list (nat * Z) :=
  sort_by (fun x : nat * Z => snd x)
    (map (fun ic : nat * Card => (fst ic, fst (snd ic))) (enumerate cards)).

Definition rank_at (cards : list Card) (p : nat) : Z := fst (nth p cards (0, "")).

(** The order of the "no draw" rule: by ascending rank, cards of equal rank
    by ascending position. *)
Definition rank_then_position (cards : list Card) (p q : nat) : Prop :=
  rank_at cards p < rank_at cards q
  \/ (rank_at cards p = rank_at cards q /\ (p < q)%nat).

(** The flush-draw loop of the high-card rule. *)
Definition flush_draw_discards (cards : list Card) : list nat :=
  match keys_with_count 4 (Counter String.eqb (map snd cards)) with
  | suit :: _ => positions_where (fun card => negb (String.eqb (snd card) suit)) cards
  | [] => []
  end.

Definition outside (straight_keep : list nat) : list nat :=
  filter (fun i => negb (pos_in i straight_keep)) (seq 0 5).

(** The cascade of the high-card rule: flush draw, else straight draw,
    else the three lowest. *)
Definition draw_cascade (flush : list nat) (straight : option (list nat))
  (lowest : list nat) : list nat :=
  let discard_positions :=
    if is_empty flush then
      match straight with
      | Some straight_keep => outside straight_keep
      | None => flush
      end
    else flush in
  if is_empty discard_positions then lowest else discard_positions.

(** *** The straight draw in the words of the specification *)

(** An Ace counts as rank 14 and as rank 1. *)
Definition effective_ranks (r : Z) : list Z := if r =? 14 then [14; 1] else [r].

(** The window of five consecutive ranks starting at [b]. *)
Definition in_window (b r : Z) : bool := (b <=? r) && (r <=? b + 4).

(** The distinct effective ranks of the hand that the window covers. *)
Definition window_cover (ranks : list Z) (b : Z) : list Z :=
  nodup Z.eq_dec (filter (in_window b) (flat_map effective_ranks ranks)).

Definition qualifies (ranks : list Z) (b : Z) : bool :=
  (4 <=? length (window_cover ranks b))%nat.

(** The positions holding a card with an effective rank in the window. *)
Definition window_positions (ranks : list Z) (b : Z) : list nat :=
  map fst
    (filter (fun ir => existsb (in_window b) (effective_ranks (snd ir)))
       (enumerate ranks)).

(** The windows of five consecutive ranks, 1-5 up to 10-14, in ascending
    order of their base rank. *)
Definition window_bases : list Z := [1; 2; 3; 4; 5; 6; 7; 8; 9; 10].

Definition first_window (ranks : list Z) : option Z :=
  find (qualifies ranks) window_bases.

(** *** The rank part of the rule, as a test on five ranks *)

Definition bare (ranks : list Z) : list Card := map (fun r => (r, "")) ranks.

Definition rank_discards (ranks : list Z) : list nat :=
  draw_cascade [] (_find_straight_draw (bare ranks))
    (map fst (firstn 3 (by_rank (bare ranks)))).

Definition lowest_first (ranks : list Z) (ds : list nat) : bool :=
  forallb
    (fun p => forallb (fun q => pos_in q ds || (nth p ranks 0 <? nth q ranks 0))
                (seq 0 5))
    ds.

Definition rank_rule_holds (ranks : list Z) : bool :=
  if fst (_check_straight ranks) then true
  else
    let ds := rank_discards ranks in
    match first_window ranks with
    | Some b =>
        match ds with
        | [p] => Nat.eqb (length (window_positions ranks b)) 4
                 && negb (pos_in p (window_positions ranks b))
                 && (p <? 5)%nat
        | _ => false
        end
    | None => Nat.eqb (length ds) 3 && lowest_first ranks ds
    end.

Definition fresh (r : Z) (seen : list Z) : bool := negb (existsb (Z.eqb r) seen).

(** [f] on every list of [n] distinct ranks put after [rev seen]. *)
Fixpoint all_distinct (n : nat) (seen : list Z) (f : list Z -> bool) : bool :=
  match n with
  | O => f (rev seen)
  | S n' =>
      forallb (fun r => if fresh r seen then all_distinct n' (r :: seen) f else true)
        RANKS
  end.

(** * The rest of the package *)

(** ** card.py: names and the full deck *)

(** [d[k]] on a dict without the key [k]. *)
Inductive KeyErr : Type :=
| KeyError_int (k : Z)
| KeyError_str (k : string).

Definition RANK_NAMES : list (Z * string) :=
  [(2, "2"); (3, "3"); (4, "4"); (5, "5"); (6, "6"); (7, "7"); (8, "8");
   (9, "9"); (10, "10"); (11, "J"); (12, "Q"); (13, "K"); (14, "A")].

Definition SUIT_NAMES : list (string * string) :=
  [("H", "Hearts"); ("D", "Diamonds"); ("C", "Clubs"); ("S", "Spades")].

(** [d[k]] with int keys. *)
Fixpoint getitem_int {V} (d : list (Z * V)) (k : Z) : KeyErr + V :=
  match d with
  | [] => inl (KeyError_int k)
  | (k', v) :: d' => if k =? k' then inr v else getitem_int d' k
  end.

(** [d[k]] with str keys. *)
Fixpoint getitem_str {V} (d : list (string * V)) (k : string) : KeyErr + V :=
  match d with
  | [] => inl (KeyError_str k)
  | (k', v) :: d' => if String.eqb k k' then inr v else getitem_str d' k
  end.

Definition card_to_string (card : Card) : KeyErr + string :=
  match getitem_int RANK_NAMES (fst card) with
  | inl e => inl e
  | inr rank_name => inr (rank_name ++ snd card)%string
  end.

Definition card_to_full_string (card : Card) : KeyErr + string :=
  match getitem_int RANK_NAMES (fst card) with
  | inl e => inl e
  | inr rank_name =>
      match getitem_str SUIT_NAMES (snd card) with
      | inl e => inl e
      | inr suit_name => inr (rank_name ++ " of " ++ suit_name)%string
      end
  end.

Definition create_full_deck : list Card :=
  flat_map (fun suit => map (fun rank => (rank, suit)) RANKS) SUITS.

(** ** hand_evaluator.py: names and comparison *)

Definition HAND_NAMES : list (Z * string) :=
  [(0, "High Card"); (1, "One Pair"); (2, "Two Pair"); (3, "Three of a Kind");
   (4, "Straight"); (5, "Flush"); (6, "Full House"); (7, "Four of a Kind");
   (8, "Straight Flush"); (9, "Royal Flush")].

(** The loop of [compare_hands] over [zip(eval1[1], eval2[1])]. *)
Fixpoint compare_tiebreakers (l1 l2 : list Z) : Z :=
  match l1, l2 with
  | r1 :: t1, r2 :: t2 =>
      if negb (r1 =? r2) then (if r1 >? r2 then 1 else -1)
      else compare_tiebreakers t1 t2
  | _, _ => 0
  end.

Definition compare_hands (hand1 hand2 : HandWithEmpty) : Exc Z :=
  eval1 <- evaluate hand1 ;;
  eval2 <- evaluate hand2 ;;
  let '(rank1, tb1, _) := eval1 in
  let '(rank2, tb2, _) := eval2 in
  if negb (rank1 =? rank2) then ret (if rank1 >? rank2 then 1 else -1)
  else ret (compare_tiebreakers tb1 tb2).

Definition get_hand_name (hand : HandWithEmpty) : Exc string :=
  ev <- evaluate hand ;;
  let '(_, _, name) := ev in ret name.

Definition get_hand_rank (hand : HandWithEmpty) : Exc Z :=
  ev <- evaluate hand ;;
  let '(rank, _, _) := ev in ret rank.

(** ** robot_actions.py: views of an action list *)

Definition z_in (z : Z) (l : list Z) : bool := existsb (Z.eqb z) l.

(** The loop of [get_swap_positions], [positions] being the list built so
    far. *)
Fixpoint swap_positions_from (positions : list Z) (actions : list string)
  : Exc (list Z) :=
  match actions with
  | [] => ret positions
  | action :: rest =>
      if Str.startswith action "take card " then
        w <- item_last (Str.split action) ;;
        pos <- Str.int w ;;
        if negb (z_in pos positions)
        then swap_positions_from (positions ++ [pos]) rest
        else swap_positions_from positions rest
      else swap_positions_from positions rest
  end.

Definition get_swap_positions (actions : list string) : Exc (list Z) :=
  swap_positions_from [] actions.

(** ** deck.py

    [random.Random] is taken as a parameter: [Rng] is the generator state
    and [choice] is [Random.choice]. The set of used cards is a list
    without repetition. *)

Definition set_mem (c : Card) (s : list Card) : bool := existsb (card_eqb c) s.

(** [s.add(c)] *)
Definition set_add (c : Card) (s : list Card) : list Card :=
  if set_mem c s then s else s ++ [c].

Section DeckModel.

Variable Rng : Type.
Variable choice : Rng -> list Card -> Card * Rng.

Record Deck : Type := {
  _all_cards : list Card;
  _used_cards : list Card;
  _rng : Rng
}.

(** [Deck.__init__], given the generator [random.Random(seed)]. *)
Definition Deck_init (rng : Rng) : Deck :=
  {| _all_cards := create_full_deck; _used_cards := []; _rng := rng |}.

Definition reset (self : Deck) : Deck :=
  {| _all_cards := _all_cards self; _used_cards := []; _rng := _rng self |}.

Definition available_cards (self : Deck) : list Card :=
  filter (fun c => negb (set_mem c (_used_cards self))) (_all_cards self).

Definition draw_card (self : Deck) : option Card * Deck :=
  let available := available_cards self in
  if is_empty available then (None, self)
  else
    let '(card, rng) := choice (_rng self) available in
    (Some card,
     {| _all_cards := _all_cards self;
        _used_cards := set_add card (_used_cards self);
        _rng := rng |}).

(** The loop of [draw_cards], with its [break]. *)
Fixpoint draw_loop (n : nat) (self : Deck) : list Card * Deck :=
  match n with
  | O => ([], self)
  | S n' =>
      match draw_card self with
      | (None, self') => ([], self')
      | (Some card, self') =>
          let '(cards, self'') := draw_loop n' self' in (card :: cards, self'')
      end
  end.

Definition draw_cards (count : Z) (self : Deck) : list Card * Deck :=
  draw_loop (Z.to_nat count) self.

Definition mark_used (card : Card) (self : Deck) : Deck :=
  {| _all_cards := _all_cards self;
     _used_cards := set_add card (_used_cards self);
     _rng := _rng self |}.

Definition mark_cards_used (cards : list Card) (self : Deck) : Deck :=
  fold_left (fun d card => mark_used card d) cards self.

Definition remaining_count (self : Deck) : Z :=
  52 - Z.of_nat (length (_used_cards self)).

Definition is_available (card : Card) (self : Deck) : bool :=
  negb (set_mem card (_used_cards self)).

Definition generate_initial_hand (self : Deck) : list Card * Deck :=
  draw_cards 5 self.

Definition get_used_cards (self : Deck) : list Card := _used_cards self.

End DeckModel.

Arguments _all_cards {Rng} _.
Arguments _used_cards {Rng} _.
Arguments _rng {Rng} _.
Arguments Deck_init {Rng} _.
Arguments reset {Rng} _.
Arguments available_cards {Rng} _.
Arguments draw_card {Rng} _ _.
Arguments draw_loop {Rng} _ _ _.
Arguments draw_cards {Rng} _ _ _.
Arguments mark_used {Rng} _ _.
Arguments mark_cards_used {Rng} _ _.
Arguments remaining_count {Rng} _.
Arguments is_available {Rng} _ _.
Arguments generate_initial_hand {Rng} _ _.
Arguments get_used_cards {Rng} _.

(** A text made of blanks only, in the sense of [str.isspace]. *)
Fixpoint blank (s : string) : bool :=
  match s with
  | EmptyString => true
  | String c s' => Str.isspace c && blank s'
  end.

(** ** Deck states *)

(** What every method of [Deck] maintains: the card list is the full
    deck and the used set holds no card twice. *)
Definition deck_ok {Rng} (self : Deck Rng) : Prop :=
  _all_cards self = create_full_deck /\ NoDup (_used_cards self).

(** The used set holds cards of the deck only. *)
Definition used_in_deck {Rng} (self : Deck Rng) : Prop :=
  forall c, In c (_used_cards self) -> is_valid_card c = true.

(** A generator for running the deck: the state is a counter, the choice
    is the element at the counter modulo the length. *)
Definition pick (r : nat) (l : list Card) : Card * nat :=
  (nth (r mod length l) l (0, ""), S r).

(** ** Vocabulary of the further properties *)

(** The number of ranks in the tiebreak key of each category. *)
Definition tiebreak_length (hr : Z) : nat :=
  if (hr =? 0) || (hr =? 5) then 5
  else if hr =? 1 then 4
  else if (hr =? 2) || (hr =? 3) then 3
  else if (hr =? 6) || (hr =? 7) then 2
  else 1.

(** Category, key length and name, row by row. *)
Definition category_table : list (Z * nat * string) :=
  [(0, 5%nat, "High Card"); (1, 4%nat, "One Pair"); (2, 3%nat, "Two Pair");
   (3, 3%nat, "Three of a Kind"); (4, 1%nat, "Straight"); (5, 5%nat, "Flush");
   (6, 2%nat, "Full House"); (7, 2%nat, "Four of a Kind");
   (8, 1%nat, "Straight Flush"); (9, 1%nat, "Royal Flush")].

(** The integer [compare_hands] computes from two evaluations. *)
Definition compare_results (e1 e2 : EvaluationResult) : Z :=
  let '(rank1, tb1, _) := e1 in
  let '(rank2, tb2, _) := e2 in
  if negb (rank1 =? rank2) then (if rank1 >? rank2 then 1 else -1)
  else compare_tiebreakers tb1 tb2.

(** A rank held by exactly one card of the hand. *)
Definition single_rank (ranks : list Z) (r : Z) : bool :=
  Nat.eqb (count_occ Z.eq_dec ranks r) 1.

(** The number of unmatched cards of a category with matched ranks. *)
Definition unmatched_cards (hr : Z) : nat :=
  if hr =? 1 then 3 else if hr =? 2 then 1 else 2.

(** The multiplicity of the matched ranks of a category. *)
Definition matched_count (hr : Z) : nat := if hr =? 3 then 3 else 2.

(** The multiplicities of a hand of category [hr] with matched ranks. *)
Definition multiples_profile (l : list Z) (hr : Z) : Prop :=
  length (filter (single_rank l) l) = unmatched_cards hr
  /\ forall x, In x l ->
               count_occ Z.eq_dec l x = 1%nat
               \/ count_occ Z.eq_dec l x = matched_count hr.

(** All cards of one suit. *)
Definition one_suit (cards : list Card) : Prop :=
  forall c c', In c cards -> In c' cards -> snd c = snd c'.

(** The 1-indexed holder of a position, as [int] reads it back. *)
Definition holder (p : nat) : Z := Z.of_nat p + 1.

(** * Properties *)

(** ** Scenarios of the test suite, run on the model *)

Example royal_flush_kept :
  evaluate (full royal_hand) = ret (ROYAL_FLUSH, [14], "Royal Flush")
  /\ get_discard_positions (full royal_hand) "standard" = ret [].
Proof. split; reflexivity. Qed.

Example one_pair_discards_three :
  evaluate (full pair_hand) = ret (ONE_PAIR, [10; 7; 5; 3], "One Pair")
  /\ get_discard_positions (full pair_hand) "standard" = ret [2; 3; 4]%nat
  /\ (exists l, get_poker_actions (full pair_hand) "standard" = ret l
                /\ length l = 24%nat).
Proof. repeat split; try reflexivity. eexists; split; reflexivity. Qed.

Example three_of_a_kind_discards_two :
  evaluate (full trips_hand) = ret (THREE_OF_A_KIND, [7; 9; 2], "Three of a Kind")
  /\ get_discard_positions (full trips_hand) "standard" = ret [3; 4]%nat.
Proof. split; reflexivity. Qed.

Example two_pair_discards_one :
  evaluate (full two_pair_hand) = ret (TWO_PAIR, [10; 5; 7], "Two Pair")
  /\ get_discard_positions (full two_pair_hand) "conservative" = ret [4]%nat.
Proof. split; reflexivity. Qed.

Example four_to_flush_keeps_flush_draw :
  get_discard_positions (full flush_draw_hand) "standard" = ret [4]%nat.
Proof. reflexivity. Qed.

(** ** Sorting *)

Section SortFacts.

Lemma insert_desc_perm (x : Z) (l : list Z) :
  Permutation (insert_desc x l) (x :: l).
Proof.
  induction l as [|y l IH]; simpl.
  - reflexivity.
  - destruct (y <=? x).
    + reflexivity.
    + rewrite IH. apply perm_swap.
Qed.

Lemma sorted_desc_perm (l : list Z) : Permutation (sorted_desc l) l.
Proof.
  induction l as [|x l IH]; simpl.
  - reflexivity.
  - rewrite insert_desc_perm. now constructor.
Qed.

Lemma sorted_desc_length (l : list Z) : length (sorted_desc l) = length l.
Proof. apply Permutation_length, sorted_desc_perm. Qed.

Lemma sorted_desc_In (l : list Z) (x : Z) : In x (sorted_desc l) <-> In x l.
Proof.
  split; apply Permutation_in; [|symmetry]; apply sorted_desc_perm.
Qed.

Lemma insert_desc_comm (x y : Z) (l : list Z) :
  insert_desc x (insert_desc y l) = insert_desc y (insert_desc x l).
Proof.
  induction l as [|a l IH]; simpl.
  - destruct (Z.leb_spec y x), (Z.leb_spec x y); try reflexivity; try lia.
    replace y with x by lia. reflexivity.
  - destruct (Z.leb_spec a y), (Z.leb_spec a x); simpl;
      repeat match goal with
             | |- context [?u <=? ?v] => destruct (Z.leb_spec u v)
             end; try reflexivity; try lia.
    + replace y with x by lia. reflexivity.
    + now rewrite IH.
Qed.

Lemma sorted_desc_Permutation (l l' : list Z) :
  Permutation l l' -> sorted_desc l = sorted_desc l'.
Proof.
  induction 1; simpl.
  - reflexivity.
  - now f_equal.
  - apply insert_desc_comm.
  - congruence.
Qed.

Lemma insert_desc_sorted (x : Z) (l : list Z) :
  StronglySorted Z.ge l -> StronglySorted Z.ge (insert_desc x l).
Proof.
  induction 1 as [|y l Hs IH Hall]; simpl.
  - repeat constructor.
  - destruct (Z.leb_spec y x).
    + constructor.
      * now constructor.
      * constructor; [lia|].
        eapply Forall_impl; [|exact Hall]. simpl. intros; lia.
    + constructor; [exact IH|].
      eapply Permutation_Forall.
      * symmetry. apply insert_desc_perm.
      * constructor; [lia|exact Hall].
Qed.

Lemma sorted_desc_sorted (l : list Z) : StronglySorted Z.ge (sorted_desc l).
Proof.
  induction l; simpl.
  - constructor.
  - now apply insert_desc_sorted.
Qed.

Context {A : Type} (key : A -> Z).

Lemma insert_by_perm (x : A) (l : list A) :
  Permutation (insert_by key x l) (x :: l).
Proof.
  induction l as [|y l IH]; simpl.
  - reflexivity.
  - destruct (key x <=? key y).
    + reflexivity.
    + rewrite IH. apply perm_swap.
Qed.

Lemma sort_by_perm (l : list A) : Permutation (sort_by key l) l.
Proof.
  induction l as [|x l IH]; simpl.
  - reflexivity.
  - rewrite insert_by_perm. now constructor.
Qed.

Lemma insert_by_sorted (x : A) (l : list A) :
  StronglySorted (key_le key) l -> StronglySorted (key_le key) (insert_by key x l).
Proof.
  induction 1 as [|y l Hs IH Hall]; simpl.
  - repeat constructor.
  - destruct (Z.leb_spec (key x) (key y)).
    + constructor.
      * now constructor.
      * constructor; [exact H|].
        eapply Forall_impl; [|exact Hall]. unfold key_le. intros; lia.
    + constructor; [exact IH|].
      eapply Permutation_Forall.
      * symmetry. apply insert_by_perm.
      * constructor; [unfold key_le; lia|exact Hall].
Qed.

Lemma sort_by_sorted (l : list A) : StronglySorted (key_le key) (sort_by key l).
Proof.
  induction l; simpl.
  - constructor.
  - now apply insert_by_sorted.
Qed.

End SortFacts.

(** ** Counters *)

Section CounterFacts.

Context {K : Type} (eqb : K -> K -> bool).
Hypothesis eqb_spec : forall x y, reflect (x = y) (eqb x y).
Variable dec : forall x y : K, {x = y} + {x <> y}.

Lemma counter_get_incr (c : list (K * nat)) (k k' : K) :
  counter_get eqb (counter_incr eqb k c) k'
  = if eqb k' k then S (counter_get eqb c k') else counter_get eqb c k'.
Proof.
  induction c as [|[a n] c IH]; simpl.
  - destruct (eqb_spec k' k); reflexivity.
  - destruct (eqb_spec k a) as [->|Hka]; simpl.
    + destruct (eqb_spec k' a); reflexivity.
    + destruct (eqb_spec k' a) as [->|Hk'a].
      * destruct (eqb_spec a k); [congruence|reflexivity].
      * exact IH.
Qed.

Lemma counter_incr_keys (c : list (K * nat)) (k x : K) :
  In x (map fst (counter_incr eqb k c)) <-> x = k \/ In x (map fst c).
Proof.
  induction c as [|[a n] c IH]; simpl.
  - intuition.
  - destruct (eqb_spec k a) as [->|Hka]; simpl.
    + intuition.
    + rewrite IH. intuition.
Qed.

Lemma counter_incr_NoDup (c : list (K * nat)) (k : K) :
  NoDup (map fst c) -> NoDup (map fst (counter_incr eqb k c)).
Proof.
  induction c as [|[a n] c IH]; simpl; intros Hnd.
  - repeat constructor. intros [].
  - inversion Hnd as [|? ? Hnotin Hnd']; subst.
    destruct (eqb_spec k a) as [->|Hka]; simpl.
    + now constructor.
    + constructor; [|now apply IH].
      rewrite counter_incr_keys. intros [->|Hin]; [congruence|contradiction].
Qed.

Lemma counter_incr_pos (c : list (K * nat)) (k : K) :
  Forall (fun kc => (0 < snd kc)%nat) c ->
  Forall (fun kc => (0 < snd kc)%nat) (counter_incr eqb k c).
Proof.
  induction 1 as [|[a n] c Ha Hc IH]; simpl.
  - repeat constructor.
  - destruct (eqb k a); constructor; simpl in *; auto; lia.
Qed.

Lemma Counter_fold (l : list K) (acc : list (K * nat)) :
  counter_wf acc ->
  counter_wf (fold_left (fun c k => counter_incr eqb k c) l acc)
  /\ forall k, counter_get eqb (fold_left (fun c k => counter_incr eqb k c) l acc) k
               = (counter_get eqb acc k + count_occ dec l k)%nat.
Proof.
  revert acc. induction l as [|x l IH]; simpl; intros acc [Hnd Hpos].
  - split; [now split|]. intros; lia.
  - destruct (IH (counter_incr eqb x acc)) as [Hwf Hget].
    { split; [now apply counter_incr_NoDup|now apply counter_incr_pos]. }
    split; [exact Hwf|].
    intros k. rewrite Hget, counter_get_incr.
    destruct (dec x k) as [->|Hxk].
    + destruct (eqb_spec k k); [lia|congruence].
    + destruct (eqb_spec k x); [congruence|lia].
Qed.

Lemma Counter_wf (l : list K) : counter_wf (Counter eqb l).
Proof. apply Counter_fold. split; constructor. Qed.

Lemma Counter_get (l : list K) (k : K) :
  counter_get eqb (Counter eqb l) k = count_occ dec l k.
Proof.
  unfold Counter. destruct (Counter_fold l []) as [_ Hget].
  - split; constructor.
  - now rewrite Hget.
Qed.

Lemma counter_get_In (c : list (K * nat)) (k : K) (n : nat) :
  counter_wf c -> (In (k, n) c <-> counter_get eqb c k = n /\ (0 < n)%nat).
Proof.
  induction c as [|[a m] c IH]; simpl; intros [Hnd Hpos].
  - split; [intros []|intros [<- ?]; lia].
  - inversion Hnd as [|? ? Hnotin Hnd']; subst.
    inversion Hpos as [|? ? Hm Hpos']; subst. simpl in Hm.
    destruct (eqb_spec k a) as [->|Hka].
    + split.
      * intros [Heq|Hin].
        -- inversion Heq; subst. now split.
        -- exfalso. apply Hnotin. now apply (in_map fst) in Hin.
      * intros [<- _]. now left.
    + rewrite <- IH by now split.
      split.
      * intros [Heq|Hin]; [congruence|exact Hin].
      * intros Hin. now right.
Qed.

Lemma Counter_In (l : list K) (k : K) (n : nat) :
  In (k, n) (Counter eqb l) <-> count_occ dec l k = n /\ (0 < n)%nat.
Proof.
  rewrite counter_get_In by apply Counter_wf. now rewrite Counter_get.
Qed.

Lemma keys_with_count_In (l : list K) (k : K) (n : nat) :
  (0 < n)%nat ->
  In k (keys_with_count n (Counter eqb l)) <-> count_occ dec l k = n.
Proof.
  intros Hn. unfold keys_with_count. rewrite in_map_iff. split.
  - intros [[k' m] [Hk Hin]]. simpl in Hk. subst k'.
    apply filter_In in Hin as [Hin Hm]. simpl in Hm.
    apply Nat.eqb_eq in Hm. subst m.
    now apply Counter_In in Hin.
  - intros Hc. exists (k, n). split; [reflexivity|].
    apply filter_In. split.
    + apply Counter_In. now split.
    + simpl. apply Nat.eqb_refl.
Qed.

Lemma count_in_values_keys (n : nat) (c : list (K * nat)) :
  count_in_values n c = negb (is_empty (keys_with_count n c)).
Proof.
  unfold count_in_values, keys_with_count.
  induction c as [|[a m] c IH]; simpl.
  - reflexivity.
  - destruct (Nat.eqb m n); simpl; [reflexivity|exact IH].
Qed.

End CounterFacts.

Lemma is_empty_false_In {A} (l : list A) :
  is_empty l = false <-> exists x, In x l.
Proof.
  destruct l; simpl; split; try discriminate.
  - intros [x []].
  - intros _. eexists. now left.
  - reflexivity.
Qed.

(** Permuting the counted list keeps the keys of a given multiplicity. *)
Lemma keys_with_count_perm (l l' : list Z) (n : nat) (k : Z) :
  (0 < n)%nat -> Permutation l l' ->
  In k (keys_with_count n (Counter Z.eqb l)) ->
  In k (keys_with_count n (Counter Z.eqb l')).
Proof.
  intros Hn Hp.
  rewrite !(keys_with_count_In Z.eqb Z.eqb_spec Z.eq_dec) by exact Hn.
  intros <-. symmetry.
  now apply (proj1 (Permutation_count_occ Z.eq_dec l l')).
Qed.

(** ** The evaluator *)

Lemma subscript_all_full (cards : list Card) :
  subscript_all (full cards) = ret cards.
Proof.
  unfold full. induction cards as [|c cards IH]; simpl.
  - reflexivity.
  - now rewrite IH.
Qed.

Lemma subscript_all_None (hand : HandWithEmpty) :
  In None hand ->
  subscript_all hand = raise (TypeError "'NoneType' object is not subscriptable").
Proof.
  induction hand as [|[c|] hand IH]; simpl.
  - intros [].
  - intros [Hc|Hin]; [discriminate|]. now rewrite IH.
  - reflexivity.
Qed.

Lemma slots_full_or_None (hand : HandWithEmpty) :
  (exists cards, hand = full cards) \/ In None hand.
Proof.
  induction hand as [|[c|] hand IH].
  - left. now exists [].
  - destruct IH as [[cards ->]|Hin].
    + left. now exists (c :: cards).
    + right. now right.
  - right. now left.
Qed.

Lemma full_no_None (cards : list Card) : ~ In None (full cards).
Proof.
  unfold full. rewrite in_map_iff. intros [c [Hc _]]. discriminate.
Qed.

Lemma full_length (cards : list Card) : length (full cards) = length cards.
Proof. apply length_map. Qed.

(** [evaluate] on five cards is [classify]. *)
Lemma evaluate_full (cards : list Card) :
  length cards = 5%nat -> evaluate (full cards) = classify cards.
Proof.
  intros Hlen. unfold evaluate.
  rewrite full_length, Hlen, subscript_all_full. reflexivity.
Qed.

Lemma classify_unfold (cards : list Card) :
  classify cards = classify_on (sorted_desc (map fst cards)) (flush_test cards).
Proof. reflexivity. Qed.

Ltac split_eqb :=
  repeat match goal with
         | |- context [Z.eqb ?x ?y] =>
             destruct (Z.eqb_spec x y); [subst|]; simpl; try congruence
         end.

(** Every list of five ranks gets a result: the [[...][0]] reads of
    [evaluate] never fail. *)
Lemma classify_on_total (ranks : list Z) (is_flush : bool) :
  length ranks = 5%nat -> exists r, classify_on ranks is_flush = ret r.
Proof.
  intros Hlen.
  destruct ranks as [|a [|b [|c [|d [|e [|? ?]]]]]]; try discriminate.
  unfold classify_on.
  destruct (_check_straight [a; b; c; d; e]) as [is_straight straight_high].
  destruct (is_flush && is_straight && (straight_high =? 14)); [eauto|].
  destruct (is_flush && is_straight); [eauto|].
  destruct is_flush, is_straight;
    unfold Counter; simpl; split_eqb; eauto.
Qed.

Lemma classify_on_facts (ranks : list Z) (is_flush : bool) hr tb nm :
  classify_on ranks is_flush = ret (hr, tb, nm) ->
  category_facts ranks is_flush hr tb.
Proof.
  unfold classify_on.
  destruct (_check_straight ranks) as [is_straight straight_high] eqn:Hcs.
  intros Hc.
  repeat match type of Hc with
         | (if ?c then _ else _) = _ => destruct c eqn:?
         | bind (item0 ?l) _ = _ => destruct l eqn:?; simpl in Hc; [discriminate|]
         end;
    inversion Hc; subst; clear Hc;
    unfold ROYAL_FLUSH, STRAIGHT_FLUSH, FOUR_OF_A_KIND, FULL_HOUSE, FLUSH,
      STRAIGHT, THREE_OF_A_KIND, TWO_PAIR, ONE_PAIR, HIGH_CARD;
    (split; [lia|try (intros; lia)..]).
  all: intros _; rewrite ?Hcs; simpl fst.
  - assumption.
  - match goal with
    | E : Nat.eqb _ _ = true |- _ => apply Nat.eqb_eq in E; exact E
    end.
  - match goal with
    | E : Nat.eqb _ _ = true, E' : keys_with_count 2 _ = _ |- _ =>
        apply Nat.eqb_eq in E; rewrite E'; exact E
    end.
  - repeat match goal with
           | H : Nat.eqb _ _ = false |- _ => apply Nat.eqb_neq in H
           end.
    repeat split; try assumption.
    destruct (keys_with_count 2 (Counter Z.eqb tb)) as [|? [|? [|? ?]]];
      simpl in *; try lia; auto.
Qed.

Lemma classify_total (cards : list Card) :
  length cards = 5%nat -> exists r, classify cards = ret r.
Proof.
  intros Hlen. rewrite classify_unfold. apply classify_on_total.
  now rewrite sorted_desc_length, length_map.
Qed.

Lemma nodup_length_perm {A} (dec : forall x y : A, {x = y} + {x <> y})
  (l l' : list A) :
  Permutation l l' -> length (nodup dec l) = length (nodup dec l').
Proof.
  intros Hp. apply Permutation_length, NoDup_Permutation.
  - apply NoDup_nodup.
  - apply NoDup_nodup.
  - intros x. rewrite !nodup_In. split; apply Permutation_in; [|symmetry]; exact Hp.
Qed.

Lemma classify_perm (cards cards' : list Card) :
  Permutation cards cards' -> classify cards' = classify cards.
Proof.
  intros Hp. rewrite !classify_unfold. f_equal.
  - apply sorted_desc_Permutation. symmetry. now apply Permutation_map.
  - unfold flush_test. f_equal.
    apply nodup_length_perm. symmetry. now apply Permutation_map.
Qed.

(** C5, as stated, fails: a hand of five slots with an empty one gets past
    the length test and fails with [TypeError] when the empty slot is
    subscripted, not with the [ValueError] of [evaluate]. *)
Lemma evaluate_empty_slot_not_InvalidHand :
  ~ (forall hand : HandWithEmpty,
        evaluate hand = raise InvalidHand
        <-> (length hand <> 5%nat \/ In None hand)).
Proof.
  intros Hclaim.
  destruct (Hclaim partial_hand) as [_ Himp].
  assert (Hbad : evaluate partial_hand = raise InvalidHand).
  { apply Himp. right. simpl. auto. }
  vm_compute in Hbad. discriminate Hbad.
Qed.

(** C5 (amended): [evaluate] fails exactly when the input has not five
    entries or holds an empty slot; the failure is the InvalidHand
    [ValueError] exactly when the input has not five entries, and the
    [TypeError] of subscripting [None] exactly when it has five entries one
    of which is empty; on five cards it returns a result. *)
Theorem evaluate_failure_modes (hand : HandWithEmpty) :
  (raises (evaluate hand) = true <-> (length hand <> 5%nat \/ In None hand))
  /\ (evaluate hand = raise InvalidHand <-> length hand <> 5%nat)
  /\ (evaluate hand = raise NoneSubscript
      <-> (length hand = 5%nat /\ In None hand))
  /\ ((length hand = 5%nat /\ ~ In None hand)
      <-> exists r, evaluate hand = ret r).
Proof.
  unfold evaluate, InvalidHand, NoneSubscript.
  assert (Hex : forall e : exn,
             (exists r : EvaluationResult, raise e = ret r) -> False)
    by (intros e [r Hr]; discriminate).
  destruct (Nat.eqb_spec (length hand) 5) as [Hlen|Hlen]; simpl.
  - destruct (slots_full_or_None hand) as [[cards ->]|Hnone].
    + rewrite subscript_all_full. simpl.
      pose proof Hlen as Hlen'. rewrite full_length in Hlen'.
      destruct (classify_total cards Hlen') as [r Hr]. rewrite Hr.
      pose proof (full_no_None cards) as Hfull.
      split; [|split; [|split]]; split; intros; simpl in *;
        try discriminate; try tauto; eauto.
    + rewrite (subscript_all_None hand Hnone). simpl.
      split; [|split; [|split]]; split; intros; simpl in *;
        try discriminate; try tauto; auto.
      exfalso. eapply Hex. eassumption.
  - split; [|split; [|split]]; split; intros; simpl in *;
      try discriminate; try tauto; auto.
    exfalso. eapply Hex. eassumption.
Qed.

(** C8: a permuted copy of five cards gets the same category, tiebreak
    sequence and name, and the category is one of 0..9. *)
Theorem evaluate_permutation_invariant (cards cards' : list Card) :
  length cards = 5%nat ->
  Permutation cards cards' ->
  exists hr tb nm,
    evaluate (full cards) = ret (hr, tb, nm)
    /\ evaluate (full cards') = ret (hr, tb, nm)
    /\ In hr [0; 1; 2; 3; 4; 5; 6; 7; 8; 9].
Proof.
  intros Hlen Hp.
  assert (Hlen' : length cards' = 5%nat)
    by now rewrite <- (Permutation_length Hp).
  rewrite !evaluate_full by assumption.
  rewrite (classify_perm cards cards' Hp).
  destruct (classify_total cards Hlen) as [[[hr tb] nm] Hr].
  exists hr, tb, nm. repeat split; try assumption.
  rewrite classify_unfold in Hr.
  destruct (classify_on_facts _ _ _ _ _ Hr) as [Hrange _ _ _ _].
  simpl.
  assert (hr = 0 \/ hr = 1 \/ hr = 2 \/ hr = 3 \/ hr = 4 \/ hr = 5 \/ hr = 6
          \/ hr = 7 \/ hr = 8 \/ hr = 9) by lia.
  intuition.
Qed.

Lemma evaluate_permutation_invariant_witness :
  exists hr tb nm,
    evaluate (full pair_hand) = ret (hr, tb, nm)
    /\ evaluate (full (rev pair_hand)) = ret (hr, tb, nm)
    /\ In hr [0; 1; 2; 3; 4; 5; 6; 7; 8; 9].
Proof.
  apply (evaluate_permutation_invariant pair_hand (rev pair_hand)).
  - reflexivity.
  - apply Permutation_rev.
Defined.

(** ** The strategy: thresholds and made hands *)

Lemma threshold_cases (m : string) :
  (m = "conservative" /\ threshold (PokerStrategy_init m) = FULL_HOUSE)
  \/ (m = "standard" /\ threshold (PokerStrategy_init m) = STRAIGHT)
  \/ (m = "aggressive" /\ threshold (PokerStrategy_init m) = FOUR_OF_A_KIND)
  \/ (~ In m known_modes /\ threshold (PokerStrategy_init m) = STRAIGHT).
Proof.
  unfold PokerStrategy_init, KEEP_THRESHOLD, known_modes. simpl.
  destruct (String.eqb_spec m "conservative"); [auto|].
  destruct (String.eqb_spec m "standard"); [auto|].
  destruct (String.eqb_spec m "aggressive"); [auto|].
  right. right. right. split; [|reflexivity].
  intros [E|[E|[E|[]]]]; congruence.
Qed.

(** The first test of [get_cards_to_discard]. *)
Lemma discard_at_threshold (self : PokerStrategy) (hand : HandWithEmpty) hr tb nm :
  evaluate hand = ret (hr, tb, nm) ->
  threshold self <= hr ->
  get_cards_to_discard self hand = ret [].
Proof.
  intros Hev Hge. unfold get_cards_to_discard. rewrite Hev. simpl.
  destruct (Z.geb_spec hr (threshold self)); [reflexivity|lia].
Qed.

(** The four "keep all" tests that follow it. *)
Lemma discard_made_hand (self : PokerStrategy) (cards : list Card) hr tb nm :
  evaluate (full cards) = ret (hr, tb, nm) ->
  In hr [STRAIGHT; FLUSH; FULL_HOUSE; FOUR_OF_A_KIND] ->
  get_cards_to_discard self (full cards) = ret [].
Proof.
  intros Hev Hin. unfold get_cards_to_discard. rewrite Hev. simpl.
  destruct (hr >=? threshold self); [reflexivity|].
  rewrite subscript_all_full. simpl.
  unfold STRAIGHT, FLUSH, FULL_HOUSE, FOUR_OF_A_KIND in *.
  simpl in Hin. destruct Hin as [<-|[<-|[<-|[<-|[]]]]]; reflexivity.
Qed.

(** C1: a hand whose category reaches the mode's keep-threshold (FullHouse
    for conservative, Straight for standard, FourOfAKind for aggressive) is
    kept whole, and a hand of category Straight or better is kept whole under
    every mode. *)
Theorem made_hands_are_kept (cards : list Card) (m : string) :
  length cards = 5%nat ->
  In m known_modes ->
  threshold (PokerStrategy_init "conservative") = FULL_HOUSE
  /\ threshold (PokerStrategy_init "standard") = STRAIGHT
  /\ threshold (PokerStrategy_init "aggressive") = FOUR_OF_A_KIND
  /\ exists hr tb nm,
      evaluate (full cards) = ret (hr, tb, nm)
      /\ (threshold (PokerStrategy_init m) <= hr ->
          get_discard_positions (full cards) m = ret [])
      /\ (In hr [STRAIGHT; FLUSH; FULL_HOUSE; FOUR_OF_A_KIND;
                 STRAIGHT_FLUSH; ROYAL_FLUSH] ->
          forall m', In m' known_modes ->
                     get_discard_positions (full cards) m' = ret []).
Proof.
  intros Hlen Hm.
  split; [reflexivity|]. split; [reflexivity|]. split; [reflexivity|].
  pose proof (evaluate_full cards Hlen) as Hev.
  destruct (classify_total cards Hlen) as [[[hr tb] nm] Hr].
  rewrite Hr in Hev.
  exists hr, tb, nm. split; [exact Hev|]. split.
  - intros Hge. unfold get_discard_positions.
    now apply (discard_at_threshold _ _ hr tb nm).
  - intros Hmade m' _. unfold get_discard_positions.
    simpl in Hmade.
    destruct Hmade as [E|[E|[E|[E|Hhigh]]]];
      try (apply (discard_made_hand _ _ hr tb nm Hev); rewrite <- E; simpl; tauto).
    apply (discard_at_threshold _ _ hr tb nm Hev).
    unfold STRAIGHT_FLUSH, ROYAL_FLUSH in Hhigh.
    destruct (threshold_cases m') as [[_ ->]|[[_ ->]|[[_ ->]|[_ ->]]]];
      unfold FULL_HOUSE, STRAIGHT, FOUR_OF_A_KIND;
      destruct Hhigh as [<-|[<-|[]]]; lia.
Qed.

Lemma made_hands_are_kept_witness :
  threshold (PokerStrategy_init "conservative") = FULL_HOUSE
  /\ threshold (PokerStrategy_init "standard") = STRAIGHT
  /\ threshold (PokerStrategy_init "aggressive") = FOUR_OF_A_KIND
  /\ exists hr tb nm,
      evaluate (full wheel_hand) = ret (hr, tb, nm)
      /\ (threshold (PokerStrategy_init "conservative") <= hr ->
          get_discard_positions (full wheel_hand) "conservative" = ret [])
      /\ (In hr [STRAIGHT; FLUSH; FULL_HOUSE; FOUR_OF_A_KIND;
                 STRAIGHT_FLUSH; ROYAL_FLUSH] ->
          forall m', In m' known_modes ->
                     get_discard_positions (full wheel_hand) m' = ret []).
Proof.
  apply (made_hands_are_kept wheel_hand "conservative").
  - reflexivity.
  - simpl. auto.
Defined.

(** C10: a mode string that is not a key of [KEEP_THRESHOLD] builds a
    strategy without error, with the Straight threshold, which discards
    exactly as "standard" does on every hand. *)
Theorem unknown_mode_is_standard (m : string) (hand : HandWithEmpty) :
  ~ In m known_modes ->
  PokerStrategy_init m = {| mode := m; threshold := STRAIGHT |}
  /\ get_discard_positions hand m = get_discard_positions hand "standard".
Proof.
  intros Hm.
  assert (Hinit : PokerStrategy_init m = {| mode := m; threshold := STRAIGHT |}).
  { destruct (threshold_cases m) as [[-> _]|[[-> _]|[[-> _]|[_ Ht]]]];
      try (exfalso; apply Hm; simpl; tauto).
    unfold PokerStrategy_init in *. f_equal. exact Ht. }
  split; [exact Hinit|].
  unfold get_discard_positions. rewrite Hinit. reflexivity.
Qed.

Lemma unknown_mode_is_standard_witness :
  PokerStrategy_init "agressive" = {| mode := "agressive"; threshold := STRAIGHT |}
  /\ get_discard_positions (full trips_hand) "agressive"
     = get_discard_positions (full trips_hand) "standard".
Proof.
  apply (unknown_mode_is_standard "agressive" (full trips_hand)).
  simpl. intros [E|[E|[E|[]]]]; discriminate E.
Defined.

(** ** Positions read off [enumerate] *)

Section Enumerate.

Context {A : Type}.

Lemma combine_seq_In (l : list A) (s i : nat) (x : A) :
  In (i, x) (combine (seq s (length l)) l)
  <-> (s <= i)%nat /\ nth_error l (i - s) = Some x.
Proof.
  revert s. induction l as [|a l IH]; intros s; simpl.
  - split; [intros []|]. intros [_ Hn]. destruct (i - s)%nat; discriminate.
  - rewrite IH. split.
    + intros [Heq|[Hle Hn]].
      * inversion Heq; subst. rewrite Nat.sub_diag. simpl. auto.
      * split; [lia|].
        replace (i - s)%nat with (S (i - S s)) by lia. exact Hn.
    + intros [Hle Hn].
      destruct (Nat.eq_dec i s) as [->|Hne].
      * rewrite Nat.sub_diag in Hn. simpl in Hn. left. congruence.
      * right. split; [lia|].
        replace (i - s)%nat with (S (i - S s)) in Hn by lia. exact Hn.
Qed.

Lemma enumerate_In (l : list A) (i : nat) (x : A) :
  In (i, x) (enumerate l) <-> nth_error l i = Some x.
Proof.
  unfold enumerate. rewrite combine_seq_In, Nat.sub_0_r.
  split; [tauto|]. intros Hn. split; [lia|exact Hn].
Qed.

Lemma enumerate_fst (l : list A) : map fst (enumerate l) = seq 0 (length l).
Proof.
  unfold enumerate. generalize 0%nat.
  induction l as [|a l IH]; intros s; simpl; [reflexivity|]. now rewrite IH.
Qed.

Lemma seq_sorted (s n : nat) : StronglySorted lt (seq s n).
Proof.
  revert s. induction n as [|n IH]; intros s; simpl; constructor.
  - apply IH.
  - apply Forall_forall. intros x Hx. apply in_seq in Hx. lia.
Qed.

Lemma filter_sorted {B} (R : B -> B -> Prop) (f : B -> bool) (l : list B) :
  StronglySorted R l -> StronglySorted R (filter f l).
Proof.
  induction 1 as [|b l Hs IH Hall]; simpl; [constructor|].
  destruct (f b); [|exact IH].
  constructor; [exact IH|].
  apply Forall_forall. intros x Hx. apply filter_In in Hx as [Hx _].
  rewrite Forall_forall in Hall. now apply Hall.
Qed.

Lemma sorted_fst_filter (f : nat * A -> bool) (l : list (nat * A)) :
  StronglySorted lt (map fst l) -> StronglySorted lt (map fst (filter f l)).
Proof.
  induction l as [|b l IH]; simpl; intros Hs; [constructor|].
  inversion Hs as [|? ? Hs' Hall]; subst.
  destruct (f b); simpl; [|now apply IH].
  constructor; [now apply IH|].
  rewrite Forall_forall in *. intros x Hx. apply Hall.
  apply in_map_iff in Hx as [p [<- Hp]]. apply filter_In in Hp as [Hp _].
  now apply in_map.
Qed.

Lemma sorted_lt_NoDup (l : list nat) : StronglySorted lt l -> NoDup l.
Proof.
  induction 1 as [|x l Hs IH Hall]; constructor; [|exact IH].
  intros Hin. rewrite Forall_forall in Hall. specialize (Hall x Hin). lia.
Qed.

End Enumerate.

Lemma positions_where_sorted (keep : Card -> bool) (hand : list Card) :
  StronglySorted lt (positions_where keep hand).
Proof.
  unfold positions_where. apply sorted_fst_filter.
  rewrite enumerate_fst. apply seq_sorted.
Qed.

Lemma positions_where_In (keep : Card -> bool) (hand : list Card) (i : nat) :
  In i (positions_where keep hand)
  <-> exists card, nth_error hand i = Some card /\ keep card = true.
Proof.
  unfold positions_where. rewrite in_map_iff. split.
  - intros [[j card] [Hj Hin]]. simpl in Hj. subst j.
    apply filter_In in Hin as [Hin Hk]. apply enumerate_In in Hin. eauto.
  - intros [card [Hn Hk]]. exists (i, card). split; [reflexivity|].
    apply filter_In. split; [now apply enumerate_In|exact Hk].
Qed.

Lemma positions_where_bound (keep : Card -> bool) (hand : list Card) (i : nat) :
  In i (positions_where keep hand) -> (i < length hand)%nat.
Proof.
  rewrite positions_where_In. intros [card [Hn _]].
  apply nth_error_Some. congruence.
Qed.

(** ** Fill actions and the action parser *)

Lemma flat_map_format {X} (f : X -> list Command) (l : list X) :
  flat_map (fun x => map format (f x)) l = map format (flat_map f l).
Proof.
  induction l as [|x l IH]; simpl; [reflexivity|].
  now rewrite IH, map_app.
Qed.

Lemma fill_actions_by_position (l : list (nat * Slot)) :
  flat_map
    (fun pc : nat * Slot =>
       let '(pos, card) := pc in
       match card with
       | None =>
           let holder_pos := (pos + 1)%nat in
           ["take deck";
            "default position";
            ("place at " ++ Str.of_nat holder_pos)%string;
            "default position"]
       | Some _ => []
       end) l
  = map format
      (flat_map fill_commands (map fst (filter (fun ic => is_None (snd ic)) l))).
Proof.
  induction l as [|[pos [c|]] l IH]; simpl in *.
  - reflexivity.
  - exact IH.
  - do 4 f_equal. exact IH.
Qed.

Lemma empty_positions_In (hand : HandWithEmpty) (i : nat) :
  In i (empty_positions hand) <-> nth_error hand i = Some None.
Proof.
  unfold empty_positions. rewrite in_map_iff. split.
  - intros [[j [c|]] [Hj Hin]]; simpl in Hj; subst j;
      apply filter_In in Hin as [Hin Hk]; simpl in Hk; [discriminate|].
    now apply enumerate_In.
  - intros Hn. exists (i, None). split; [reflexivity|].
    apply filter_In. split; [now apply enumerate_In|reflexivity].
Qed.

Lemma empty_positions_sorted (hand : HandWithEmpty) :
  StronglySorted lt (empty_positions hand).
Proof.
  unfold empty_positions. apply sorted_fst_filter.
  rewrite enumerate_fst. apply seq_sorted.
Qed.

Lemma count_swaps_fill (ps : list nat) :
  count_swaps (map format (flat_map fill_commands ps)) = 0%nat.
Proof.
  unfold count_swaps. induction ps as [|p ps IH]; simpl; [reflexivity|exact IH].
Qed.

(** C6: with an empty slot in the hand, the action list is the fill block
    [TakeDeck, DefaultPosition, PlaceAt(pos+1), DefaultPosition] of every
    empty position in ascending order and nothing else: the strategy is
    not run and no "take card" action appears; the partial hand of the
    test suite gets the fill blocks of holders 2 and 4, eight actions. *)
Theorem fill_only_when_incomplete (hand : HandWithEmpty) (m : string) :
  length hand = 5%nat ->
  In None hand ->
  get_poker_actions hand m
    = ret (map format (flat_map fill_commands (empty_positions hand)))
  /\ StronglySorted lt (empty_positions hand)
  /\ (forall i, In i (empty_positions hand) <-> nth_error hand i = Some None)
  /\ count_swaps (map format (flat_map fill_commands (empty_positions hand))) = 0%nat
  /\ (forall n, ~ In (format (TakeCard n))
                  (map format (flat_map fill_commands (empty_positions hand))))
  /\ get_poker_actions partial_hand m
     = ret (map format (fill_commands 1 ++ fill_commands 3))
  /\ length (map format (fill_commands 1 ++ fill_commands 3)) = 8%nat.
Proof.
  intros _ Hnone.
  split; [|split; [|split; [|split; [|split; [|split]]]]].
  - unfold get_poker_actions.
    fold (empty_positions hand).
    assert (Hne : is_empty (empty_positions hand) = false).
    { apply In_nth_error in Hnone as [i Hi].
      apply empty_positions_In in Hi.
      destruct (empty_positions hand); [destruct Hi|reflexivity]. }
    rewrite Hne. simpl.
    unfold generate_fill_actions, empty_positions.
    now rewrite fill_actions_by_position.
  - apply empty_positions_sorted.
  - apply empty_positions_In.
  - apply count_swaps_fill.
  - intros n Hin.
    pose proof (count_swaps_fill (empty_positions hand)) as Hc.
    unfold count_swaps in Hc.
    assert (Hf : In (format (TakeCard n))
                   (filter (fun a => Str.startswith a "take card ")
                      (map format (flat_map fill_commands (empty_positions hand))))).
    { apply filter_In. split; [exact Hin|].
      unfold Str.startswith, format. simpl.
      destruct (Str.of_nat n); reflexivity. }
    destruct (filter _ _); [destruct Hf|discriminate].
  - reflexivity.
  - reflexivity.
Qed.

Lemma fill_only_when_incomplete_witness :
  get_poker_actions partial_hand "standard"
    = ret (map format (flat_map fill_commands (empty_positions partial_hand)))
  /\ StronglySorted lt (empty_positions partial_hand)
  /\ (forall i, In i (empty_positions partial_hand)
                <-> nth_error partial_hand i = Some None)
  /\ count_swaps (map format (flat_map fill_commands (empty_positions partial_hand)))
     = 0%nat
  /\ (forall n, ~ In (format (TakeCard n))
                  (map format (flat_map fill_commands (empty_positions partial_hand))))
  /\ get_poker_actions partial_hand "standard"
     = ret (map format (fill_commands 1 ++ fill_commands 3))
  /\ length (map format (fill_commands 1 ++ fill_commands 3)) = 8%nat.
Proof.
  apply (fill_only_when_incomplete partial_hand "standard").
  - reflexivity.
  - simpl. auto.
Defined.

(** C9: every command of the vocabulary, written in lower case or in upper
    case, parses back to its own type and position. *)
Theorem parse_format_roundtrip (c : Command) :
  in_vocabulary c = true ->
  parse_action (format c) = ret (command_dict c)
  /\ parse_action (Str.upper (format c)) = ret (command_dict c)
  /\ Str.lower (format c) = format c.
Proof.
  assert (Hpos : forall n, position_ok n = true ->
                      (n = 1 \/ n = 2 \/ n = 3 \/ n = 4 \/ n = 5)%nat).
  { intros n Hn. unfold position_ok in Hn.
    apply andb_true_iff in Hn as [H1 H5].
    apply Nat.leb_le in H1, H5. lia. }
  destruct c as [n| | | |n]; simpl in_vocabulary; intros Hv;
    try (repeat split; reflexivity);
    destruct (Hpos n Hv) as [->|[->|[->|[->| ->]]]];
    repeat split; reflexivity.
Qed.

Lemma parse_format_roundtrip_witness :
  parse_action (format (PlaceAt 4)) = ret (command_dict (PlaceAt 4))
  /\ parse_action (Str.upper (format (PlaceAt 4))) = ret (command_dict (PlaceAt 4))
  /\ Str.lower (format (PlaceAt 4)) = format (PlaceAt 4).
Proof.
  apply (parse_format_roundtrip (PlaceAt 4)). reflexivity.
Defined.

(** ** The shape of a discard decision *)

Lemma firstn_incl {A} (n : nat) (l : list A) (x : A) :
  In x (firstn n l) -> In x l.
Proof.
  intros Hin. rewrite <- (firstn_skipn n l). apply in_or_app. now left.
Qed.

Lemma firstn_NoDup {A} (n : nat) (l : list A) : NoDup l -> NoDup (firstn n l).
Proof.
  intros Hnd. rewrite <- (firstn_skipn n l) in Hnd.
  now apply NoDup_app_remove_r in Hnd.
Qed.

Lemma firstn_sorted {A} (R : A -> A -> Prop) (n : nat) (l : list A) :
  StronglySorted R l -> StronglySorted R (firstn n l).
Proof.
  intros Hs. revert n. induction Hs as [|a l Hs IH Hall]; intros [|n]; simpl;
    try constructor.
  - apply IH.
  - rewrite Forall_forall in *. intros x Hx. apply Hall.
    now apply firstn_incl in Hx.
Qed.

Lemma keys_nonempty_perm (l l' : list Z) (n : nat) :
  (0 < n)%nat -> Permutation l l' ->
  is_empty (keys_with_count n (Counter Z.eqb l)) = false ->
  exists k rest, keys_with_count n (Counter Z.eqb l') = k :: rest.
Proof.
  intros Hn Hp Hne.
  apply is_empty_false_In in Hne as [k Hk].
  apply (keys_with_count_perm l l' n k Hn Hp) in Hk.
  destruct (keys_with_count n (Counter Z.eqb l')) as [|k' rest]; [destruct Hk|].
  eauto.
Qed.

Lemma by_rank_positions (cards : list Card) :
  Permutation (map fst (by_rank cards)) (seq 0 (length cards)).
Proof.
  unfold by_rank. rewrite sort_by_perm, map_map. simpl.
  now rewrite enumerate_fst.
Qed.

Lemma high_card_discards_cascade (cards : list Card) :
  high_card_discards cards
  = draw_cascade (flush_draw_discards cards) (_find_straight_draw cards)
      (map fst (firstn 3 (by_rank cards))).
Proof. reflexivity. Qed.

Lemma draw_cascade_cases (flush : list nat) (straight : option (list nat))
  (lowest : list nat) :
  (flush <> [] /\ draw_cascade flush straight lowest = flush)
  \/ (flush = []
      /\ exists straight_keep,
          straight = Some straight_keep
          /\ outside straight_keep <> []
          /\ draw_cascade flush straight lowest = outside straight_keep)
  \/ (flush = []
      /\ (straight = None
          \/ exists straight_keep,
              straight = Some straight_keep /\ outside straight_keep = [])
      /\ draw_cascade flush straight lowest = lowest).
Proof.
  unfold draw_cascade.
  destruct flush as [|p flush]; simpl is_empty; cbv iota.
  - destruct straight as [straight_keep|].
    + destruct (outside straight_keep) eqn:Ho; simpl is_empty; cbv iota.
      * right. right. split; [reflexivity|]. split; [|reflexivity].
        right. exists straight_keep. now split.
      * right. left. split; [reflexivity|]. exists straight_keep.
        rewrite Ho. repeat split. discriminate.
    + right. right. split; [reflexivity|]. split; [now left|reflexivity].
  - left. split; [discriminate|reflexivity].
Qed.

(** The three ways [high_card_discards] builds its answer. *)
Lemma high_card_discards_shape (cards : list Card) :
  (exists keep, high_card_discards cards = positions_where keep cards)
  \/ (exists straight_keep,
         high_card_discards cards
         = filter (fun i => negb (pos_in i straight_keep)) (seq 0 5))
  \/ high_card_discards cards = map fst (firstn 3 (by_rank cards)).
Proof.
  rewrite high_card_discards_cascade.
  destruct (draw_cascade_cases (flush_draw_discards cards)
              (_find_straight_draw cards) (map fst (firstn 3 (by_rank cards))))
    as [[Hne ->]|[[_ [sk [_ [_ ->]]]]|[_ [_ ->]]]].
  - left. unfold flush_draw_discards in *.
    destruct (keys_with_count 4 _); [congruence|]. eauto.
  - right. left. exists sk. reflexivity.
  - right. right. reflexivity.
Qed.

Lemma high_card_discards_ok (cards : list Card) :
  length cards = 5%nat ->
  NoDup (high_card_discards cards)
  /\ forall p, In p (high_card_discards cards) -> (p < 5)%nat.
Proof.
  intros Hlen.
  destruct (high_card_discards_shape cards) as [[keep ->]|[[sk ->]| ->]].
  - split.
    + apply sorted_lt_NoDup, positions_where_sorted.
    + intros p Hp. apply positions_where_bound in Hp. lia.
  - split.
    + apply sorted_lt_NoDup, filter_sorted, seq_sorted.
    + intros p Hp. apply filter_In in Hp as [Hp _]. apply in_seq in Hp. lia.
  - rewrite <- firstn_map.
    pose proof (by_rank_positions cards) as Hperm. rewrite Hlen in Hperm.
    split.
    + apply firstn_NoDup.
      apply (Permutation_NoDup (Permutation_sym Hperm)), seq_NoDup.
    + intros p Hp. apply firstn_incl in Hp.
      apply (Permutation_in _ Hperm), in_seq in Hp. lia.
Qed.

Lemma threshold_bound (m : string) :
  threshold (PokerStrategy_init m) <= FOUR_OF_A_KIND.
Proof.
  destruct (threshold_cases m) as [[_ ->]|[[_ ->]|[[_ ->]|[_ ->]]]];
    unfold FULL_HOUSE, STRAIGHT, FOUR_OF_A_KIND; lia.
Qed.

Lemma get_cards_to_discard_shape (self : PokerStrategy) (cards : list Card) :
  length cards = 5%nat ->
  threshold self <= FOUR_OF_A_KIND ->
  exists hr tb nm ds,
    evaluate (full cards) = ret (hr, tb, nm)
    /\ get_cards_to_discard self (full cards) = ret ds
    /\ ((ds = [] /\ (threshold self <= hr \/ STRAIGHT <= hr))
        \/ (hr <> HIGH_CARD
            /\ exists keep, ds = firstn 3 (positions_where keep cards))
        \/ (hr = HIGH_CARD /\ hr < threshold self
            /\ ds = firstn 3 (high_card_discards cards))).
Proof.
  intros Hlen Hthr. unfold FOUR_OF_A_KIND in Hthr.
  pose proof (evaluate_full cards Hlen) as Hev.
  destruct (classify_total cards Hlen) as [[[hr tb] nm] Hr].
  rewrite Hr in Hev.
  rewrite classify_unfold in Hr.
  destruct (classify_on_facts _ _ _ _ _ Hr) as [Hrange Htrips Htwo Hone _].
  assert (Hperm : Permutation (sorted_desc (map fst cards)) (map fst cards))
    by apply sorted_desc_perm.
  exists hr, tb, nm.
  cut (exists ds,
          get_cards_to_discard self (full cards) = ret ds
          /\ ((ds = [] /\ (threshold self <= hr \/ STRAIGHT <= hr))
              \/ (hr <> HIGH_CARD
                  /\ exists keep, ds = firstn 3 (positions_where keep cards))
              \/ (hr = HIGH_CARD /\ hr < threshold self
                  /\ ds = firstn 3 (high_card_discards cards)))).
  { intros [ds [Hds Hshape]]. exists ds. auto. }
  unfold get_cards_to_discard. rewrite Hev. simpl.
  destruct (Z.geb_spec hr (threshold self)) as [Hge|Hlt].
  { exists []. split; [reflexivity|].
    left. split; [reflexivity|]. left. lia. }
  rewrite subscript_all_full. simpl.
  unfold FOUR_OF_A_KIND, FULL_HOUSE, FLUSH, STRAIGHT, HIGH_CARD.
  assert (Hkeep : 4 <= hr ->
                  exists ds : list nat,
                    ret (A:=list nat) [] = ret ds
                    /\ ((ds = [] /\ (threshold self <= hr \/ 4 <= hr))
                        \/ (hr <> 0
                            /\ exists keep, ds = firstn 3 (positions_where keep cards))
                        \/ (hr = 0 /\ hr < threshold self
                            /\ ds = firstn 3 (high_card_discards cards)))).
  { intros H4. exists []. split; [reflexivity|].
    left. split; [reflexivity|]. now right. }
  destruct (Z.eqb_spec hr 7); [apply Hkeep; lia|].
  destruct (Z.eqb_spec hr 6); [apply Hkeep; lia|].
  destruct (Z.eqb_spec hr 5); [apply Hkeep; lia|].
  destruct (Z.eqb_spec hr 4); [apply Hkeep; lia|].
  clear Hkeep.
  destruct (Z.eqb_spec hr 3) as [E3|].
  { specialize (Htrips E3). rewrite count_in_values_keys in Htrips.
    apply negb_true_iff in Htrips.
    destruct (keys_nonempty_perm _ _ 3 ltac:(lia) Hperm Htrips) as [k [rest Hk]].
    rewrite Hk. simpl. eexists. split; [reflexivity|].
    right. left. split; [lia|]. eauto. }
  destruct (Z.eqb_spec hr 2) as [E2|].
  { simpl. eexists. split; [reflexivity|].
    right. left. split; [lia|]. eauto. }
  destruct (Z.eqb_spec hr 1) as [E1|].
  { specialize (Hone E1).
    assert (Hne : is_empty (keys_with_count 2
                              (Counter Z.eqb (sorted_desc (map fst cards)))) = false).
    { destruct (keys_with_count 2 _); [discriminate|reflexivity]. }
    destruct (keys_nonempty_perm _ _ 2 ltac:(lia) Hperm Hne) as [k [rest Hk]].
    rewrite Hk. simpl. eexists. split; [reflexivity|].
    right. left. split; [lia|]. eauto. }
  simpl. eexists. split; [reflexivity|].
  right. right. split; [lia|]. split; [lia|reflexivity].
Qed.

(** C7: a discard decision holds at most three positions, pairwise
    distinct, each one of 0..4. *)
Theorem discards_at_most_three (cards : list Card) (m : string) :
  length cards = 5%nat ->
  exists ds,
    get_discard_positions (full cards) m = ret ds
    /\ (length ds <= 3)%nat
    /\ NoDup ds
    /\ forall p, In p ds -> (0 <= p <= 4)%nat.
Proof.
  intros Hlen. unfold get_discard_positions.
  destruct (get_cards_to_discard_shape (PokerStrategy_init m) cards Hlen
              (threshold_bound m))
    as [hr [tb [nm [ds [_ [Hds Hshape]]]]]].
  exists ds. split; [exact Hds|].
  destruct Hshape as [[-> _]|[[_ [keep ->]]|[_ [_ ->]]]].
  - simpl. split; [lia|]. split; [constructor|]. intros p [].
  - split; [apply firstn_le_length|]. split.
    + apply firstn_NoDup, sorted_lt_NoDup, positions_where_sorted.
    + intros p Hp. apply firstn_incl, positions_where_bound in Hp. lia.
  - destruct (high_card_discards_ok cards Hlen) as [Hnd Hb].
    split; [apply firstn_le_length|]. split.
    + now apply firstn_NoDup.
    + intros p Hp. apply firstn_incl, Hb in Hp. lia.
Qed.

Lemma discards_at_most_three_witness :
  exists ds,
    get_discard_positions (full pair_hand) "aggressive" = ret ds
    /\ (length ds <= 3)%nat
    /\ NoDup ds
    /\ forall p, In p ds -> (0 <= p <= 4)%nat.
Proof.
  apply (discards_at_most_three pair_hand "aggressive"). reflexivity.
Defined.

(** ** Swap actions *)

Lemma empty_positions_full (cards : list Card) : empty_positions (full cards) = [].
Proof.
  destruct (empty_positions (full cards)) as [|i l] eqn:He; [reflexivity|].
  exfalso. apply (full_no_None cards).
  apply (nth_error_In _ i). apply empty_positions_In. rewrite He. now left.
Qed.

Lemma get_poker_actions_full (cards : list Card) (m : string) (ds : list nat) :
  get_discard_positions (full cards) m = ret ds ->
  get_poker_actions (full cards) m = ret (map format (flat_map swap_commands ds)).
Proof.
  intros Hds. unfold get_poker_actions.
  fold (empty_positions (full cards)). rewrite empty_positions_full.
  simpl negb. cbv iota.
  unfold generate_swap_actions.
  unfold get_discard_positions in Hds. rewrite Hds. simpl bind.
  destruct ds as [|d ds]; [reflexivity|].
  simpl is_empty. cbv iota. simpl app.
  rewrite <- flat_map_format. reflexivity.
Qed.

Lemma by_rank_entries (cards : list Card) (p : nat) (r : Z) :
  In (p, r) (by_rank cards) -> (p < length cards)%nat /\ r = rank_at cards p.
Proof.
  unfold by_rank. intros Hin.
  apply (Permutation_in _ (sort_by_perm _ _)) in Hin.
  apply in_map_iff in Hin as [[i c] [Heq Hin]]. simpl in Heq.
  inversion Heq; subst. apply enumerate_In in Hin.
  split.
  - apply nth_error_Some. congruence.
  - unfold rank_at. now rewrite (nth_error_nth _ _ _ Hin).
Qed.

Lemma lowest_three_rank_sorted (cards : list Card) :
  StronglySorted (fun p q => rank_at cards p <= rank_at cards q)
    (map fst (firstn 3 (by_rank cards))).
Proof.
  assert (Hs : StronglySorted (key_le (fun x : nat * Z => snd x))
                 (firstn 3 (by_rank cards)))
    by apply firstn_sorted, sort_by_sorted.
  assert (He : forall x, In x (firstn 3 (by_rank cards)) ->
                         snd x = rank_at cards (fst x)).
  { intros [p r] Hx. apply firstn_incl, by_rank_entries in Hx. simpl. tauto. }
  induction Hs as [|x l Hs IH Hall]; simpl; constructor.
  - apply IH. intros y Hy. apply He. now right.
  - rewrite Forall_forall in *. intros q Hq.
    apply in_map_iff in Hq as [y [<- Hy]].
    specialize (Hall y Hy). unfold key_le in Hall.
    rewrite <- (He x (or_introl eq_refl)), <- (He y (or_intror Hy)). exact Hall.
Qed.

(** C4, as stated, fails: the "no draw" rule lists its three positions in
    ascending rank order, and the swap blocks follow that order; on
    K-2-9-5-3 the decision is [1; 4; 3] and the blocks come for holders 2, 5
    and 4, not 2, 4 and 5. *)
Lemma swap_blocks_not_in_position_order :
  ~ (forall (cards : list Card) (m : string) (ds ascending : list nat),
        length cards = 5%nat ->
        get_discard_positions (full cards) m = ret ds ->
        Permutation ascending ds ->
        StronglySorted lt ascending ->
        get_poker_actions (full cards) m
        = ret (map format (flat_map swap_commands ascending))).
Proof.
  intros Hclaim.
  specialize (Hclaim no_draw_hand "standard" [1; 4; 3]%nat [1; 3; 4]%nat
                eq_refl eq_refl).
  assert (Hbad : get_poker_actions (full no_draw_hand) "standard"
                 = ret (map format (flat_map swap_commands [1; 3; 4]%nat))).
  { apply Hclaim.
    - apply perm_skip, perm_swap.
    - repeat constructor. }
  vm_compute in Hbad. discriminate Hbad.
Qed.

(** ** Straight detection *)

Lemma fold_max_spec (d : Z) (l : list Z) :
  (fold_right Z.max d l = d \/ In (fold_right Z.max d l) l)
  /\ d <= fold_right Z.max d l
  /\ forall x, In x l -> x <= fold_right Z.max d l.
Proof.
  induction l as [|a l [Hin [Hd Hall]]]; simpl.
  - split; [now left|]. split; [lia|]. intros x [].
  - split; [|split].
    + destruct (Z.max_spec a (fold_right Z.max d l)) as [[_ ->]|[_ ->]].
      * destruct Hin; auto.
      * auto.
    + lia.
    + intros x [->|Hx]; [lia|]. specialize (Hall x Hx). lia.
Qed.

Lemma fold_min_spec (d : Z) (l : list Z) :
  (fold_right Z.min d l = d \/ In (fold_right Z.min d l) l)
  /\ fold_right Z.min d l <= d
  /\ forall x, In x l -> fold_right Z.min d l <= x.
Proof.
  induction l as [|a l [Hin [Hd Hall]]]; simpl.
  - split; [now left|]. split; [lia|]. intros x [].
  - split; [|split].
    + destruct (Z.min_spec a (fold_right Z.min d l)) as [[_ ->]|[_ ->]].
      * auto.
      * destruct Hin; auto.
    + lia.
    + intros x [->|Hx]; [lia|]. specialize (Hall x Hx). lia.
Qed.

Lemma max_rank_spec (l : list Z) :
  l <> [] -> In (max_rank l) l /\ forall x, In x l -> x <= max_rank l.
Proof.
  intros Hne. unfold max_rank.
  destruct (fold_max_spec (hd 0 l) l) as [Hin [_ Hall]].
  split; [|exact Hall].
  destruct Hin as [->|Hin]; [|exact Hin].
  destruct l; [congruence|]. now left.
Qed.

Lemma min_rank_spec (l : list Z) :
  l <> [] -> In (min_rank l) l /\ forall x, In x l -> min_rank l <= x.
Proof.
  intros Hne. unfold min_rank.
  destruct (fold_min_spec (hd 0 l) l) as [Hin [_ Hall]].
  split; [|exact Hall].
  destruct Hin as [->|Hin]; [|exact Hin].
  destruct l; [congruence|]. now left.
Qed.

Lemma nodup_length_le {A} (dec : forall x y : A, {x = y} + {x <> y}) (l : list A) :
  (length (nodup dec l) <= length l)%nat.
Proof.
  induction l as [|a l IH]; simpl; [lia|].
  destruct (in_dec dec a l); simpl; lia.
Qed.

Lemma nodup_full_length {A} (dec : forall x y : A, {x = y} + {x <> y}) (l : list A) :
  length (nodup dec l) = length l -> NoDup l.
Proof.
  induction l as [|a l IH]; simpl; intros Hlen; [constructor|].
  destruct (in_dec dec a l) as [Hin|Hnotin]; simpl in Hlen.
  - pose proof (nodup_length_le dec l). lia.
  - constructor; [exact Hnotin|]. apply IH. lia.
Qed.

Lemma check_straight_sorted (l : list Z) :
  _check_straight (sorted_desc l) = _check_straight l.
Proof.
  unfold _check_straight.
  replace (sorted_desc (nodup Z.eq_dec (sorted_desc l)))
    with (sorted_desc (nodup Z.eq_dec l)); [reflexivity|].
  apply sorted_desc_Permutation, NoDup_Permutation; try apply NoDup_nodup.
  intros x. now rewrite !nodup_In, sorted_desc_In.
Qed.

Lemma wheel_ranks_sorted (l : list Z) :
  length l = 5%nat -> wheel_ranks l -> NoDup l /\ sorted_desc l = wheel.
Proof.
  intros Hlen Hw.
  assert (Hnd : NoDup l).
  { apply (@NoDup_incl_NoDup Z wheel l).
    - unfold wheel. repeat constructor; simpl; intuition discriminate.
    - rewrite Hlen. simpl. lia.
    - intros x Hx. now apply Hw. }
  split; [exact Hnd|].
  change wheel with (sorted_desc wheel) at 1.
  apply sorted_desc_Permutation, NoDup_Permutation; try assumption.
  unfold wheel. repeat constructor; simpl; intuition discriminate.
Qed.

(** The three outcomes of [_check_straight] on five ranks. *)
Lemma check_straight_cases (l : list Z) :
  length l = 5%nat ->
  (run_of_five l /\ ~ wheel_ranks l /\ _check_straight l = (true, max_rank l))
  \/ (wheel_ranks l /\ ~ run_of_five l /\ _check_straight l = (true, 5))
  \/ (~ run_of_five l /\ ~ wheel_ranks l /\ _check_straight l = (false, 0)).
Proof.
  intros Hlen. unfold _check_straight.
  rewrite sorted_desc_length.
  destruct (Nat.eqb_spec (length (nodup Z.eq_dec l)) 5) as [Hfive|Hfive]; simpl negb;
    cbv iota.
  - assert (Hnd : NoDup l) by (apply (nodup_full_length Z.eq_dec); congruence).
    rewrite (nodup_fixed_point Z.eq_dec Hnd).
    assert (Hne : l <> []) by (intros ->; discriminate).
    destruct (max_rank_spec l Hne) as [Hmax_in Hmax].
    destruct (min_rank_spec l Hne) as [Hmin_in Hmin].
    pose proof (sorted_desc_sorted l) as Hs.
    pose proof (sorted_desc_length l) as Hsl. rewrite Hlen in Hsl.
    pose proof (sorted_desc_In l) as HsIn.
    destruct (sorted_desc l) as [|a [|b [|c [|d [|e [|? ?]]]]]] eqn:Hsd;
      try discriminate.
    assert (Ha : a = max_rank l).
    { apply HsIn in Hmax_in.
      assert (In a l) by (apply HsIn; simpl; auto).
      inversion Hs as [|? ? _ Hall]; subst.
      rewrite Forall_forall in Hall.
      specialize (Hmax a ltac:(assumption)).
      destruct Hmax_in as [E|Hin]; [lia|]. specialize (Hall _ Hin). lia. }
    assert (He : e = min_rank l).
    { apply HsIn in Hmin_in.
      assert (In e l) by (apply HsIn; simpl; auto 6).
      specialize (Hmin e ltac:(assumption)).
      assert (Hall : forall x, In x [a; b; c; d; e] -> x >= e).
      { clear -Hs. intros x Hx.
        repeat match goal with
               | H : StronglySorted _ (_ :: _) |- _ =>
                   apply StronglySorted_inv in H as [? ?]
               | H : Forall _ (_ :: _) |- _ =>
                   apply Forall_cons_iff in H as [? ?]
               end.
        simpl in Hx. intuition lia. }
      specialize (Hall _ Hmin_in). lia. }
    simpl nth.
    destruct (Z.eqb_spec (a - e) 4) as [Hrun|Hrun].
    + left. split; [split; [exact Hnd|lia]|]. split.
      * intros Hw. apply (wheel_ranks_sorted l Hlen) in Hw as [_ Hw].
        rewrite Hsd in Hw. unfold wheel in Hw. inversion Hw; subst. lia.
      * now rewrite Ha.
    + destruct (list_eq_dec Z.eq_dec [a; b; c; d; e] [14; 5; 4; 3; 2]) as [Hw|Hw].
      * right. left. split.
        -- intros r. rewrite <- HsIn, Hw. reflexivity.
        -- split; [|reflexivity]. intros [_ Hr]. lia.
      * right. right. split; [intros [_ Hr]; lia|]. split; [|reflexivity].
        intros Hww. apply (wheel_ranks_sorted l Hlen) in Hww as [_ Hww].
        rewrite Hsd in Hww. now apply Hw.
  - right. right.
    assert (Hnd : ~ NoDup l).
    { intros Hnd. apply Hfive. now rewrite (nodup_fixed_point Z.eq_dec Hnd). }
    split; [intros [? _]; contradiction|]. split; [|reflexivity].
    intros Hw. now apply (wheel_ranks_sorted l Hlen) in Hw as [? _].
Qed.

(** C2: on the ranks of five cards, [evaluate]'s straight test reports a
    straight with high card the maximum when the ranks are distinct and
    max - min = 4, a straight with high card 5 when the distinct ranks are
    those of the wheel, and no straight otherwise; the wheel hand of the
    test suite is a Straight with tiebreak 5. *)
Theorem straight_detection (cards : list Card) :
  length cards = 5%nat ->
  let ranks := map fst cards in
  let detected := _check_straight (sorted_desc ranks) in
  (fst detected = true <-> (run_of_five ranks \/ wheel_ranks ranks))
  /\ (run_of_five ranks -> detected = (true, max_rank ranks))
  /\ (wheel_ranks ranks -> detected = (true, 5))
  /\ (~ run_of_five ranks -> ~ wheel_ranks ranks -> detected = (false, 0))
  /\ evaluate (full wheel_hand) = ret (STRAIGHT, [5], "Straight").
Proof.
  intros Hlen ranks detected. unfold detected.
  rewrite check_straight_sorted.
  assert (Hl : length ranks = 5%nat) by (unfold ranks; now rewrite length_map).
  destruct (check_straight_cases ranks Hl)
    as [[Hrun [Hnw ->]]|[[Hw [Hnrun ->]]|[Hnrun [Hnw ->]]]]; simpl fst.
  - repeat split; auto; try tauto.
  - repeat split; auto; try tauto.
  - repeat split; auto; try tauto; try discriminate.
Qed.

Lemma straight_detection_witness :
  let ranks := map fst wheel_hand in
  let detected := _check_straight (sorted_desc ranks) in
  (fst detected = true <-> (run_of_five ranks \/ wheel_ranks ranks))
  /\ (run_of_five ranks -> detected = (true, max_rank ranks))
  /\ (wheel_ranks ranks -> detected = (true, 5))
  /\ (~ run_of_five ranks -> ~ wheel_ranks ranks -> detected = (false, 0))
  /\ evaluate (full wheel_hand) = ret (STRAIGHT, [5], "Straight").
Proof.
  apply (straight_detection wheel_hand). reflexivity.
Defined.

(** ** The high-card rule *)

Lemma card_eqb_spec (c c' : Card) : reflect (c = c') (card_eqb c c').
Proof.
  destruct c as [r s], c' as [r' s']. unfold card_eqb. simpl.
  destruct (Z.eqb_spec r r'), (String.eqb_spec s s'); constructor; congruence.
Qed.

Lemma distinct_cards_NoDup (cards : list Card) :
  distinct_cards cards = true -> NoDup cards.
Proof.
  induction cards as [|c rest IH]; simpl; intros H; constructor.
  - apply andb_true_iff in H as [Hc _]. apply negb_true_iff in Hc.
    intros Hin.
    assert (existsb (card_eqb c) rest = true); [|congruence].
    apply existsb_exists. exists c. split; [exact Hin|].
    now destruct (card_eqb_spec c c).
  - apply andb_true_iff in H as [_ H]. now apply IH.
Qed.

Lemma valid_hand_facts (cards : list Card) :
  valid_hand cards = true ->
  length cards = 5%nat
  /\ NoDup cards
  /\ forall c, In c cards -> In (fst c) RANKS /\ In (snd c) SUITS.
Proof.
  unfold valid_hand. intros H.
  apply andb_true_iff in H as [H Hd]. apply andb_true_iff in H as [Hl Hv].
  split; [now apply Nat.eqb_eq|]. split; [now apply distinct_cards_NoDup|].
  intros [r s] Hc. rewrite forallb_forall in Hv. specialize (Hv _ Hc).
  unfold is_valid_card in Hv. apply andb_true_iff in Hv as [Hr Hs].
  apply existsb_exists in Hr as [r' [Hr' Er]]. apply Z.eqb_eq in Er. subst r'.
  apply existsb_exists in Hs as [s' [Hs' Es]]. apply String.eqb_eq in Es. subst s'.
  now split.
Qed.

Lemma all_distinct_spec (f : list Z -> bool) (n : nat) :
  forall seen l,
    all_distinct n seen f = true ->
    length l = n ->
    (forall r, In r l -> In r RANKS) ->
    NoDup (rev seen ++ l) ->
    f (rev seen ++ l) = true.
Proof.
  induction n as [|n IH]; intros seen l Hall Hlen Hin Hnd.
  - destruct l; [|discriminate]. rewrite app_nil_r. exact Hall.
  - destruct l as [|r l]; [discriminate|].
    cbn [all_distinct] in Hall. rewrite forallb_forall in Hall.
    specialize (Hall r (Hin r (or_introl eq_refl))).
    assert (Hfresh : fresh r seen = true).
    { unfold fresh. apply negb_true_iff.
      destruct (existsb (Z.eqb r) seen) eqn:He; [|reflexivity].
      apply existsb_exists in He as [r' [Hr' E]]. apply Z.eqb_eq in E. subst r'.
      apply NoDup_remove_2 in Hnd. exfalso. apply Hnd.
      apply in_or_app. left. now apply in_rev in Hr'. }
    rewrite Hfresh in Hall.
    specialize (IH (r :: seen) l Hall). simpl in IH.
    rewrite <- app_assoc in IH. simpl in IH. apply IH.
    + simpl in Hlen. lia.
    + intros r' Hr'. apply Hin. now right.
    + exact Hnd.
Qed.

Lemma rank_rule_checked : all_distinct 5 [] rank_rule_holds = true.
Proof. vm_compute. reflexivity. Qed.

Lemma rank_rule (ranks : list Z) :
  length ranks = 5%nat ->
  (forall r, In r ranks -> In r RANKS) ->
  NoDup ranks ->
  rank_rule_holds ranks = true.
Proof.
  intros Hlen Hin Hnd.
  apply (all_distinct_spec rank_rule_holds 5 [] ranks rank_rule_checked Hlen Hin Hnd).
Qed.

(** The straight-draw search and the rank order read the ranks only. *)
Lemma find_straight_draw_bare (cards : list Card) :
  length cards = 5%nat ->
  _find_straight_draw (bare (map fst cards)) = _find_straight_draw cards.
Proof.
  intros Hlen.
  destruct cards as [|[r0 s0] [|[r1 s1] [|[r2 s2] [|[r3 s3] [|[r4 s4] [|? ?]]]]]];
    try discriminate.
  unfold _find_straight_draw, positions_where, bare, enumerate.
  cbn [map filter fst snd combine seq length app].
  destruct (r0 =? 14), (r1 =? 14), (r2 =? 14), (r3 =? 14), (r4 =? 14);
    cbn [map filter fst snd combine seq length app]; reflexivity.
Qed.

Lemma by_rank_bare (cards : list Card) :
  length cards = 5%nat -> by_rank (bare (map fst cards)) = by_rank cards.
Proof.
  intros Hlen.
  destruct cards as [|[r0 s0] [|[r1 s1] [|[r2 s2] [|[r3 s3] [|[r4 s4] [|? ?]]]]]];
    try discriminate.
  reflexivity.
Qed.

Ltac split_string_eqb :=
  repeat match goal with
         | |- context [String.eqb ?x ?y] =>
             destruct (String.eqb_spec x y); [subst|]; simpl; try congruence
         end.

(** Four cards of one suit: the flush-draw loop discards the fifth. *)
Lemma flush_draw_found (cards : list Card) (suit : string) :
  length cards = 5%nat ->
  count_occ string_dec (map snd cards) suit = 4%nat ->
  exists p,
    flush_draw_discards cards = [p]
    /\ forall q c, nth_error cards q = Some c -> (snd c <> suit <-> q = p).
Proof.
  intros Hlen Hcount.
  destruct cards as [|[r0 s0] [|[r1 s1] [|[r2 s2] [|[r3 s3] [|[r4 s4] [|? ?]]]]]];
    try discriminate.
  simpl in Hcount.
  repeat match type of Hcount with
         | context [string_dec ?x ?y] => destruct (string_dec x y); [subst|]
         end; try discriminate;
    unfold flush_draw_discards, Counter, positions_where, enumerate; simpl;
    split_string_eqb;
    eexists; (split; [reflexivity|]);
    intros [|[|[|[|[|q]]]]] c Hq; simpl in Hq; try discriminate;
    try (destruct q; discriminate);
    inversion Hq; subst; simpl; split; intros; try congruence; try lia.
Qed.

Lemma flush_draw_none (cards : list Card) :
  (forall suit, count_occ string_dec (map snd cards) suit <> 4%nat) ->
  flush_draw_discards cards = [].
Proof.
  intros Hnone. unfold flush_draw_discards.
  destruct (keys_with_count 4 (Counter String.eqb (map snd cards)))
    as [|suit rest] eqn:Hk; [reflexivity|].
  exfalso. apply (Hnone suit).
  apply (keys_with_count_In String.eqb String.eqb_spec string_dec); [lia|].
  rewrite Hk. now left.
Qed.

(** Without a pair, three or four of a kind, five ranks are pairwise
    distinct or all the same. *)
Lemma no_pairs_distinct (a b c d e : Z) :
  count_in_values 4 (Counter Z.eqb [a; b; c; d; e]) = false ->
  count_in_values 3 (Counter Z.eqb [a; b; c; d; e]) = false ->
  (keys_with_count 2 (Counter Z.eqb [a; b; c; d; e]) = []
   \/ (3 <= length (keys_with_count 2 (Counter Z.eqb [a; b; c; d; e])))%nat) ->
  NoDup [a; b; c; d; e] \/ (a = b /\ a = c /\ a = d /\ a = e).
Proof.
  unfold Counter. simpl. split_eqb; intros H4 H3 H2; try discriminate;
    try (destruct H2 as [H2|H2]; [discriminate|simpl in H2; lia]).
  - right. auto.
  - left. repeat constructor; simpl; intuition congruence.
Qed.

Lemma no_five_of_a_kind (cards : list Card) (a : Z) :
  NoDup cards ->
  (forall c, In c cards -> fst c = a /\ In (snd c) SUITS) ->
  (length cards <= 4)%nat.
Proof.
  intros Hnd Hall.
  rewrite <- (length_map (snd : Card -> string) cards).
  change 4%nat with (length SUITS).
  apply NoDup_incl_length.
  - apply NoDup_map_NoDup_ForallPairs; [|exact Hnd].
    intros [r s] [r' s'] Hc Hc' Heq. simpl in Heq. subst s'.
    destruct (Hall _ Hc) as [E _], (Hall _ Hc') as [E' _]. simpl in E, E'.
    congruence.
  - intros s Hs. apply in_map_iff in Hs as [c [<- Hc]]. now apply Hall.
Qed.

(** A valid high-card hand has five distinct ranks that are no straight. *)
Lemma high_card_ranks (cards : list Card) tb nm :
  valid_hand cards = true ->
  evaluate (full cards) = ret (HIGH_CARD, tb, nm) ->
  NoDup (map fst cards) /\ fst (_check_straight (map fst cards)) = false.
Proof.
  intros Hvalid Hev.
  destruct (valid_hand_facts cards Hvalid) as [Hlen [Hnd Hdeck]].
  rewrite (evaluate_full cards Hlen), classify_unfold in Hev.
  destruct (classify_on_facts _ _ _ _ _ Hev) as [_ _ _ _ Hhigh].
  destruct (Hhigh eq_refl) as [_ [Hns [H4 [H3 H2]]]].
  rewrite check_straight_sorted in Hns. split; [|exact Hns].
  pose proof (sorted_desc_perm (map fst cards)) as Hperm.
  assert (Hsl : length (sorted_desc (map fst cards)) = 5%nat)
    by (rewrite sorted_desc_length, length_map; exact Hlen).
  destruct (sorted_desc (map fst cards)) as [|a [|b [|c [|d [|e [|? ?]]]]]];
    try discriminate.
  destruct (no_pairs_distinct a b c d e H4 H3 H2) as [Hdist|[<- [<- [<- <-]]]].
  - apply (Permutation_NoDup Hperm Hdist).
  - exfalso.
    assert (Hle : (length cards <= 4)%nat); [|lia].
    apply (no_five_of_a_kind cards a Hnd).
    intros c Hc. split; [|now apply Hdeck].
    assert (Hin : In (fst c) [a; a; a; a; a]).
    { apply (Permutation_in _ (Permutation_sym Hperm)). now apply in_map. }
    simpl in Hin. intuition.
Qed.

(** [first_window] is the lowest qualifying base among 1..10. *)
Lemma first_window_spec (ranks : list Z) :
  match first_window ranks with
  | Some b =>
      1 <= b <= 10
      /\ qualifies ranks b = true
      /\ forall b', 1 <= b' < b -> qualifies ranks b' = false
  | None => forall b', 1 <= b' <= 10 -> qualifies ranks b' = false
  end.
Proof.
  assert (Hcase : forall b b' : Z,
             1 <= b' < b + 1 ->
             (forall c, 1 <= c < b -> qualifies ranks c = false) ->
             qualifies ranks b = false ->
             qualifies ranks b' = false).
  { intros b b' Hb Hbelow Hq.
    destruct (Z.eq_dec b' b) as [->|Hne]; [exact Hq|]. apply Hbelow. lia. }
  unfold first_window, window_bases. cbn [find].
  assert (H0 : forall c, 1 <= c < 1 -> qualifies ranks c = false) by (intros; lia).
  destruct (qualifies ranks 1) eqn:Q1; [repeat split; try lia; assumption|].
  pose proof (fun c Hc => Hcase 1 c Hc H0 Q1) as H1. simpl in H1.
  destruct (qualifies ranks 2) eqn:Q2; [repeat split; try lia; assumption|].
  pose proof (fun c Hc => Hcase 2 c Hc H1 Q2) as H2. simpl in H2.
  destruct (qualifies ranks 3) eqn:Q3; [repeat split; try lia; assumption|].
  pose proof (fun c Hc => Hcase 3 c Hc H2 Q3) as H3. simpl in H3.
  destruct (qualifies ranks 4) eqn:Q4; [repeat split; try lia; assumption|].
  pose proof (fun c Hc => Hcase 4 c Hc H3 Q4) as H4. simpl in H4.
  destruct (qualifies ranks 5) eqn:Q5; [repeat split; try lia; assumption|].
  pose proof (fun c Hc => Hcase 5 c Hc H4 Q5) as H5. simpl in H5.
  destruct (qualifies ranks 6) eqn:Q6; [repeat split; try lia; assumption|].
  pose proof (fun c Hc => Hcase 6 c Hc H5 Q6) as H6. simpl in H6.
  destruct (qualifies ranks 7) eqn:Q7; [repeat split; try lia; assumption|].
  pose proof (fun c Hc => Hcase 7 c Hc H6 Q7) as H7. simpl in H7.
  destruct (qualifies ranks 8) eqn:Q8; [repeat split; try lia; assumption|].
  pose proof (fun c Hc => Hcase 8 c Hc H7 Q8) as H8. simpl in H8.
  destruct (qualifies ranks 9) eqn:Q9; [repeat split; try lia; assumption|].
  pose proof (fun c Hc => Hcase 9 c Hc H8 Q9) as H9. simpl in H9.
  destruct (qualifies ranks 10) eqn:Q10; [repeat split; try lia; assumption|].
  intros b' Hb'. apply (Hcase 10 b'); [lia|exact H9|exact Q10].
Qed.

Lemma effective_ranks_range (ranks : list Z) (r : Z) :
  (forall x, In x ranks -> In x RANKS) ->
  In r (flat_map effective_ranks ranks) -> 1 <= r <= 14.
Proof.
  intros Hdeck Hr. apply in_flat_map in Hr as [x [Hx Hr]].
  assert (Hx' : 2 <= x <= 14).
  { specialize (Hdeck x Hx). unfold RANKS in Hdeck. simpl in Hdeck.
    repeat (destruct Hdeck as [<-|Hdeck]; [lia|]). destruct Hdeck. }
  unfold effective_ranks in Hr.
  destruct (x =? 14); simpl in Hr; intuition lia.
Qed.

(** A window that sticks out of the ranks 1..14 covers no more than the
    window 1-5 or 10-14 it overlaps. *)
Lemma qualifies_clamp (ranks : list Z) (b : Z) :
  (forall x, In x ranks -> In x RANKS) ->
  qualifies ranks b = true ->
  qualifies ranks (Z.max 1 (Z.min 10 b)) = true.
Proof.
  intros Hdeck. unfold qualifies. rewrite !Nat.leb_le. intros Hq.
  etransitivity; [exact Hq|].
  apply NoDup_incl_length; [apply NoDup_nodup|].
  intros r. unfold window_cover. rewrite !nodup_In, !filter_In.
  intros [Hr Hw]. split; [exact Hr|].
  pose proof (effective_ranks_range ranks r Hdeck Hr) as Hrange.
  unfold in_window in *.
  apply andb_true_iff in Hw as [Hlo Hhi]. apply Z.leb_le in Hlo, Hhi.
  apply andb_true_iff. split; apply Z.leb_le; lia.
Qed.

Lemma no_window_at_all (ranks : list Z) :
  (forall x, In x ranks -> In x RANKS) ->
  first_window ranks = None ->
  forall b, qualifies ranks b = false.
Proof.
  intros Hdeck Hnone b.
  pose proof (first_window_spec ranks) as Hspec. rewrite Hnone in Hspec.
  destruct (qualifies ranks b) eqn:Hq; [|reflexivity].
  apply (qualifies_clamp ranks b Hdeck) in Hq.
  rewrite Hspec in Hq; [discriminate|lia].
Qed.

Lemma pos_in_In (p : nat) (l : list nat) : pos_in p l = true <-> In p l.
Proof.
  unfold pos_in. rewrite existsb_exists. split.
  - intros [x [Hx E]]. apply Nat.eqb_eq in E. now subst.
  - intros Hin. exists p. split; [exact Hin|apply Nat.eqb_refl].
Qed.

Lemma rank_at_nth (cards : list Card) (p : nat) :
  nth p (map fst cards) 0 = rank_at cards p.
Proof. unfold rank_at. apply (map_nth fst cards (0, "")). Qed.

(** C3: a valid high-card hand with four cards of one suit discards exactly
    the position of the fifth card; without such a suit, when some window
    of five consecutive ranks (Ace counting as 14 and as 1) covers four
    distinct effective ranks, it discards exactly the one position outside
    the four positions of the first such window in ascending base order
    (bases 1 to 10); when no window does, whatever its base, it discards
    three distinct positions of the hand, each holding a lower rank than
    the two positions kept. *)
Theorem high_card_rule (cards : list Card) (m : string) tb nm :
  valid_hand cards = true ->
  evaluate (full cards) = ret (HIGH_CARD, tb, nm) ->
  exists ds,
    get_discard_positions (full cards) m = ret ds
    /\ (forall suit,
           count_occ string_dec (map snd cards) suit = 4%nat ->
           exists p,
             ds = [p]
             /\ forall q c, nth_error cards q = Some c -> (snd c <> suit <-> q = p))
    /\ ((forall suit, count_occ string_dec (map snd cards) suit <> 4%nat) ->
        match first_window (map fst cards) with
        | Some b =>
            (1 <= b <= 10
             /\ qualifies (map fst cards) b = true
             /\ forall b', 1 <= b' < b -> qualifies (map fst cards) b' = false)
            /\ exists p,
                ds = [p]
                /\ (p < 5)%nat
                /\ length (window_positions (map fst cards) b) = 4%nat
                /\ ~ In p (window_positions (map fst cards) b)
        | None =>
            (forall b', qualifies (map fst cards) b' = false)
            /\ length ds = 3%nat
            /\ NoDup ds
            /\ (forall p, In p ds -> (p < 5)%nat)
            /\ forall p q,
                In p ds -> (q < 5)%nat -> ~ In q ds ->
                rank_at cards p < rank_at cards q
        end).
Proof.
  intros Hvalid Hev.
  destruct (valid_hand_facts cards Hvalid) as [Hlen [Hnd Hdeck]].
  destruct (high_card_ranks cards tb nm Hvalid Hev) as [Hdistinct Hnostraight].
  unfold get_discard_positions.
  destruct (get_cards_to_discard_shape (PokerStrategy_init m) cards Hlen
              (threshold_bound m))
    as [hr [tb' [nm' [ds [Hev' [Hds Hshape]]]]]].
  rewrite Hev in Hev'. inversion Hev'; subst hr tb' nm'. clear Hev'.
  exists ds. split; [exact Hds|].
  assert (Hhigh : ds = firstn 3 (high_card_discards cards)).
  { destruct Hshape as [[_ Hkeep]|[[Hne _]|[_ [_ E]]]].
    - exfalso. unfold HIGH_CARD, STRAIGHT in Hkeep.
      destruct (threshold_cases m) as [[_ Ht]|[[_ Ht]|[[_ Ht]|[_ Ht]]]];
        rewrite Ht in Hkeep;
        unfold FULL_HOUSE, STRAIGHT, FOUR_OF_A_KIND in Hkeep; lia.
    - congruence.
    - exact E. }
  assert (Hwf : NoDup ds /\ forall p, In p ds -> (p < 5)%nat).
  { destruct (high_card_discards_ok cards Hlen) as [Hnd' Hb].
    rewrite Hhigh. split; [now apply firstn_NoDup|].
    intros p Hp. now apply firstn_incl, Hb in Hp. }
  rewrite high_card_discards_cascade in Hhigh.
  split.
  - intros suit Hsuit.
    destruct (flush_draw_found cards suit Hlen Hsuit) as [p [Hflush Hp]].
    exists p. split; [|exact Hp].
    rewrite Hhigh, Hflush. reflexivity.
  - intros Hnone.
    rewrite (flush_draw_none cards Hnone) in Hhigh.
    rewrite <- (find_straight_draw_bare cards Hlen),
            <- (by_rank_bare cards Hlen) in Hhigh.
    fold (rank_discards (map fst cards)) in Hhigh.
    assert (Hrule : rank_rule_holds (map fst cards) = true).
    { apply rank_rule; [now rewrite length_map| |exact Hdistinct].
      intros r Hr. apply in_map_iff in Hr as [c [<- Hc]]. now apply Hdeck. }
    unfold rank_rule_holds in Hrule. rewrite Hnostraight in Hrule.
    assert (Hdeck' : forall x, In x (map fst cards) -> In x RANKS).
    { intros r Hr. apply in_map_iff in Hr as [c [<- Hc]]. now apply Hdeck. }
    pose proof (first_window_spec (map fst cards)) as Hfirst.
    pose proof (no_window_at_all (map fst cards) Hdeck') as Hnowin.
    destruct (first_window (map fst cards)) as [b|].
    + split; [exact Hfirst|].
      destruct (rank_discards (map fst cards)) as [|p [|? ?]]; try discriminate.
      apply andb_true_iff in Hrule as [Hrule Hp5].
      apply andb_true_iff in Hrule as [Hfour Hout].
      exists p. split; [exact Hhigh|]. split; [now apply Nat.ltb_lt|].
      split; [now apply Nat.eqb_eq|].
      apply negb_true_iff in Hout. rewrite <- pos_in_In. congruence.
    + apply andb_true_iff in Hrule as [Hthree Hlow].
      apply Nat.eqb_eq in Hthree.
      assert (Hds3 : ds = rank_discards (map fst cards)).
      { rewrite Hhigh. apply firstn_all2. lia. }
      rewrite <- Hds3 in Hthree, Hlow.
      split; [now apply Hnowin|]. split; [exact Hthree|].
      split; [apply Hwf|]. split; [apply Hwf|].
      intros p q Hp Hq Hnq.
      unfold lowest_first in Hlow. rewrite forallb_forall in Hlow.
      specialize (Hlow p Hp). rewrite forallb_forall in Hlow.
      specialize (Hlow q ltac:(apply in_seq; lia)).
      apply orb_true_iff in Hlow as [Hin|Hlt].
      * apply pos_in_In in Hin. contradiction.
      * apply Z.ltb_lt in Hlt. now rewrite !rank_at_nth in Hlt.
Qed.

Lemma high_card_rule_witness :
  exists ds,
    get_discard_positions (full straight_draw_hand) "standard" = ret ds
    /\ (forall suit,
           count_occ string_dec (map snd straight_draw_hand) suit = 4%nat ->
           exists p,
             ds = [p]
             /\ forall q c, nth_error straight_draw_hand q = Some c ->
                            (snd c <> suit <-> q = p))
    /\ ((forall suit, count_occ string_dec (map snd straight_draw_hand) suit <> 4%nat) ->
        match first_window (map fst straight_draw_hand) with
        | Some b =>
            (1 <= b <= 10
             /\ qualifies (map fst straight_draw_hand) b = true
             /\ forall b', 1 <= b' < b -> qualifies (map fst straight_draw_hand) b' = false)
            /\ exists p,
                ds = [p]
                /\ (p < 5)%nat
                /\ length (window_positions (map fst straight_draw_hand) b) = 4%nat
                /\ ~ In p (window_positions (map fst straight_draw_hand) b)
        | None =>
            (forall b', qualifies (map fst straight_draw_hand) b' = false)
            /\ length ds = 3%nat
            /\ NoDup ds
            /\ (forall p, In p ds -> (p < 5)%nat)
            /\ forall p q,
                In p ds -> (q < 5)%nat -> ~ In q ds ->
                rank_at straight_draw_hand p < rank_at straight_draw_hand q
        end).
Proof.
  apply (high_card_rule straight_draw_hand "standard"
           [11; 7; 6; 5; 4] "High Card"); reflexivity.
Defined.

(** ** The order of the decision *)

(** The sort of the "no draw" rule is stable: cards of equal rank stay in
    the order of their positions. *)
Lemma insert_by_stable (x : nat * Z) (l : list (nat * Z)) :
  Forall (fun y => (fst x < fst y)%nat) l ->
  StronglySorted
    (fun a b => snd a < snd b \/ (snd a = snd b /\ (fst a < fst b)%nat)) l ->
  StronglySorted
    (fun a b => snd a < snd b \/ (snd a = snd b /\ (fst a < fst b)%nat))
    (insert_by (fun a : nat * Z => snd a) x l).
Proof.
  intros Hx Hs. induction Hs as [|y l Hs IH Hall]; simpl.
  - repeat constructor.
  - inversion Hx as [|? ? Hxy Hxl]; subst.
    destruct (Z.leb_spec (snd x) (snd y)) as [Hle|Hgt].
    + constructor; [now constructor|].
      constructor; [lia|].
      rewrite Forall_forall in *. intros z Hz.
      specialize (Hall z Hz). specialize (Hxl z Hz). lia.
    + constructor; [now apply IH|].
      apply Forall_forall. intros z Hz.
      apply (Permutation_in _ (insert_by_perm _ x l)) in Hz.
      destruct Hz as [<-|Hz]; [lia|].
      rewrite Forall_forall in Hall. now apply Hall.
Qed.

Lemma sort_by_stable (l : list (nat * Z)) :
  StronglySorted lt (map fst l) ->
  StronglySorted
    (fun a b => snd a < snd b \/ (snd a = snd b /\ (fst a < fst b)%nat))
    (sort_by (fun a : nat * Z => snd a) l).
Proof.
  induction l as [|x l IH]; simpl; intros Hs; [constructor|].
  inversion Hs as [|? ? Hs' Hall]; subst.
  apply insert_by_stable; [|now apply IH].
  apply Forall_forall. intros y Hy.
  apply (Permutation_in _ (sort_by_perm _ l)) in Hy.
  rewrite Forall_forall in Hall. apply Hall. now apply in_map.
Qed.

Lemma lowest_three_stable (cards : list Card) :
  StronglySorted (rank_then_position cards) (map fst (firstn 3 (by_rank cards))).
Proof.
  assert (Hs : StronglySorted
                 (fun a b : nat * Z =>
                    snd a < snd b \/ (snd a = snd b /\ (fst a < fst b)%nat))
                 (firstn 3 (by_rank cards))).
  { apply firstn_sorted. unfold by_rank. apply sort_by_stable.
    rewrite map_map. simpl.
    rewrite (map_ext _ fst) by reflexivity.
    rewrite enumerate_fst. apply seq_sorted. }
  assert (He : forall x, In x (firstn 3 (by_rank cards)) ->
                         snd x = rank_at cards (fst x)).
  { intros [p r] Hx. apply firstn_incl, by_rank_entries in Hx. simpl. tauto. }
  induction Hs as [|x l Hs IH Hall]; simpl; constructor.
  - apply IH. intros y Hy. apply He. now right.
  - rewrite Forall_forall in *. intros q Hq.
    apply in_map_iff in Hq as [y [<- Hy]].
    specialize (Hall y Hy). unfold rank_then_position.
    rewrite <- (He x (or_introl eq_refl)), <- (He y (or_intror Hy)). exact Hall.
Qed.

Lemma lowest_three_length (cards : list Card) :
  length cards = 5%nat -> length (map fst (firstn 3 (by_rank cards))) = 3%nat.
Proof.
  intros Hlen. rewrite length_map, length_firstn.
  rewrite <- (length_map fst (by_rank cards)).
  rewrite (Permutation_length (by_rank_positions cards)), length_seq, Hlen.
  reflexivity.
Qed.

Lemma scan_bases_inv (bases rwp : list (Z * nat)) (keep : list nat) :
  scan_bases bases rwp = Some keep ->
  exists b,
    keep = nodup Nat.eq_dec (map snd (firstn 4 (window_candidates b rwp)))
    /\ length keep = 4%nat.
Proof.
  induction bases as [|[b q] bases IH]; [discriminate|].
  cbn [scan_bases].
  destruct (4 <=? length (nodup Z.eq_dec (map fst (window_candidates b rwp))))%nat;
    [|exact IH].
  destruct (Nat.eqb_spec
              (length (nodup Nat.eq_dec
                         (map snd (firstn 4 (window_candidates b rwp))))) 4)
    as [E|_]; [|exact IH].
  intros [= <-]. exists b. split; [reflexivity|exact E].
Qed.

Lemma window_candidates_In (b : Z) (rwp : list (Z * nat)) (r : Z) (p : nat) :
  In (r, p) (window_candidates b rwp) ->
  In (r, p) rwp /\ b <= r <= b + 4.
Proof.
  unfold window_candidates.
  assert (H : forall acc,
             (forall r p, In (r, p) acc -> In (r, p) rwp /\ b <= r <= b + 4) ->
             forall l, incl l rwp ->
             In (r, p)
                (fold_left
                   (fun candidates rp =>
                      let '(rank, pos) := rp in
                      if (b <=? rank) && (rank <=? b + 4) then
                        if negb (pos_in pos (map snd candidates))
                        then candidates ++ [(rank, pos)]
                        else candidates
                      else candidates) l acc) ->
             In (r, p) rwp /\ b <= r <= b + 4).
  { intros acc Hacc l. revert acc Hacc.
    induction l as [|[r' p'] l IH]; intros acc Hacc Hincl; simpl.
    - apply Hacc.
    - apply IH.
      + destruct ((b <=? r') && (r' <=? b + 4)) eqn:E; [|exact Hacc].
        destruct (negb (pos_in p' (map snd acc))); [|exact Hacc].
        intros r0 p0 Hin. apply in_app_or in Hin as [Hin|[[= <- <-]|[]]].
        * now apply Hacc.
        * split; [apply Hincl; now left|].
          apply andb_true_iff in E as [E1 E2].
          apply Z.leb_le in E1, E2. lia.
      + intros x Hx. apply Hincl. now right. }
  apply (H []); [intros ? ? []|apply incl_refl].
Qed.

Lemma ranks_with_pos_In (cards : list Card) (r : Z) (p : nat) :
  In (r, p)
     (sort_by fst
        (map (fun ic : nat * Card => (fst (snd ic), fst ic)) (enumerate cards)
         ++ map (fun pos => (1, pos))
                (positions_where (fun card => fst card =? 14) cards))) ->
  (p < length cards)%nat
  /\ (r = rank_at cards p \/ (r = 1 /\ rank_at cards p = 14)).
Proof.
  intros Hin.
  apply (Permutation_in _ (sort_by_perm fst _)) in Hin.
  assert (Hnth : forall card, nth_error cards p = Some card ->
                              (p < length cards)%nat /\ rank_at cards p = fst card).
  { intros card Hn. split; [apply nth_error_Some; congruence|].
    unfold rank_at. now rewrite (nth_error_nth _ _ _ Hn). }
  apply in_app_or in Hin as [Hin|Hin].
  - apply in_map_iff in Hin as [[i card] [[= <- <-] Hin]].
    apply enumerate_In in Hin. destruct (Hnth card Hin) as [Hlt E].
    split; [exact Hlt|]. left. simpl. now rewrite E.
  - apply in_map_iff in Hin as [i [[= <- <-] Hin]].
    apply positions_where_In in Hin as [card [Hn Hk]].
    destruct (Hnth card Hn) as [Hlt E].
    split; [exact Hlt|]. right. split; [reflexivity|].
    apply Z.eqb_eq in Hk. congruence.
Qed.

Lemma outside_count (keep : list nat) (n : nat) :
  NoDup keep ->
  (forall p, In p keep -> (p < n)%nat) ->
  (length (filter (fun i => negb (pos_in i keep)) (seq 0 n)) + length keep
   = n)%nat.
Proof.
  intros Hnd Hlt.
  pose proof (filter_length (fun i => pos_in i keep) (seq 0 n)) as Hpart.
  rewrite length_seq in Hpart.
  assert (Hsame : length (filter (fun i => pos_in i keep) (seq 0 n))
                  = length keep).
  { apply Permutation_length, NoDup_Permutation.
    - apply NoDup_filter, seq_NoDup.
    - exact Hnd.
    - intros x. rewrite filter_In, in_seq, pos_in_In. split.
      + tauto.
      + intros Hx. split; [|exact Hx]. specialize (Hlt x Hx). lia. }
  lia.
Qed.

(** Four kept positions leave one of the five to discard. *)
Lemma straight_keep_leaves_one (cards : list Card) (keep : list nat) :
  length cards = 5%nat ->
  _find_straight_draw cards = Some keep -> length (outside keep) = 1%nat.
Proof.
  unfold _find_straight_draw. intros H5 Hfind.
  apply scan_bases_inv in Hfind as [b [Hkeep Hlen]].
  assert (Hnd : NoDup keep) by (subst keep; apply NoDup_nodup).
  assert (Hin : forall p, In p keep -> (p < 5)%nat).
  { intros p Hp. rewrite Hkeep in Hp. apply nodup_In in Hp.
    apply in_map_iff in Hp as [[r p'] [E Hp]]. simpl in E. subst p'.
    apply firstn_incl, window_candidates_In in Hp as [Hp _].
    apply ranks_with_pos_In in Hp as [Hlt _]. lia. }
  pose proof (outside_count keep 5 Hnd Hin) as Hc.
  unfold outside. lia.
Qed.

(** On a valid high-card hand the search finds a straight draw exactly
    when some window of five consecutive ranks covers four effective
    ranks. *)
Lemma straight_draw_iff_window (cards : list Card) tb nm :
  valid_hand cards = true ->
  evaluate (full cards) = ret (HIGH_CARD, tb, nm) ->
  _find_straight_draw cards = None <-> first_window (map fst cards) = None.
Proof.
  intros Hvalid Hev.
  destruct (valid_hand_facts cards Hvalid) as [Hlen [Hnd Hdeck]].
  destruct (high_card_ranks cards tb nm Hvalid Hev) as [Hdistinct Hnostraight].
  assert (Hrule : rank_rule_holds (map fst cards) = true).
  { apply rank_rule; [now rewrite length_map| |exact Hdistinct].
    intros r Hr. apply in_map_iff in Hr as [c [<- Hc]]. now apply Hdeck. }
  unfold rank_rule_holds, rank_discards in Hrule.
  rewrite Hnostraight, (find_straight_draw_bare cards Hlen),
          (by_rank_bare cards Hlen) in Hrule.
  pose proof (lowest_three_length cards Hlen) as Hthree.
  destruct (first_window (map fst cards)) as [b|],
           (_find_straight_draw cards) as [keep|] eqn:Hfind;
    try (split; congruence); exfalso.
  - cbn [draw_cascade is_empty] in Hrule.
    destruct (map fst (firstn 3 (by_rank cards))) as [|? [|? [|? [|? ?]]]];
      discriminate.
  - pose proof (straight_keep_leaves_one cards keep Hlen Hfind) as Hone.
    unfold draw_cascade in Hrule. cbn [is_empty] in Hrule.
    destruct (outside keep) as [|q [|? ?]]; try discriminate Hone.
    cbn [is_empty length Nat.eqb andb] in Hrule. discriminate Hrule.
Qed.

(** C4 (amended): on five cards the action list is the concatenation of the
    eight-command swap block of every discarded position, each replacement
    placed at the holder it was taken from, in the order the decision lists
    the positions; an empty decision gives no action. The decision is in
    ascending position order for every category but HighCard, and for a
    HighCard hand with four cards of one suit or with a straight draw; for
    a HighCard hand with neither, the "no draw" rule, it lists three
    positions in ascending rank order, cards of equal rank in ascending
    position order. On a valid hand the straight draw is the case of a
    window of five consecutive ranks covering four effective ranks. *)
Theorem swap_blocks_follow_decision (cards : list Card) (m : string) :
  length cards = 5%nat ->
  exists hr tb nm ds,
    evaluate (full cards) = ret (hr, tb, nm)
    /\ get_discard_positions (full cards) m = ret ds
    /\ get_poker_actions (full cards) m
       = ret (map format (flat_map swap_commands ds))
    /\ (ds = [] -> get_poker_actions (full cards) m = ret [])
    /\ (hr <> HIGH_CARD -> StronglySorted lt ds)
    /\ (hr = HIGH_CARD ->
        ((exists suit, count_occ string_dec (map snd cards) suit = 4%nat)
         \/ _find_straight_draw cards <> None ->
         StronglySorted lt ds)
        /\ ((forall suit, count_occ string_dec (map snd cards) suit <> 4%nat) ->
            _find_straight_draw cards = None ->
            length ds = 3%nat
            /\ StronglySorted (rank_then_position cards) ds)
        /\ (valid_hand cards = true ->
            (_find_straight_draw cards = None
             <-> first_window (map fst cards) = None))).
Proof.
  intros Hlen.
  destruct (get_cards_to_discard_shape (PokerStrategy_init m) cards Hlen
              (threshold_bound m))
    as [hr [tb [nm [ds [Hev [Hds Hshape]]]]]].
  exists hr, tb, nm, ds.
  split; [exact Hev|]. split; [exact Hds|].
  pose proof (get_poker_actions_full cards m ds Hds) as Hact.
  split; [exact Hact|]. split.
  { intros ->. exact Hact. }
  destruct Hshape as [[-> Hkeep]|[[Hne [keep ->]]|[Hhc [_ ->]]]].
  - split; [intros _; constructor|].
    intros ->. exfalso. unfold HIGH_CARD, STRAIGHT in Hkeep.
    destruct (threshold_cases m) as [[_ Ht]|[[_ Ht]|[[_ Ht]|[_ Ht]]]];
      rewrite Ht in Hkeep;
      unfold FULL_HOUSE, STRAIGHT, FOUR_OF_A_KIND in Hkeep; lia.
  - split; [|contradiction].
    intros _. apply firstn_sorted, positions_where_sorted.
  - split; [contradiction|]. intros _.
    split; [|split];
      [| |intros Hvalid; subst hr;
          exact (straight_draw_iff_window cards tb nm Hvalid Hev)];
      rewrite high_card_discards_cascade;
      destruct (draw_cascade_cases (flush_draw_discards cards)
                  (_find_straight_draw cards)
                  (map fst (firstn 3 (by_rank cards))))
        as [[Hflush ->]|[[_ [sk [Hsk [_ ->]]]]|[Hflush [Hnone ->]]]].
    + intros _. apply firstn_sorted. unfold flush_draw_discards.
      destruct (keys_with_count 4 _); [constructor|].
      apply positions_where_sorted.
    + intros _. apply firstn_sorted, filter_sorted, seq_sorted.
    + intros [[suit Hsuit]|Hdraw]; exfalso.
      * destruct (flush_draw_found cards suit Hlen Hsuit) as [p [E _]].
        congruence.
      * destruct Hnone as [Hnone|[sk [Hsk Hout]]]; [contradiction|].
        pose proof (straight_keep_leaves_one cards sk Hlen Hsk) as Hone.
        rewrite Hout in Hone. discriminate Hone.
    + intros Hno _. exfalso. apply Hflush. now apply flush_draw_none.
    + intros _ Hno. congruence.
    + intros _ _.
      rewrite firstn_all2 by (rewrite lowest_three_length by exact Hlen; lia).
      split; [now apply lowest_three_length|apply lowest_three_stable].
Qed.

Lemma swap_blocks_follow_decision_witness :
  exists hr tb nm ds,
    evaluate (full no_draw_hand) = ret (hr, tb, nm)
    /\ get_discard_positions (full no_draw_hand) "standard" = ret ds
    /\ get_poker_actions (full no_draw_hand) "standard"
       = ret (map format (flat_map swap_commands ds))
    /\ (ds = [] -> get_poker_actions (full no_draw_hand) "standard" = ret [])
    /\ (hr <> HIGH_CARD -> StronglySorted lt ds)
    /\ (hr = HIGH_CARD ->
        ((exists suit, count_occ string_dec (map snd no_draw_hand) suit = 4%nat)
         \/ _find_straight_draw no_draw_hand <> None ->
         StronglySorted lt ds)
        /\ ((forall suit, count_occ string_dec (map snd no_draw_hand) suit <> 4%nat) ->
            _find_straight_draw no_draw_hand = None ->
            length ds = 3%nat
            /\ StronglySorted (rank_then_position no_draw_hand) ds)
        /\ (valid_hand no_draw_hand = true ->
            (_find_straight_draw no_draw_hand = None
             <-> first_window (map fst no_draw_hand) = None))).
Proof.
  apply (swap_blocks_follow_decision no_draw_hand "standard"). reflexivity.
Defined.

(** * Properties of the rest of the package *)

(** ** card.py *)

Lemma RANKS_range (r : Z) : In r RANKS <-> 2 <= r <= 14.
Proof.
  unfold RANKS. simpl. split.
  - intros H. repeat (destruct H as [<-|H]; [lia|]). destruct H.
  - intros H.
    assert (r = 2 \/ r = 3 \/ r = 4 \/ r = 5 \/ r = 6 \/ r = 7 \/ r = 8 \/ r = 9
            \/ r = 10 \/ r = 11 \/ r = 12 \/ r = 13 \/ r = 14) by lia.
    intuition.
Qed.

Lemma is_valid_card_spec (c : Card) :
  is_valid_card c = true <-> In (fst c) RANKS /\ In (snd c) SUITS.
Proof.
  destruct c as [r s]. unfold is_valid_card. simpl fst. simpl snd.
  rewrite andb_true_iff, !existsb_exists. split.
  - intros [[r' [Hr E]] [s' [Hs E']]].
    apply Z.eqb_eq in E. apply String.eqb_eq in E'. subst. now split.
  - intros [Hr Hs]. split.
    + exists r. split; [exact Hr|apply Z.eqb_refl].
    + exists s. split; [exact Hs|apply String.eqb_refl].
Qed.

Lemma create_full_deck_NoDup : NoDup create_full_deck.
Proof. apply distinct_cards_NoDup. vm_compute. reflexivity. Qed.

Lemma create_full_deck_In (c : Card) :
  In c create_full_deck <-> is_valid_card c = true.
Proof.
  destruct c as [r s]. rewrite is_valid_card_spec. unfold create_full_deck.
  rewrite in_flat_map. simpl fst. simpl snd. split.
  - intros [suit [Hs Hin]]. apply in_map_iff in Hin as [rank [E Hr]].
    inversion E; subst. now split.
  - intros [Hr Hs]. exists s. split; [exact Hs|].
    apply in_map_iff. exists r. now split.
Qed.

(** X1: the full deck holds 52 cards, no card twice, and a card is in it
    exactly when [is_valid_card] accepts it. *)
Theorem full_deck_is_the_valid_cards :
  length create_full_deck = 52%nat
  /\ NoDup create_full_deck
  /\ forall c, In c create_full_deck <-> is_valid_card c = true.
Proof.
  split; [reflexivity|]. split.
  - exact create_full_deck_NoDup.
  - exact create_full_deck_In.
Qed.

Lemma rank_name_cases (r : Z) :
  (In r RANKS /\ exists name, getitem_int RANK_NAMES r = inr name
                              /\ In (r, name) RANK_NAMES)
  \/ (~ In r RANKS /\ getitem_int RANK_NAMES r = inl (KeyError_int r)).
Proof.
  unfold RANK_NAMES. simpl getitem_int.
  repeat match goal with
         | |- context [Z.eqb r ?k] =>
             destruct (Z.eqb_spec r k);
             [subst; left; split; [simpl; tauto|];
              eexists; split; [reflexivity|simpl; tauto]|]
         end.
  right. split; [|reflexivity].
  rewrite RANKS_range. intros Hr. lia.
Qed.

(** X2: [card_to_string] names a card exactly when its rank is one of
    2..14, whatever the suit string, and fails with the [KeyError] of the
    rank otherwise; the short names tell apart any two cards they
    name. *)
Theorem card_to_string_total_and_injective (c : Card) :
  (In (fst c) RANKS -> exists s, card_to_string c = inr s)
  /\ (~ In (fst c) RANKS -> card_to_string c = inl (KeyError_int (fst c)))
  /\ forall c' s, card_to_string c = inr s -> card_to_string c' = inr s -> c = c'.
Proof.
  destruct c as [r suit]. unfold card_to_string. simpl fst. simpl snd.
  split; [|split].
  - intros Hr. destruct (rank_name_cases r) as [[_ [name [-> _]]]|[Hn _]];
      [eauto|contradiction].
  - intros Hr. destruct (rank_name_cases r) as [[Hin _]|[_ ->]];
      [contradiction|reflexivity].
  - intros [r' suit'] s. simpl fst. simpl snd.
    destruct (rank_name_cases r) as [[_ [name [-> Hname]]]|[_ ->]];
      [|discriminate].
    destruct (rank_name_cases r') as [[_ [name' [-> Hname']]]|[_ ->]];
      [|discriminate].
    intros E E'. inversion E; subst s. inversion E' as [E'']. clear E E'.
    unfold RANK_NAMES in Hname, Hname'. simpl in Hname, Hname'.
    repeat (destruct Hname as [Hname|Hname];
            [inversion Hname; subst; clear Hname|]); try contradiction;
      repeat (destruct Hname' as [Hname'|Hname'];
              [inversion Hname'; subst; clear Hname'|]); try contradiction;
      simpl in E''; inversion E''; reflexivity.
Qed.

(** X3: [card_to_full_string] names exactly the valid cards: a rank
    outside 2..14 fails with the [KeyError] of the rank, a valid rank with
    an unknown suit fails with the [KeyError] of the suit. *)
Theorem card_to_full_string_valid_only (c : Card) :
  (is_valid_card c = true <-> exists s, card_to_full_string c = inr s)
  /\ (~ In (fst c) RANKS -> card_to_full_string c = inl (KeyError_int (fst c)))
  /\ (In (fst c) RANKS -> ~ In (snd c) SUITS ->
      card_to_full_string c = inl (KeyError_str (snd c))).
Proof.
  assert (Hsuit : forall s,
             (In s SUITS /\ exists name, getitem_str SUIT_NAMES s = inr name)
             \/ (~ In s SUITS /\ getitem_str SUIT_NAMES s = inl (KeyError_str s))).
  { intros s. unfold SUIT_NAMES, SUITS. simpl.
    repeat match goal with
           | |- context [String.eqb s ?k] =>
               destruct (String.eqb_spec s k); [subst; left; split; [tauto|eauto]|]
           end.
    right. split; [|reflexivity]. intuition congruence. }
  rewrite is_valid_card_spec.
  destruct c as [r suit]. unfold card_to_full_string. simpl fst. simpl snd.
  destruct (rank_name_cases r) as [[Hr [name [-> _]]]|[Hr ->]];
    destruct (Hsuit suit) as [[Hs [sname Es]]|[Hs Es]]; rewrite ?Es;
    (split; [split; [intros [? ?]|intros [? E]; try discriminate E]|split; intros]);
    try contradiction; try tauto; eauto.
Qed.

(** ** hand_evaluator.py: names, tiebreak keys, comparison *)

Lemma evaluate_inv (hand : HandWithEmpty) (r : EvaluationResult) :
  evaluate hand = ret r ->
  exists cards, hand = full cards /\ length cards = 5%nat /\ classify cards = ret r.
Proof.
  unfold evaluate.
  destruct (Nat.eqb_spec (length hand) 5) as [Hlen|Hlen]; simpl; [|discriminate].
  destruct (slots_full_or_None hand) as [[cards ->]|Hnone].
  - rewrite subscript_all_full. simpl. intros Hc. exists cards.
    rewrite full_length in Hlen. auto.
  - rewrite (subscript_all_None _ Hnone). discriminate.
Qed.

Lemma insert_desc_length (x : Z) (l : list Z) :
  length (insert_desc x l) = S (length l).
Proof. apply (Permutation_length (insert_desc_perm x l)). Qed.

Ltac pick_row := repeat (first [left; reflexivity | right]).

Lemma classify_on_row (ranks : list Z) (is_flush : bool) hr tb nm :
  length ranks = 5%nat ->
  classify_on ranks is_flush = ret (hr, tb, nm) ->
  In (hr, length tb, nm) category_table.
Proof.
  intros Hlen.
  destruct ranks as [|a [|b [|c [|d [|e [|? ?]]]]]]; try discriminate.
  unfold classify_on.
  destruct (_check_straight [a; b; c; d; e]) as [is_straight straight_high].
  destruct (is_flush && is_straight && (straight_high =? 14));
    [intros E; inversion E; subst; simpl; pick_row|].
  destruct (is_flush && is_straight);
    [intros E; inversion E; subst; simpl; pick_row|].
  destruct is_flush, is_straight;
    unfold Counter; simpl; split_eqb;
    intros E; inversion E; subst;
    repeat (simpl;
            match goal with
            | |- context [Z.leb ?x ?y] => destruct (Z.leb x y)
            end);
    simpl; pick_row.
Qed.

Lemma classify_on_name_and_key (ranks : list Z) (is_flush : bool) hr tb nm :
  length ranks = 5%nat ->
  classify_on ranks is_flush = ret (hr, tb, nm) ->
  getitem_int HAND_NAMES hr = inr nm /\ length tb = tiebreak_length hr.
Proof.
  intros Hlen Hc. pose proof (classify_on_row _ _ _ _ _ Hlen Hc) as Hrow.
  unfold category_table in Hrow. simpl in Hrow.
  repeat (destruct Hrow as [Hrow|Hrow];
          [injection Hrow as E1 E2 E3; subst hr nm; rewrite <- E2;
           split; reflexivity|]).
  destruct Hrow.
Qed.

Lemma evaluate_key_length (hand : HandWithEmpty) hr tb nm :
  evaluate hand = ret (hr, tb, nm) ->
  getitem_int HAND_NAMES hr = inr nm /\ length tb = tiebreak_length hr.
Proof.
  intros Hev.
  destruct (evaluate_inv hand _ Hev) as [cards [-> [Hlen Hc]]].
  rewrite classify_unfold in Hc.
  apply classify_on_name_and_key in Hc;
    [|now rewrite sorted_desc_length, length_map].
  tauto.
Qed.

(** X4: the name [evaluate] returns is the entry of [HAND_NAMES] for the
    category it returns, and the tiebreak key has the length fixed by the
    category: 5 for HighCard and Flush, 4 for OnePair, 3 for TwoPair and
    ThreeOfAKind, 2 for FullHouse and FourOfAKind, 1 for the straights. *)
Theorem evaluate_name_and_key_length (hand : HandWithEmpty) hr tb nm :
  evaluate hand = ret (hr, tb, nm) ->
  getitem_int HAND_NAMES hr = inr nm
  /\ length tb = tiebreak_length hr
  /\ get_hand_rank hand = ret hr
  /\ get_hand_name hand = ret nm.
Proof.
  intros Hev.
  destruct (evaluate_key_length hand hr tb nm Hev) as [Hname Hkey].
  split; [exact Hname|]. split; [exact Hkey|].
  unfold get_hand_rank, get_hand_name. rewrite Hev. split; reflexivity.
Qed.

Lemma evaluate_name_and_key_length_witness :
  getitem_int HAND_NAMES 2 = inr "Two Pair"
  /\ length [10; 5; 7] = tiebreak_length 2
  /\ get_hand_rank (full two_pair_hand) = ret 2
  /\ get_hand_name (full two_pair_hand) = ret "Two Pair".
Proof.
  apply (evaluate_name_and_key_length (full two_pair_hand) 2 [10; 5; 7] "Two Pair").
  reflexivity.
Defined.

Lemma compare_tiebreakers_antisym (l1 l2 : list Z) :
  compare_tiebreakers l2 l1 = - compare_tiebreakers l1 l2.
Proof.
  revert l2. induction l1 as [|r1 t1 IH]; intros [|r2 t2]; simpl; try reflexivity.
  destruct (Z.eqb_spec r1 r2) as [->|Hne]; simpl.
  - rewrite Z.eqb_refl. simpl. apply IH.
  - destruct (Z.eqb_spec r2 r1); [congruence|]. simpl.
    destruct (Z.gtb_spec r1 r2), (Z.gtb_spec r2 r1); try reflexivity; lia.
Qed.

Lemma compare_tiebreakers_range (l1 l2 : list Z) :
  -1 <= compare_tiebreakers l1 l2 <= 1.
Proof.
  revert l2. induction l1 as [|r1 t1 IH]; intros [|r2 t2]; simpl; try lia.
  destruct (r1 =? r2); simpl; [apply IH|]. destruct (r1 >? r2); lia.
Qed.

Lemma compare_tiebreakers_eq (l1 l2 : list Z) :
  length l1 = length l2 -> (compare_tiebreakers l1 l2 = 0 <-> l1 = l2).
Proof.
  revert l2. induction l1 as [|r1 t1 IH]; intros [|r2 t2]; simpl; try discriminate.
  - tauto.
  - intros Hlen. injection Hlen as Hlen.
    destruct (Z.eqb_spec r1 r2) as [->|Hne]; simpl.
    + rewrite (IH t2 Hlen). split; congruence.
    + split; [|congruence]. destruct (r1 >? r2); discriminate.
Qed.

Lemma compare_tiebreakers_trans (l1 l2 l3 : list Z) :
  length l1 = length l2 -> length l2 = length l3 ->
  0 <= compare_tiebreakers l1 l2 -> 0 <= compare_tiebreakers l2 l3 ->
  0 <= compare_tiebreakers l1 l3
  /\ (compare_tiebreakers l1 l2 = 1 \/ compare_tiebreakers l2 l3 = 1 ->
      compare_tiebreakers l1 l3 = 1).
Proof.
  revert l2 l3.
  induction l1 as [|r1 t1 IH]; intros [|r2 t2] [|r3 t3]; simpl;
    try discriminate; try (intros; split; [lia|intros [?|?]; lia]).
  intros H12 H23. injection H12 as H12. injection H23 as H23.
  destruct (Z.eqb_spec r1 r2) as [->|N12]; simpl.
  - destruct (Z.eqb_spec r2 r3) as [->|N23]; simpl.
    + apply IH; assumption.
    + intros _ H. destruct (Z.gtb_spec r2 r3); [|lia].
      split; [lia|reflexivity].
  - destruct (Z.gtb_spec r1 r2) as [G12|G12]; [|intros; lia].
    intros _.
    destruct (Z.eqb_spec r2 r3) as [->|N23]; simpl.
    + intros _. destruct (Z.eqb_spec r1 r3); [congruence|]. simpl.
      destruct (Z.gtb_spec r1 r3); [|lia]. split; [lia|reflexivity].
    + destruct (Z.gtb_spec r2 r3) as [G23|G23]; [|intros; lia].
      intros _. destruct (Z.eqb_spec r1 r3); [lia|]. simpl.
      destruct (Z.gtb_spec r1 r3); [|lia]. split; [lia|reflexivity].
Qed.

Lemma compare_hands_results (h1 h2 : HandWithEmpty) (e1 e2 : EvaluationResult) :
  evaluate h1 = ret e1 -> evaluate h2 = ret e2 ->
  compare_hands h1 h2 = ret (compare_results e1 e2).
Proof.
  intros H1 H2. unfold compare_hands. rewrite H1, H2. simpl.
  destruct e1 as [[r1 t1] n1], e2 as [[r2 t2] n2]. simpl.
  destruct (negb (r1 =? r2)); reflexivity.
Qed.

Lemma compare_hands_inv (h1 h2 : HandWithEmpty) (z : Z) :
  compare_hands h1 h2 = ret z ->
  exists e1 e2, evaluate h1 = ret e1 /\ evaluate h2 = ret e2
                /\ z = compare_results e1 e2.
Proof.
  unfold compare_hands.
  destruct (evaluate h1) as [x|e1] eqn:H1; simpl; [discriminate|].
  destruct (evaluate h2) as [x|e2] eqn:H2; simpl; [discriminate|].
  intros Hz. exists e1, e2. split; [reflexivity|]. split; [reflexivity|].
  destruct e1 as [[r1 t1] n1], e2 as [[r2 t2] n2]. simpl in *.
  destruct (negb (r1 =? r2)); inversion Hz; reflexivity.
Qed.

Lemma compare_results_antisym (e1 e2 : EvaluationResult) :
  compare_results e2 e1 = - compare_results e1 e2
  /\ -1 <= compare_results e1 e2 <= 1.
Proof.
  destruct e1 as [[r1 t1] n1], e2 as [[r2 t2] n2]. simpl.
  destruct (Z.eqb_spec r1 r2) as [->|Hne]; simpl.
  - rewrite Z.eqb_refl. simpl.
    split; [apply compare_tiebreakers_antisym|apply compare_tiebreakers_range].
  - destruct (Z.eqb_spec r2 r1); [congruence|]. simpl.
    destruct (Z.gtb_spec r1 r2), (Z.gtb_spec r2 r1); split; try reflexivity; lia.
Qed.

(** X5: when [compare_hands] returns, it returns 1, 0 or -1, and swapping
    the two hands negates the answer. *)
Theorem compare_hands_antisymmetric (h1 h2 : HandWithEmpty) (z : Z) :
  compare_hands h1 h2 = ret z ->
  compare_hands h2 h1 = ret (- z) /\ (z = 1 \/ z = 0 \/ z = -1).
Proof.
  intros Hz.
  destruct (compare_hands_inv h1 h2 z Hz) as [e1 [e2 [H1 [H2 ->]]]].
  rewrite (compare_hands_results h2 h1 e2 e1 H2 H1).
  destruct (compare_results_antisym e1 e2) as [-> Hr].
  split; [reflexivity|lia].
Qed.

Lemma compare_hands_antisymmetric_witness :
  compare_hands (full pair_hand) (full trips_hand) = ret (- 1)
  /\ (1 = 1 \/ 1 = 0 \/ 1 = -1).
Proof.
  apply (compare_hands_antisymmetric (full trips_hand) (full pair_hand) 1).
  reflexivity.
Defined.

(** X6: [compare_hands] returns 0 exactly when the two hands get the same
    evaluation: category, tiebreak key and name. *)
Theorem compare_hands_tie (h1 h2 : HandWithEmpty) :
  compare_hands h1 h2 = ret 0
  <-> (exists e, evaluate h1 = ret e /\ evaluate h2 = ret e).
Proof.
  split.
  - intros Hz.
    destruct (compare_hands_inv h1 h2 0 Hz) as [e1 [e2 [H1 [H2 Hc]]]].
    exists e1. split; [exact H1|]. rewrite H2. f_equal.
    destruct e1 as [[r1 t1] n1], e2 as [[r2 t2] n2].
    destruct (evaluate_key_length _ _ _ _ H1) as [N1 L1].
    destruct (evaluate_key_length _ _ _ _ H2) as [N2 L2].
    simpl in Hc.
    destruct (Z.eqb_spec r1 r2) as [->|Hne]; simpl in Hc.
    + symmetry in Hc. apply compare_tiebreakers_eq in Hc; [|congruence].
      subst t2. congruence.
    + destruct (r1 >? r2); discriminate.
  - intros [e [H1 H2]].
    rewrite (compare_hands_results h1 h2 e e H1 H2). f_equal.
    destruct e as [[r t] n]. simpl. rewrite Z.eqb_refl. simpl.
    now apply compare_tiebreakers_eq.
Qed.

(** X7: on hands that evaluate, [compare_hands] is transitive: if the
    first hand does not lose to the second and the second does not lose to
    the third, the first does not lose to the third, and it wins when one of
    the two steps is a win. *)
Theorem compare_hands_transitive (h1 h2 h3 : HandWithEmpty) (a b : Z) :
  compare_hands h1 h2 = ret a ->
  compare_hands h2 h3 = ret b ->
  0 <= a -> 0 <= b ->
  exists c,
    compare_hands h1 h3 = ret c
    /\ 0 <= c
    /\ (a = 1 \/ b = 1 -> c = 1).
Proof.
  intros Ha Hb Ha0 Hb0.
  destruct (compare_hands_inv h1 h2 a Ha) as [e1 [e2 [H1 [H2 ->]]]].
  destruct (compare_hands_inv h2 h3 b Hb) as [e2' [e3 [H2' [H3 ->]]]].
  rewrite H2 in H2'. inversion H2'; subst e2'. clear H2'.
  exists (compare_results e1 e3).
  split; [now apply compare_hands_results|].
  destruct e1 as [[r1 t1] n1], e2 as [[r2 t2] n2], e3 as [[r3 t3] n3].
  destruct (evaluate_key_length _ _ _ _ H1) as [_ L1].
  destruct (evaluate_key_length _ _ _ _ H2) as [_ L2].
  destruct (evaluate_key_length _ _ _ _ H3) as [_ L3].
  simpl in *.
  destruct (Z.eqb_spec r1 r2) as [->|N12]; simpl in *.
  - destruct (Z.eqb_spec r2 r3) as [->|N23]; simpl in *.
    + apply compare_tiebreakers_trans; congruence.
    + destruct (Z.gtb_spec r2 r3); [|lia]. split; [lia|reflexivity].
  - destruct (Z.gtb_spec r1 r2); [|lia].
    destruct (Z.eqb_spec r2 r3) as [->|N23]; simpl in *.
    + destruct (Z.eqb_spec r1 r3); [congruence|]. simpl.
      destruct (Z.gtb_spec r1 r3); [|lia]. split; [lia|reflexivity].
    + destruct (Z.gtb_spec r2 r3); [|lia].
      destruct (Z.eqb_spec r1 r3); [lia|]. simpl.
      destruct (Z.gtb_spec r1 r3); [|lia]. split; [lia|reflexivity].
Qed.

Lemma compare_hands_transitive_witness :
  exists c,
    compare_hands (full royal_hand) (full pair_hand) = ret c
    /\ 0 <= c
    /\ (1 = 1 \/ 1 = 1 -> c = 1).
Proof.
  apply (compare_hands_transitive (full royal_hand) (full trips_hand)
           (full pair_hand) 1 1); try reflexivity; lia.
Defined.

(** ** strategy.py: what the mode does not change, what the pair rules keep *)

Lemma evaluate_range (hand : HandWithEmpty) hr tb nm :
  evaluate hand = ret (hr, tb, nm) -> 0 <= hr <= 9.
Proof.
  intros Hev. destruct (evaluate_inv hand _ Hev) as [cards [_ [_ Hc]]].
  rewrite classify_unfold in Hc.
  now destruct (classify_on_facts _ _ _ _ _ Hc).
Qed.

Lemma get_cards_to_discard_threshold (self self' : PokerStrategy)
  (hand : HandWithEmpty) :
  STRAIGHT <= threshold self <= FOUR_OF_A_KIND ->
  STRAIGHT <= threshold self' <= FOUR_OF_A_KIND ->
  get_cards_to_discard self hand = get_cards_to_discard self' hand.
Proof.
  unfold STRAIGHT, FOUR_OF_A_KIND. intros Ht Ht'.
  unfold get_cards_to_discard.
  destruct (evaluate hand) as [err|[[hr tb] nm]] eqn:Hev; simpl; [reflexivity|].
  pose proof (evaluate_range hand hr tb nm Hev) as Hrange.
  destruct (evaluate_inv hand _ Hev) as [cards [-> _]].
  rewrite subscript_all_full. simpl.
  unfold FOUR_OF_A_KIND, FULL_HOUSE, FLUSH, STRAIGHT.
  destruct (Z.geb_spec hr (threshold self)), (Z.geb_spec hr (threshold self'));
    try reflexivity;
    destruct (Z.eqb_spec hr 7); try reflexivity;
    destruct (Z.eqb_spec hr 6); try reflexivity;
    destruct (Z.eqb_spec hr 5); try reflexivity;
    destruct (Z.eqb_spec hr 4); try reflexivity; lia.
Qed.

Lemma threshold_range (m : string) :
  STRAIGHT <= threshold (PokerStrategy_init m) <= FOUR_OF_A_KIND.
Proof.
  destruct (threshold_cases m) as [[_ ->]|[[_ ->]|[[_ ->]|[_ ->]]]];
    unfold FULL_HOUSE, STRAIGHT, FOUR_OF_A_KIND; lia.
Qed.

(** X8: the mode never changes the decision: the keep-all tests for
    Straight, Flush, FullHouse and FourOfAKind and the fact that every
    threshold lies between Straight and FourOfAKind make
    [get_discard_positions] return the same answer (or raise the same
    error) for any two mode strings, on every hand. *)
Theorem discards_ignore_mode (hand : HandWithEmpty) (m m' : string) :
  get_discard_positions hand m = get_discard_positions hand m'
  /\ get_poker_actions hand m = get_poker_actions hand m'.
Proof.
  assert (Hd : get_cards_to_discard (PokerStrategy_init m) hand
               = get_cards_to_discard (PokerStrategy_init m') hand)
    by (apply get_cards_to_discard_threshold; apply threshold_range).
  split; [exact Hd|].
  unfold get_poker_actions, generate_swap_actions. now rewrite Hd.
Qed.

Ltac split_eq_dec :=
  repeat match goal with
         | |- context [Z.eq_dec ?x ?y] =>
             destruct (Z.eq_dec x y); [subst|]; try congruence
         end.

Lemma count_occ_eqb (l : list Z) (x : Z) :
  count_occ Z.eq_dec l x = length (filter (Z.eqb x) l).
Proof.
  induction l as [|a l IH]; simpl; [reflexivity|].
  destruct (Z.eq_dec a x) as [->|Hne].
  - rewrite Z.eqb_refl. simpl. now rewrite IH.
  - destruct (Z.eqb_spec x a); [congruence|exact IH].
Qed.

(** The branches of [classify_on], conditions left as they are. *)
Ltac split_branches E :=
  repeat match type of E with
         | (if ?c then _ else _) = _ => destruct c
         | bind (item0 ?l) _ = _ => destruct l; simpl in E; [discriminate|]
         end;
  inversion E; subst; clear E.

(** Turn the inequalities of the context into rewriting facts. *)
Ltac neq_to_eqb :=
  repeat match goal with
         | n : ?x <> ?y |- _ =>
             let H := fresh "Hf" in
             let H' := fresh "Hf" in
             assert (H : (x =? y) = false) by (apply Z.eqb_neq; exact n);
             assert (H' : (y =? x) = false) by (apply Z.eqb_neq; congruence);
             clear n
         end.

Ltac rewrite_eqb :=
  repeat (rewrite Z.eqb_refl
          || match goal with
             | H : (_ =? _) = false |- _ => rewrite H
             end).

Lemma classify_on_multiples (l : list Z) (is_flush : bool) hr tb nm :
  length l = 5%nat ->
  classify_on l is_flush = ret (hr, tb, nm) ->
  In hr [ONE_PAIR; TWO_PAIR; THREE_OF_A_KIND] ->
  multiples_profile l hr.
Proof.
  intros Hlen.
  unfold classify_on.
  destruct (_check_straight l) as [is_straight straight_high].
  unfold ONE_PAIR, TWO_PAIR, THREE_OF_A_KIND, ROYAL_FLUSH, STRAIGHT_FLUSH,
    FOUR_OF_A_KIND, FULL_HOUSE, FLUSH, STRAIGHT, HIGH_CARD.
  assert (Hno : forall z : Z, In z [1; 2; 3] -> z = 1 \/ z = 2 \/ z = 3)
    by (simpl; intros z [?|[?|[?|[]]]]; auto).
  destruct is_flush, is_straight; cbv beta iota zeta; simpl andb;
    try (intros E Hin; split_branches E; apply Hno in Hin; lia).
  destruct l as [|a [|b [|c [|d [|e [|? ?]]]]]]; try discriminate.
  unfold Counter; simpl; split_eqb;
    intros E Hin; inversion E; subst; apply Hno in Hin;
    try lia; clear E Hin Hno Hlen; neq_to_eqb;
    (split;
     [unfold single_rank;
      rewrite (filter_ext _ (fun x => Nat.eqb (length (filter (Z.eqb x) _)) 1)
                 (fun x => f_equal (fun n => Nat.eqb n 1) (count_occ_eqb _ x)));
      simpl; rewrite_eqb; simpl; rewrite_eqb; reflexivity
     |intros x Hx; rewrite !count_occ_eqb; simpl in Hx;
      repeat (destruct Hx as [<-|Hx];
              [simpl; rewrite_eqb; simpl; auto|]);
      destruct Hx]).
Qed.

Lemma filter_length_perm {A} (f : A -> bool) (l l' : list A) :
  Permutation l l' -> length (filter f l) = length (filter f l').
Proof.
  induction 1 as [|x l l' Hp IH|x y l|l l' l'' _ IH1 _ IH2]; simpl.
  - reflexivity.
  - destruct (f x); simpl; congruence.
  - destruct (f x), (f y); reflexivity.
  - congruence.
Qed.

Lemma filter_map_length {A B} (f : B -> bool) (g : A -> B) (l : list A) :
  length (filter f (map g l)) = length (filter (fun a => f (g a)) l).
Proof.
  induction l as [|a l IH]; simpl; [reflexivity|].
  destruct (f (g a)); simpl; congruence.
Qed.

Lemma count_occ_two (l : list Z) (x y : Z) :
  x <> y ->
  (count_occ Z.eq_dec l x + count_occ Z.eq_dec l y <= length l)%nat.
Proof.
  intros Hne. induction l as [|a l IH]; simpl; [lia|].
  destruct (Z.eq_dec a x), (Z.eq_dec a y); try congruence; lia.
Qed.

Lemma positions_where_length (keep : Card -> bool) (cards : list Card) :
  length (positions_where keep cards) = length (filter keep cards).
Proof.
  unfold positions_where, enumerate. rewrite length_map.
  generalize 0%nat. induction cards as [|c cards IH]; intros s; simpl.
  - reflexivity.
  - destruct (keep c); simpl; now rewrite IH.
Qed.

Lemma positions_where_ext (keep keep' : Card -> bool) (cards : list Card) :
  (forall c, In c cards -> keep c = keep' c) ->
  positions_where keep cards = positions_where keep' cards.
Proof.
  intros Hext. unfold positions_where. f_equal.
  apply filter_ext_in. intros [i c] Hin. simpl.
  apply Hext. apply enumerate_In in Hin. now apply nth_error_In in Hin.
Qed.

Lemma multiples_profile_perm (l l' : list Z) (hr : Z) :
  Permutation l l' -> multiples_profile l hr -> multiples_profile l' hr.
Proof.
  intros Hp [Hlen Hall].
  assert (Hc : forall x, count_occ Z.eq_dec l x = count_occ Z.eq_dec l' x)
    by now apply Permutation_count_occ.
  split.
  - rewrite <- Hlen, <- (filter_length_perm _ _ _ Hp).
    f_equal. apply filter_ext. intros x. unfold single_rank. now rewrite Hc.
  - intros x Hx. rewrite <- Hc. apply Hall.
    now apply (Permutation_in _ (Permutation_sym Hp)).
Qed.

(** The test each pair rule applies to a card amounts to "its rank occurs
    once". *)
Lemma matched_rule_keep (cards : list Card) (hr : Z) (keep : Card -> bool) :
  multiples_profile (map fst cards) hr ->
  (forall c, In c cards -> keep c = single_rank (map fst cards) (fst c)) ->
  positions_where keep cards
    = positions_where (fun c => single_rank (map fst cards) (fst c)) cards
  /\ length (positions_where keep cards) = unmatched_cards hr.
Proof.
  intros [Hlen _] Hkeep.
  rewrite (positions_where_ext _ _ _ Hkeep). split; [reflexivity|].
  now rewrite positions_where_length, <- filter_map_length.
Qed.

Lemma unmatched_cards_le (hr : Z) : (unmatched_cards hr <= 3)%nat.
Proof. unfold unmatched_cards. destruct (hr =? 1), (hr =? 2); lia. Qed.

(** X9: in a OnePair, TwoPair or ThreeOfAKind hand the discarded positions
    are exactly the positions of the cards whose rank occurs once in the
    hand, in ascending order: three, one and two positions; every card
    kept has a rank that occurs twice (three times for ThreeOfAKind). *)
Theorem matched_cards_are_kept (cards : list Card) (m : string) hr tb nm :
  length cards = 5%nat ->
  evaluate (full cards) = ret (hr, tb, nm) ->
  In hr [ONE_PAIR; TWO_PAIR; THREE_OF_A_KIND] ->
  exists ds,
    get_discard_positions (full cards) m = ret ds
    /\ StronglySorted lt ds
    /\ length ds = unmatched_cards hr
    /\ forall p c,
        nth_error cards p = Some c ->
        (In p ds <-> count_occ Z.eq_dec (map fst cards) (fst c) = 1%nat)
        /\ (~ In p ds ->
            count_occ Z.eq_dec (map fst cards) (fst c) = matched_count hr).
Proof.
  intros Hlen Hev Hhr.
  pose proof Hev as Hc. rewrite (evaluate_full cards Hlen), classify_unfold in Hc.
  set (ranks := map fst cards) in *.
  assert (Hperm : Permutation (sorted_desc ranks) ranks) by apply sorted_desc_perm.
  assert (Hsl : length (sorted_desc ranks) = 5%nat)
    by (rewrite sorted_desc_length; unfold ranks; rewrite length_map; exact Hlen).
  pose proof (classify_on_multiples _ _ _ _ _ Hsl Hc Hhr) as Hprof.
  apply (multiples_profile_perm _ _ _ Hperm) in Hprof.
  destruct (classify_on_facts _ _ _ _ _ Hc) as [_ Htrips Htwo Hone _].
  assert (Hcount : forall x, In x ranks -> forall k n,
             count_occ Z.eq_dec ranks k = n -> x <> k ->
             (count_occ Z.eq_dec ranks x + n <= 5)%nat).
  { assert (Hrl : length ranks = 5%nat)
      by (unfold ranks; rewrite length_map; exact Hlen).
    intros x _ k n <- Hne. pose proof (count_occ_two ranks x k Hne) as H.
    now rewrite Hrl in H. }
  assert (Hin : forall c, In c cards -> In (fst c) ranks)
    by (intros c Hc'; now apply in_map).
  (* the list each rule builds *)
  assert (Hrule : exists keep,
             get_cards_to_discard (PokerStrategy_init m) (full cards)
             = ret (firstn 3 (positions_where keep cards))
             /\ forall c, In c cards -> keep c = single_rank ranks (fst c)).
  { assert (Hthr : STRAIGHT <= threshold (PokerStrategy_init m))
      by apply threshold_range.
    generalize dependent (PokerStrategy_init m). intros self Hthr.
    unfold get_cards_to_discard. rewrite Hev. simpl.
    unfold ONE_PAIR, TWO_PAIR, THREE_OF_A_KIND, STRAIGHT in *.
    assert (Hhr' : hr = 1 \/ hr = 2 \/ hr = 3)
      by (simpl in Hhr; intuition).
    destruct (Z.geb_spec hr (threshold self)); [lia|].
    rewrite subscript_all_full. simpl.
    unfold FOUR_OF_A_KIND, FULL_HOUSE, FLUSH, STRAIGHT.
    destruct (Z.eqb_spec hr 7); [lia|]. destruct (Z.eqb_spec hr 6); [lia|].
    destruct (Z.eqb_spec hr 5); [lia|]. destruct (Z.eqb_spec hr 4); [lia|].
    fold ranks.
    destruct Hprof as [_ Hall].
    destruct (Z.eqb_spec hr 3) as [E3|N3].
    - specialize (Htrips E3). rewrite count_in_values_keys in Htrips.
      apply negb_true_iff in Htrips.
      destruct (keys_nonempty_perm _ _ 3 ltac:(lia) Hperm Htrips) as [k [rest Hk]].
      rewrite Hk. simpl. eexists. split; [reflexivity|].
      assert (Hk3 : count_occ Z.eq_dec ranks k = 3%nat).
      { apply (keys_with_count_In Z.eqb Z.eqb_spec Z.eq_dec); [lia|].
        rewrite Hk. now left. }
      intros c Hc'. unfold single_rank. simpl.
      destruct (Z.eqb_spec (fst c) k) as [->|Hne]; simpl.
      + now rewrite Hk3.
      + pose proof (Hcount _ (Hin c Hc') k 3%nat Hk3 Hne).
        destruct (Hall _ (Hin c Hc')) as [->|H3]; [reflexivity|].
        rewrite E3 in H3. change (matched_count 3) with 3%nat in H3. lia.
    - destruct (Z.eqb_spec hr 2) as [E2|N2].
      + simpl. eexists. split; [reflexivity|].
        intros c Hc'. unfold single_rank. simpl.
        destruct (existsb (Z.eqb (fst c)) (keys_with_count 2 (Counter Z.eqb ranks)))
          eqn:Hex; simpl.
        * apply existsb_exists in Hex as [k [Hk E]]. apply Z.eqb_eq in E. subst k.
          apply (keys_with_count_In Z.eqb Z.eqb_spec Z.eq_dec) in Hk; [|lia].
          now rewrite Hk.
        * destruct (Hall _ (Hin c Hc')) as [->|H2]; [reflexivity|].
          rewrite E2 in H2. change (matched_count 2) with 2%nat in H2.
          apply (keys_with_count_In Z.eqb Z.eqb_spec Z.eq_dec) in H2; [|lia].
          assert (existsb (Z.eqb (fst c)) (keys_with_count 2 (Counter Z.eqb ranks))
                  = true); [|congruence].
          apply existsb_exists. exists (fst c). split; [exact H2|apply Z.eqb_refl].
      + assert (E1 : hr = 1) by lia.
        destruct (Z.eqb_spec hr 1); [|lia].
        specialize (Hone E1).
        destruct (keys_with_count 2 (Counter Z.eqb (sorted_desc ranks)))
          as [|k0 [|? ?]] eqn:Hk0; try discriminate.
        assert (Hne0 : is_empty (keys_with_count 2
                                   (Counter Z.eqb (sorted_desc ranks))) = false)
          by now rewrite Hk0.
        destruct (keys_nonempty_perm _ _ 2 ltac:(lia) Hperm Hne0) as [k [rest Hk]].
        rewrite Hk. simpl. eexists. split; [reflexivity|].
        assert (Hk2 : count_occ Z.eq_dec ranks k = 2%nat).
        { apply (keys_with_count_In Z.eqb Z.eqb_spec Z.eq_dec); [lia|].
          rewrite Hk. now left. }
        assert (Huniq : forall x, count_occ Z.eq_dec ranks x = 2%nat -> x = k0).
        { intros x Hx.
          rewrite <- (proj1 (Permutation_count_occ Z.eq_dec _ _) Hperm) in Hx.
          apply (keys_with_count_In Z.eqb Z.eqb_spec Z.eq_dec) in Hx; [|lia].
          rewrite Hk0 in Hx. destruct Hx as [<-|[]]. reflexivity. }
        intros c Hc'. unfold single_rank. simpl.
        destruct (Z.eqb_spec (fst c) k) as [->|Hne]; simpl.
        * now rewrite Hk2.
        * destruct (Hall _ (Hin c Hc')) as [->|H2]; [reflexivity|].
          rewrite E1 in H2. change (matched_count 1) with 2%nat in H2.
          exfalso. apply Hne. rewrite (Huniq _ H2), (Huniq _ Hk2). reflexivity. }
  destruct Hrule as [keep [Hds Hkeep]].
  destruct (matched_rule_keep cards hr keep Hprof Hkeep) as [Hpos Hlen3].
  assert (Hfirst : firstn 3 (positions_where keep cards) = positions_where keep cards).
  { apply firstn_all2. rewrite Hlen3. apply unmatched_cards_le. }
  rewrite Hfirst in Hds.
  exists (positions_where keep cards). unfold get_discard_positions.
  split; [exact Hds|]. split; [apply positions_where_sorted|].
  split; [exact Hlen3|].
  intros p c Hp.
  assert (Hmem : In p (positions_where keep cards)
                 <-> count_occ Z.eq_dec ranks (fst c) = 1%nat).
  { rewrite Hpos, positions_where_In. unfold single_rank. split.
    - intros [c' [Hc' Hs]]. rewrite Hp in Hc'. inversion Hc'; subst c'.
      now apply Nat.eqb_eq.
    - intros H1. exists c. split; [exact Hp|]. now apply Nat.eqb_eq. }
  split; [exact Hmem|].
  intros Hnot. destruct Hprof as [_ Hall].
  destruct (Hall (fst c) (Hin c (nth_error_In _ _ Hp))) as [H1|Hm]; [|exact Hm].
  exfalso. apply Hnot. now apply Hmem.
Qed.

Lemma matched_cards_are_kept_witness :
  exists ds,
    get_discard_positions (full two_pair_hand) "standard" = ret ds
    /\ StronglySorted lt ds
    /\ length ds = unmatched_cards 2
    /\ forall p c,
        nth_error two_pair_hand p = Some c ->
        (In p ds <-> count_occ Z.eq_dec (map fst two_pair_hand) (fst c) = 1%nat)
        /\ (~ In p ds ->
            count_occ Z.eq_dec (map fst two_pair_hand) (fst c) = matched_count 2).
Proof.
  apply (matched_cards_are_kept two_pair_hand "standard" 2 [10; 5; 7] "Two Pair").
  - reflexivity.
  - reflexivity.
  - simpl. auto.
Defined.

(** ** hand_evaluator.py: what the categories mean *)

Lemma count_in_values_count (l : list Z) (n : nat) :
  (0 < n)%nat ->
  count_in_values n (Counter Z.eqb l) = true
  <-> exists k, count_occ Z.eq_dec l k = n.
Proof.
  intros Hn. rewrite count_in_values_keys, negb_true_iff, is_empty_false_In.
  split; intros [k Hk]; exists k;
    now apply (keys_with_count_In Z.eqb Z.eqb_spec Z.eq_dec).
Qed.

Lemma flush_test_spec (cards : list Card) :
  cards <> [] -> (flush_test cards = true <-> one_suit cards).
Proof.
  intros Hne. unfold flush_test, one_suit. rewrite Nat.eqb_eq. split.
  - intros Hl c c' Hc Hc'.
    destruct (nodup string_dec (map snd cards)) as [|s [|? ?]] eqn:Hn;
      try discriminate.
    assert (Hs : forall x, In x cards -> snd x = s).
    { intros x Hx.
      assert (Hin : In (snd x) (nodup string_dec (map snd cards)))
        by (apply nodup_In; now apply in_map).
      rewrite Hn in Hin. destruct Hin as [<-|[]]. reflexivity. }
    now rewrite (Hs c Hc), (Hs c' Hc').
  - intros Hall.
    pose proof (NoDup_nodup string_dec (map snd cards)) as Hnd.
    destruct cards as [|c0 cards]; [congruence|].
    assert (Hs : forall s, In s (nodup string_dec (map snd (c0 :: cards))) ->
                           s = snd c0).
    { intros s Hs. apply nodup_In, in_map_iff in Hs as [x [<- Hx]].
      apply Hall; [exact Hx|now left]. }
    assert (H0 : In (snd c0) (nodup string_dec (map snd (c0 :: cards))))
      by (apply nodup_In; now left).
    destruct (nodup string_dec (map snd (c0 :: cards))) as [|a [|b t]].
    + destruct H0.
    + reflexivity.
    + exfalso. inversion Hnd as [|? ? Hnotin _]; subst. apply Hnotin.
      rewrite (Hs a), (Hs b); simpl; auto.
Qed.

Lemma straight_NoDup (l : list Z) :
  length l = 5%nat -> fst (_check_straight l) = true -> NoDup l.
Proof.
  intros Hlen Hs.
  destruct (check_straight_cases l Hlen)
    as [[[Hnd _] _]|[[Hw _]|[_ [_ Hf]]]].
  - exact Hnd.
  - now apply (wheel_ranks_sorted l Hlen).
  - rewrite Hf in Hs. discriminate.
Qed.

Lemma NoDup_no_multiple (l : list Z) (n : nat) :
  NoDup l -> (2 <= n)%nat -> count_in_values n (Counter Z.eqb l) = false.
Proof.
  intros Hnd Hn.
  destruct (count_in_values n (Counter Z.eqb l)) eqn:Hc; [|reflexivity].
  apply count_in_values_count in Hc as [k Hk]; [|lia].
  pose proof (proj1 (NoDup_count_occ Z.eq_dec l) Hnd k). lia.
Qed.

(** X10: five cards are FourOfAKind exactly when some rank occurs four
    times and FullHouse exactly when one rank occurs three times and
    another twice, whatever the suits; the tiebreak key is then that rank
    followed by the rank of the fifth card, resp. of the pair. *)
Theorem multiples_evaluation (cards : list Card) :
  length cards = 5%nat ->
  exists hr tb nm,
    evaluate (full cards) = ret (hr, tb, nm)
    /\ (hr = FOUR_OF_A_KIND
        <-> exists r, count_occ Z.eq_dec (map fst cards) r = 4%nat)
    /\ (hr = FULL_HOUSE
        <-> exists r r', count_occ Z.eq_dec (map fst cards) r = 3%nat
                         /\ count_occ Z.eq_dec (map fst cards) r' = 2%nat)
    /\ (hr = FOUR_OF_A_KIND ->
        exists r k, tb = [r; k]
                    /\ count_occ Z.eq_dec (map fst cards) r = 4%nat
                    /\ count_occ Z.eq_dec (map fst cards) k = 1%nat)
    /\ (hr = FULL_HOUSE ->
        exists r k, tb = [r; k]
                    /\ count_occ Z.eq_dec (map fst cards) r = 3%nat
                    /\ count_occ Z.eq_dec (map fst cards) k = 2%nat).
Proof.
  intros Hlen.
  destruct (classify_total cards Hlen) as [[[hr tb] nm] Hc].
  exists hr, tb, nm. rewrite (evaluate_full cards Hlen).
  split; [exact Hc|].
  rewrite classify_unfold in Hc.
  set (ranks := map fst cards) in *.
  assert (Hperm : Permutation (sorted_desc ranks) ranks) by apply sorted_desc_perm.
  assert (Hrl : length ranks = 5%nat)
    by (unfold ranks; rewrite length_map; exact Hlen).
  assert (Hsl : length (sorted_desc ranks) = 5%nat)
    by now rewrite sorted_desc_length.
  assert (Hcnt : forall k, count_occ Z.eq_dec (sorted_desc ranks) k
                           = count_occ Z.eq_dec ranks k)
    by now apply Permutation_count_occ.
  assert (Hkey : forall n k, (0 < n)%nat ->
             In k (keys_with_count n (Counter Z.eqb (sorted_desc ranks))) ->
             count_occ Z.eq_dec ranks k = n).
  { intros n k Hn Hk. rewrite <- Hcnt.
    now apply (keys_with_count_In Z.eqb Z.eqb_spec Z.eq_dec) in Hk. }
  assert (Hval : forall n, (0 < n)%nat ->
             count_in_values n (Counter Z.eqb (sorted_desc ranks)) = true
             <-> exists k, count_occ Z.eq_dec ranks k = n).
  { intros n Hn. rewrite (count_in_values_count _ n Hn).
    split; intros [k Hk]; exists k; [now rewrite <- Hcnt|now rewrite Hcnt]. }
  assert (Hstr : fst (_check_straight (sorted_desc ranks)) = true ->
                 forall n, (2 <= n)%nat ->
                 count_in_values n (Counter Z.eqb (sorted_desc ranks)) = false).
  { intros Hs n Hn. apply NoDup_no_multiple; [|exact Hn].
    now apply straight_NoDup. }
  revert Hc. unfold classify_on.
  destruct (_check_straight (sorted_desc ranks)) as [is_straight straight_high].
  simpl fst in Hstr.
  unfold ROYAL_FLUSH, STRAIGHT_FLUSH, FOUR_OF_A_KIND, FULL_HOUSE, FLUSH,
    STRAIGHT, THREE_OF_A_KIND, TWO_PAIR, ONE_PAIR, HIGH_CARD.
  cbv zeta.
  destruct (count_in_values 4 (Counter Z.eqb (sorted_desc ranks))) eqn:Q4.
  - (* four of a kind *)
    assert (is_straight = false) as ->.
    { destruct is_straight; [|reflexivity].
      rewrite (Hstr eq_refl 4%nat) in Q4 by lia. discriminate. }
    rewrite !andb_false_r. cbv iota.
    intros E.
    destruct (keys_with_count 4 (Counter Z.eqb (sorted_desc ranks)))
      as [|quad ?] eqn:K4; [discriminate|].
    destruct (keys_with_count 1 (Counter Z.eqb (sorted_desc ranks)))
      as [|kicker ?] eqn:K1; [discriminate|].
    simpl in E. inversion E; subst hr tb nm. clear E.
    assert (Hq : count_occ Z.eq_dec ranks quad = 4%nat)
      by (apply Hkey; [lia|rewrite K4; now left]).
    assert (Hk : count_occ Z.eq_dec ranks kicker = 1%nat)
      by (apply Hkey; [lia|rewrite K1; now left]).
    split; [split; eauto|].
    split; [split; [discriminate|]|].
    { intros [r [r' [H3 H2]]]. exfalso.
      destruct (Z.eq_dec r quad) as [->|Hne]; [lia|].
      pose proof (count_occ_two ranks r quad Hne) as Hle.
      rewrite Hrl in Hle. lia. }
    split; [intros _; exists quad, kicker; auto|discriminate].
  - (* no four of a kind *)
    assert (Hno4 : ~ exists r, count_occ Z.eq_dec ranks r = 4%nat).
    { intros Hex. apply (Hval 4%nat ltac:(lia)) in Hex. congruence. }
    destruct (count_in_values 3 (Counter Z.eqb (sorted_desc ranks))
              && count_in_values 2 (Counter Z.eqb (sorted_desc ranks))) eqn:Q32.
    + apply andb_true_iff in Q32 as [Q3 Q2].
      assert (is_straight = false) as ->.
      { destruct is_straight; [|reflexivity].
        rewrite (Hstr eq_refl 3%nat) in Q3 by lia. discriminate. }
      rewrite !andb_false_r. cbv iota.
      intros E.
      destruct (keys_with_count 3 (Counter Z.eqb (sorted_desc ranks)))
        as [|trip ?] eqn:K3; [discriminate|].
      destruct (keys_with_count 2 (Counter Z.eqb (sorted_desc ranks)))
        as [|pair ?] eqn:K2; [discriminate|].
      simpl in E. inversion E; subst hr tb nm. clear E.
      assert (Ht : count_occ Z.eq_dec ranks trip = 3%nat)
        by (apply Hkey; [lia|rewrite K3; now left]).
      assert (Hp : count_occ Z.eq_dec ranks pair = 2%nat)
        by (apply Hkey; [lia|rewrite K2; now left]).
      split; [split; [discriminate|intros Hex; contradiction]|].
      split; [split; eauto|].
      split; [discriminate|intros _; exists trip, pair; auto].
    + assert (Hno32 : ~ exists r r', count_occ Z.eq_dec ranks r = 3%nat
                                     /\ count_occ Z.eq_dec ranks r' = 2%nat).
      { intros [r [r' [H3 H2]]].
        assert (count_in_values 3 (Counter Z.eqb (sorted_desc ranks)) = true)
          by (apply Hval; [lia|eauto]).
        assert (count_in_values 2 (Counter Z.eqb (sorted_desc ranks)) = true)
          by (apply Hval; [lia|eauto]).
        rewrite H, H0 in Q32. discriminate. }
      intros E.
      assert (Hhr : hr <> 7 /\ hr <> 6).
      { split_branches E; lia. }
      destruct Hhr as [N7 N6].
      split; [split; [contradiction|intros Hex; contradiction]|].
      split; [split; [contradiction|intros Hex; contradiction]|].
      split; intros; contradiction.
Qed.

Lemma multiples_evaluation_witness :
  exists hr tb nm,
    evaluate (full trips_hand) = ret (hr, tb, nm)
    /\ (hr = FOUR_OF_A_KIND
        <-> exists r, count_occ Z.eq_dec (map fst trips_hand) r = 4%nat)
    /\ (hr = FULL_HOUSE
        <-> exists r r', count_occ Z.eq_dec (map fst trips_hand) r = 3%nat
                         /\ count_occ Z.eq_dec (map fst trips_hand) r' = 2%nat)
    /\ (hr = FOUR_OF_A_KIND ->
        exists r k, tb = [r; k]
                    /\ count_occ Z.eq_dec (map fst trips_hand) r = 4%nat
                    /\ count_occ Z.eq_dec (map fst trips_hand) k = 1%nat)
    /\ (hr = FULL_HOUSE ->
        exists r k, tb = [r; k]
                    /\ count_occ Z.eq_dec (map fst trips_hand) r = 3%nat
                    /\ count_occ Z.eq_dec (map fst trips_hand) k = 2%nat).
Proof. apply (multiples_evaluation trips_hand). reflexivity. Defined.

Ltac finish_cases :=
  repeat split; intros; simpl in *; try tauto; try lia; try congruence;
  try (match goal with H : run_of_five _ |- _ => apply H end);
  try (exfalso; intuition lia).

(** X11: five cards are Straight, StraightFlush or RoyalFlush exactly when
    their ranks are five distinct ranks with max - min = 4 or the wheel
    A-2-3-4-5; StraightFlush or RoyalFlush exactly when they are moreover
    of one suit; RoyalFlush exactly when the run of one suit tops at the
    Ace. The tiebreak key is the top rank of the run, 5 for the wheel. A
    hand of one suit never evaluates below Flush, and only such a hand is
    a Flush. *)
Theorem straights_and_flushes (cards : list Card) :
  length cards = 5%nat ->
  exists hr tb nm,
    evaluate (full cards) = ret (hr, tb, nm)
    /\ (In hr [STRAIGHT; STRAIGHT_FLUSH; ROYAL_FLUSH]
        <-> (run_of_five (map fst cards) \/ wheel_ranks (map fst cards)))
    /\ (In hr [STRAIGHT_FLUSH; ROYAL_FLUSH]
        <-> (one_suit cards
             /\ (run_of_five (map fst cards) \/ wheel_ranks (map fst cards))))
    /\ (hr = ROYAL_FLUSH
        <-> (one_suit cards /\ run_of_five (map fst cards)
             /\ max_rank (map fst cards) = 14))
    /\ (run_of_five (map fst cards) -> tb = [max_rank (map fst cards)])
    /\ (wheel_ranks (map fst cards) -> tb = [5])
    /\ (one_suit cards -> FLUSH <= hr)
    /\ (hr = FLUSH -> one_suit cards).
Proof.
  intros Hlen.
  destruct (classify_total cards Hlen) as [[[hr tb] nm] Hc].
  exists hr, tb, nm. rewrite (evaluate_full cards Hlen).
  split; [exact Hc|].
  rewrite classify_unfold in Hc.
  set (ranks := map fst cards) in *.
  assert (Hrl : length ranks = 5%nat)
    by (unfold ranks; rewrite length_map; exact Hlen).
  assert (Hsl : length (sorted_desc ranks) = 5%nat)
    by now rewrite sorted_desc_length.
  assert (Hne : cards <> []) by (intros ->; discriminate).
  pose proof (flush_test_spec cards Hne) as Hflush.
  assert (Hstr : fst (_check_straight (sorted_desc ranks)) = true ->
                 forall n, (2 <= n)%nat ->
                 count_in_values n (Counter Z.eqb (sorted_desc ranks)) = false).
  { intros Hs n Hn. apply NoDup_no_multiple; [|exact Hn].
    now apply straight_NoDup. }
  revert Hc. unfold classify_on.
  rewrite check_straight_sorted in *.
  unfold ROYAL_FLUSH, STRAIGHT_FLUSH, FOUR_OF_A_KIND, FULL_HOUSE, FLUSH,
    STRAIGHT, THREE_OF_A_KIND, TWO_PAIR, ONE_PAIR, HIGH_CARD.
  destruct (check_straight_cases ranks Hrl)
    as [[Hrun [Hnw Hcs]]|[[Hw [Hnrun Hcs]]|[Hnrun [Hnw Hcs]]]];
    rewrite Hcs in *; simpl fst in Hstr; cbv zeta.
  - (* a run *)
    rewrite (Hstr eq_refl 4%nat), (Hstr eq_refl 3%nat) by lia.
    destruct (flush_test cards) eqn:F; simpl.
    + assert (Hone : one_suit cards) by now apply Hflush.
      destruct (Z.eqb_spec (max_rank ranks) 14) as [E14|N14];
        intros E; inversion E; subst hr tb nm;
        finish_cases.
    + assert (Hone : ~ one_suit cards)
        by (intros H; apply Hflush in H; discriminate).
      intros E; inversion E; subst hr tb nm.
      finish_cases.
  - (* the wheel *)
    rewrite (Hstr eq_refl 4%nat), (Hstr eq_refl 3%nat) by lia.
    destruct (flush_test cards) eqn:F; simpl.
    + assert (Hone : one_suit cards) by now apply Hflush.
      intros E; inversion E; subst hr tb nm.
      finish_cases.
    + assert (Hone : ~ one_suit cards)
        by (intros H; apply Hflush in H; discriminate).
      intros E; inversion E; subst hr tb nm.
      finish_cases.
  - (* no straight *)
    destruct (flush_test cards) eqn:F; simpl andb; cbv iota.
    + assert (Hone : one_suit cards) by now apply Hflush.
      intros E.
      assert (Hhr : hr = 7 \/ hr = 6 \/ hr = 5) by (split_branches E; lia).
      finish_cases.
    + assert (Hone : ~ one_suit cards)
        by (intros H; apply Hflush in H; discriminate).
      intros E.
      assert (Hhr : hr = 7 \/ hr = 6 \/ hr = 3 \/ hr = 2 \/ hr = 1 \/ hr = 0)
        by (split_branches E; lia).
      finish_cases.
Qed.

Lemma straights_and_flushes_witness :
  exists hr tb nm,
    evaluate (full royal_hand) = ret (hr, tb, nm)
    /\ (In hr [STRAIGHT; STRAIGHT_FLUSH; ROYAL_FLUSH]
        <-> (run_of_five (map fst royal_hand) \/ wheel_ranks (map fst royal_hand)))
    /\ (In hr [STRAIGHT_FLUSH; ROYAL_FLUSH]
        <-> (one_suit royal_hand
             /\ (run_of_five (map fst royal_hand)
                 \/ wheel_ranks (map fst royal_hand))))
    /\ (hr = ROYAL_FLUSH
        <-> (one_suit royal_hand /\ run_of_five (map fst royal_hand)
             /\ max_rank (map fst royal_hand) = 14))
    /\ (run_of_five (map fst royal_hand) -> tb = [max_rank (map fst royal_hand)])
    /\ (wheel_ranks (map fst royal_hand) -> tb = [5])
    /\ (one_suit royal_hand -> FLUSH <= hr)
    /\ (hr = FLUSH -> one_suit royal_hand).
Proof. apply (straights_and_flushes royal_hand). reflexivity. Defined.

(** ** robot_actions.py: the views of an action list, the parser *)

(** A decision is a duplicate-free list of positions of the hand. *)
Lemma discard_positions_wf (cards : list Card) (m : string) :
  length cards = 5%nat ->
  exists ds,
    get_discard_positions (full cards) m = ret ds
    /\ (length ds <= 3)%nat /\ NoDup ds /\ forall p, In p ds -> (p < 5)%nat.
Proof.
  intros Hlen. unfold get_discard_positions.
  destruct (get_cards_to_discard_shape (PokerStrategy_init m) cards Hlen
              (threshold_bound m))
    as [hr [tb [nm [ds [_ [Hds Hshape]]]]]].
  exists ds. split; [exact Hds|].
  destruct Hshape as [[-> _]|[[_ [keep ->]]|[_ [_ ->]]]].
  - simpl. split; [lia|]. split; [constructor|]. intros p [].
  - split; [apply firstn_le_length|]. split.
    + apply firstn_NoDup, sorted_lt_NoDup, positions_where_sorted.
    + intros p Hp. apply firstn_incl, positions_where_bound in Hp. lia.
  - destruct (high_card_discards_ok cards Hlen) as [Hnd Hb].
    split; [apply firstn_le_length|]. split.
    + now apply firstn_NoDup.
    + intros p Hp. now apply firstn_incl, Hb in Hp.
Qed.

Lemma swap_block_positions (p : nat) (acc : list Z) (rest : list string) :
  (p < 5)%nat ->
  swap_positions_from acc (map format (swap_commands p) ++ rest)
  = if negb (z_in (holder p) acc)
    then swap_positions_from (acc ++ [holder p]) rest
    else swap_positions_from acc rest.
Proof.
  intros Hp.
  destruct p as [|[|[|[|[|p]]]]]; try lia; reflexivity.
Qed.

Lemma z_in_In (z : Z) (l : list Z) : z_in z l = true <-> In z l.
Proof.
  unfold z_in. rewrite existsb_exists. split.
  - intros [x [Hx E]]. apply Z.eqb_eq in E. now subst.
  - intros Hin. exists z. split; [exact Hin|apply Z.eqb_refl].
Qed.

Lemma swap_positions_of_blocks (ds : list nat) (acc : list Z) :
  NoDup ds ->
  (forall p, In p ds -> (p < 5)%nat) ->
  (forall p, In p ds -> ~ In (holder p) acc) ->
  swap_positions_from acc (map format (flat_map swap_commands ds))
  = ret (acc ++ map holder ds).
Proof.
  revert acc. induction ds as [|p ds IH]; intros acc Hnd Hlt Hacc.
  - simpl. now rewrite app_nil_r.
  - cbn [flat_map]. rewrite map_app, swap_block_positions by (apply Hlt; now left).
    assert (Hnot : z_in (holder p) acc = false).
    { destruct (z_in (holder p) acc) eqn:E; [|reflexivity].
      apply z_in_In in E. exfalso. apply (Hacc p); [now left|exact E]. }
    rewrite Hnot. simpl negb. cbv iota.
    inversion Hnd as [|? ? Hnotin Hnd']; subst.
    rewrite IH.
    + now rewrite <- app_assoc.
    + exact Hnd'.
    + intros q Hq. apply Hlt. now right.
    + intros q Hq Hin. apply in_app_or in Hin as [Hin|[E|[]]].
      * apply (Hacc q); [now right|exact Hin].
      * unfold holder in E. assert (q = p) by lia. subst q. contradiction.
Qed.

Lemma startswith_take_card (n : nat) :
  Str.startswith (format (TakeCard n)) "take card " = true.
Proof.
  unfold Str.startswith, format. simpl. destruct (Str.of_nat n); reflexivity.
Qed.

Lemma count_swaps_blocks (ds : list nat) :
  count_swaps (map format (flat_map swap_commands ds)) = length ds.
Proof.
  unfold count_swaps. induction ds as [|p ds IH]; [reflexivity|].
  cbn [flat_map]. rewrite map_app, filter_app, length_app, IH.
  cbn [swap_commands map filter].
  rewrite startswith_take_card. reflexivity.
Qed.

Lemma swap_positions_of_fill (ps : list nat) (acc : list Z) :
  swap_positions_from acc (map format (flat_map fill_commands ps)) = ret acc.
Proof.
  induction ps as [|p ps IH]; [reflexivity|].
  cbn [flat_map fill_commands map app swap_positions_from format].
  exact IH.
Qed.

(** X12: on five cards the action list has eight actions per discarded
    position, at most 24; [count_swaps] of it is the number of discarded
    positions and [get_swap_positions] of it is the decision, 1-indexed, in
    the decision's order. *)
Theorem action_views_of_a_full_hand (cards : list Card) (m : string) :
  length cards = 5%nat ->
  exists ds actions,
    get_discard_positions (full cards) m = ret ds
    /\ get_poker_actions (full cards) m = ret actions
    /\ length actions = (8 * length ds)%nat
    /\ (length actions <= 24)%nat
    /\ count_swaps actions = length ds
    /\ get_swap_positions actions = ret (map holder ds).
Proof.
  intros Hlen.
  destruct (discard_positions_wf cards m Hlen) as [ds [Hds [Hle [Hnd Hlt]]]].
  exists ds, (map format (flat_map swap_commands ds)).
  split; [exact Hds|]. split; [now apply get_poker_actions_full|].
  assert (Hlen8 : length (map format (flat_map swap_commands ds))
                  = (8 * length ds)%nat).
  { rewrite length_map. clear. induction ds as [|p ds IH]; [reflexivity|].
    cbn [flat_map]. rewrite length_app, IH. simpl. lia. }
  split; [exact Hlen8|]. split; [lia|].
  split; [apply count_swaps_blocks|].
  unfold get_swap_positions.
  rewrite swap_positions_of_blocks; try assumption; [reflexivity|].
  intros p _ [].
Qed.

Lemma action_views_of_a_full_hand_witness :
  exists ds actions,
    get_discard_positions (full no_draw_hand) "standard" = ret ds
    /\ get_poker_actions (full no_draw_hand) "standard" = ret actions
    /\ length actions = (8 * length ds)%nat
    /\ (length actions <= 24)%nat
    /\ count_swaps actions = length ds
    /\ get_swap_positions actions = ret (map holder ds).
Proof. apply (action_views_of_a_full_hand no_draw_hand "standard"). reflexivity. Defined.

Lemma action_views_of_a_partial_hand_aux (hand : HandWithEmpty) (m : string) :
  In None hand ->
  get_poker_actions hand m
    = ret (map format (flat_map fill_commands (empty_positions hand)))
  /\ empty_positions hand <> [].
Proof.
  intros Hnone.
  assert (Hne : is_empty (empty_positions hand) = false).
  { apply In_nth_error in Hnone as [i Hi]. apply empty_positions_In in Hi.
    destruct (empty_positions hand); [destruct Hi|reflexivity]. }
  split.
  - unfold get_poker_actions. fold (empty_positions hand). rewrite Hne. simpl.
    unfold generate_fill_actions, empty_positions.
    now rewrite fill_actions_by_position.
  - intros E. now rewrite E in Hne.
Qed.

(** X13: with an empty slot among five, the action list has four actions
    per empty slot, at most 20, [count_swaps] of it is 0 and
    [get_swap_positions] of it is empty. *)
Theorem action_views_of_a_partial_hand (hand : HandWithEmpty) (m : string) :
  length hand = 5%nat ->
  In None hand ->
  exists actions,
    get_poker_actions hand m = ret actions
    /\ length actions = (4 * length (empty_positions hand))%nat
    /\ (4 <= length actions <= 20)%nat
    /\ count_swaps actions = 0%nat
    /\ get_swap_positions actions = ret [].
Proof.
  intros Hlen Hnone.
  exists (map format (flat_map fill_commands (empty_positions hand))).
  destruct (action_views_of_a_partial_hand_aux hand m Hnone) as [Hact Hne].
  split; [exact Hact|].
  assert (Hlen4 : forall ps, length (map format (flat_map fill_commands ps))
                             = (4 * length ps)%nat).
  { intros ps. rewrite length_map. induction ps as [|p ps IH]; [reflexivity|].
    cbn [flat_map]. rewrite length_app, IH. simpl. lia. }
  split; [apply Hlen4|].
  split.
  { rewrite Hlen4.
    assert (Hle : (length (empty_positions hand) <= 5)%nat).
    { unfold empty_positions. rewrite length_map.
      etransitivity; [apply filter_length_le|].
      unfold enumerate. rewrite length_combine, length_seq, Hlen. simpl. lia. }
    destruct (empty_positions hand); [congruence|]. simpl in *. lia. }
  split; [apply count_swaps_fill|apply swap_positions_of_fill].
Qed.

Lemma action_views_of_a_partial_hand_witness :
  exists actions,
    get_poker_actions partial_hand "standard" = ret actions
    /\ length actions = (4 * length (empty_positions partial_hand))%nat
    /\ (4 <= length actions <= 20)%nat
    /\ count_swaps actions = 0%nat
    /\ get_swap_positions actions = ret [].
Proof.
  apply (action_views_of_a_partial_hand partial_hand "standard").
  - reflexivity.
  - simpl. tauto.
Defined.

Lemma parse_vocabulary (c : Command) :
  in_vocabulary c = true -> parse_action (format c) = ret (command_dict c).
Proof.
  assert (Hpos : forall n, position_ok n = true ->
                      (n = 1 \/ n = 2 \/ n = 3 \/ n = 4 \/ n = 5)%nat).
  { intros n Hn. unfold position_ok in Hn.
    apply andb_true_iff in Hn as [H1 H5].
    apply Nat.leb_le in H1, H5. lia. }
  destruct c as [n| | | |n]; simpl in_vocabulary; intros Hv;
    try reflexivity;
    destruct (Hpos n Hv) as [->|[->|[->|[->| ->]]]]; reflexivity.
Qed.

Lemma block_in_vocabulary (block : nat -> list Command) (ps : list nat) :
  (forall p c, (p < 5)%nat -> In c (block p) -> in_vocabulary c = true) ->
  (forall p, In p ps -> (p < 5)%nat) ->
  Forall (fun a => exists c, in_vocabulary c = true /\ a = format c
                             /\ parse_action a = ret (command_dict c))
         (map format (flat_map block ps)).
Proof.
  intros Hblock Hps. apply Forall_forall. intros a Ha.
  apply in_map_iff in Ha as [c [<- Hc]].
  apply in_flat_map in Hc as [p [Hp Hc]].
  assert (Hv : in_vocabulary c = true) by (apply (Hblock p); auto).
  exists c. split; [exact Hv|]. split; [reflexivity|].
  now apply parse_vocabulary.
Qed.

Lemma position_ok_succ (p : nat) : (p < 5)%nat -> position_ok (p + 1) = true.
Proof.
  intros Hp. unfold position_ok. apply andb_true_iff.
  split; apply Nat.leb_le; lia.
Qed.

(** X14: whatever the five holders contain, every action the planner
    emits is the text of a command on a holder 1 to 5, and [parse_action]
    reads it back as that command's dict. *)
Theorem emitted_actions_parse (hand : HandWithEmpty) (m : string) :
  length hand = 5%nat ->
  exists actions,
    get_poker_actions hand m = ret actions
    /\ Forall (fun a => exists c, in_vocabulary c = true /\ a = format c
                                  /\ parse_action a = ret (command_dict c))
              actions.
Proof.
  intros Hlen.
  destruct (slots_full_or_None hand) as [[cards ->]|Hnone].
  - assert (Hc : length cards = 5%nat).
    { unfold full in Hlen. now rewrite length_map in Hlen. }
    destruct (discard_positions_wf cards m Hc) as [ds [Hds [_ [_ Hlt]]]].
    exists (map format (flat_map swap_commands ds)).
    split; [now apply get_poker_actions_full|].
    apply block_in_vocabulary; [|exact Hlt].
    intros p c Hp Hin. simpl in Hin.
    repeat (destruct Hin as [<-|Hin]; [try reflexivity; now apply position_ok_succ|]).
    destruct Hin.
  - destruct (action_views_of_a_partial_hand_aux hand m Hnone) as [Hact _].
    exists (map format (flat_map fill_commands (empty_positions hand))).
    split; [exact Hact|].
    apply block_in_vocabulary.
    + intros p c Hp Hin. simpl in Hin.
      repeat (destruct Hin as [<-|Hin]; [try reflexivity; now apply position_ok_succ|]).
      destruct Hin.
    + intros p Hp. apply empty_positions_In in Hp.
      assert (nth_error hand p <> None) by congruence.
      apply nth_error_Some in H. lia.
Qed.

Lemma emitted_actions_parse_witness :
  exists actions,
    get_poker_actions partial_hand "aggressive" = ret actions
    /\ Forall (fun a => exists c, in_vocabulary c = true /\ a = format c
                                  /\ parse_action a = ret (command_dict c))
              actions.
Proof. apply (emitted_actions_parse partial_hand "aggressive"). reflexivity. Defined.

(** *** Blanks and letter case in [parse_action] *)

Lemma isspace_upper (c : ascii) : Str.isspace (Str.upper_ascii c) = Str.isspace c.
Proof. destruct c as [[] [] [] [] [] [] [] []]; reflexivity. Qed.

Lemma isspace_lower (c : ascii) : Str.isspace (Str.lower_ascii c) = Str.isspace c.
Proof. destruct c as [[] [] [] [] [] [] [] []]; reflexivity. Qed.

Lemma lower_idempotent (c : ascii) :
  Str.lower_ascii (Str.lower_ascii c) = Str.lower_ascii c.
Proof. destruct c as [[] [] [] [] [] [] [] []]; reflexivity. Qed.

Lemma lstrip_map (f : ascii -> ascii) (s : string) :
  (forall c, Str.isspace (f c) = Str.isspace c) ->
  Str.lstrip (Str.map_ascii f s) = Str.map_ascii f (Str.lstrip s).
Proof.
  intros Hf. induction s as [|c s IH]; [reflexivity|].
  simpl. rewrite Hf. destruct (Str.isspace c); [exact IH|reflexivity].
Qed.

Lemma rstrip_map (f : ascii -> ascii) (s : string) :
  (forall c, Str.isspace (f c) = Str.isspace c) ->
  Str.rstrip (Str.map_ascii f s) = Str.map_ascii f (Str.rstrip s).
Proof.
  intros Hf. induction s as [|c s IH]; [reflexivity|].
  simpl. rewrite IH, Hf.
  destruct (Str.rstrip s); simpl; [|reflexivity].
  destruct (Str.isspace c); reflexivity.
Qed.

Lemma strip_lower (s : string) :
  Str.lower (Str.strip s) = Str.strip (Str.lower s).
Proof.
  unfold Str.strip, Str.lower.
  now rewrite lstrip_map, rstrip_map by apply isspace_lower.
Qed.

Lemma lstrip_blank (pre s : string) :
  blank pre = true -> Str.lstrip (pre ++ s) = Str.lstrip s.
Proof.
  induction pre as [|c pre IH]; [reflexivity|].
  simpl. intros Hb. apply andb_true_iff in Hb as [Hc Hb].
  rewrite Hc. now apply IH.
Qed.

Lemma rstrip_all_blank (post : string) :
  blank post = true -> Str.rstrip post = "".
Proof.
  induction post as [|c post IH]; [reflexivity|].
  simpl. intros Hb. apply andb_true_iff in Hb as [Hc Hb].
  now rewrite IH, Hc.
Qed.

Lemma rstrip_blank (s post : string) :
  blank post = true -> Str.rstrip (s ++ post) = Str.rstrip s.
Proof.
  intros Hb. induction s as [|c s IH].
  - simpl. now apply rstrip_all_blank.
  - simpl. now rewrite IH.
Qed.

Lemma lstrip_all_blank (post : string) :
  blank post = true -> Str.lstrip post = "".
Proof.
  induction post as [|c post IH]; [reflexivity|].
  simpl. intros Hb. apply andb_true_iff in Hb as [Hc Hb].
  rewrite Hc. now apply IH.
Qed.

Lemma strip_padding (pre s post : string) :
  blank pre = true -> blank post = true ->
  Str.strip (pre ++ s ++ post) = Str.strip s.
Proof.
  intros Hpre Hpost. unfold Str.strip. rewrite lstrip_blank by exact Hpre.
  induction s as [|c s IH].
  - simpl. now rewrite lstrip_all_blank.
  - change ((String c s ++ post)%string) with (String c (s ++ post)%string).
    cbn [Str.lstrip]. destruct (Str.isspace c); [exact IH|].
    change (String c (s ++ post)%string) with ((String c s ++ post)%string).
    now apply rstrip_blank.
Qed.

(** X15: [parse_action] reads a text up to blanks around it and up to
    letter case: padding the text with blanks on both sides, or replacing
    it by a text with the same lower-case form, changes neither the dict
    nor the error. *)
Theorem parse_action_ignores_case_and_padding (pre s1 post s2 : string) :
  blank pre = true -> blank post = true ->
  Str.lower s1 = Str.lower s2 ->
  parse_action (pre ++ s1 ++ post) = parse_action s2.
Proof.
  intros Hpre Hpost Hcase. unfold parse_action.
  now rewrite strip_padding, !strip_lower, Hcase by assumption.
Qed.

Lemma parse_action_ignores_case_and_padding_witness :
  blank "  " = true /\ blank " " = true
  /\ Str.lower "Take CARD 3" = Str.lower "take card 3"
  /\ parse_action ("  " ++ "Take CARD 3" ++ " ") = parse_action "take card 3".
Proof.
  split; [reflexivity|]. split; [reflexivity|]. split; [reflexivity|].
  apply (parse_action_ignores_case_and_padding "  " "Take CARD 3" " " "take card 3");
    reflexivity.
Defined.

(** ** strategy.py: the straight-draw search on any hand *)

(** X16: on any hand, when the straight-draw search returns positions to
    keep, they are four distinct positions of the hand whose ranks, an Ace
    counting as 14 or as 1, lie in one window of five consecutive ranks;
    on five cards exactly one position is left to discard. *)
Theorem straight_draw_keeps_four (cards : list Card) (keep : list nat) :
  _find_straight_draw cards = Some keep ->
  NoDup keep
  /\ length keep = 4%nat
  /\ (forall p, In p keep -> (p < length cards)%nat)
  /\ (exists b, forall p, In p keep ->
        b <= rank_at cards p <= b + 4
        \/ (rank_at cards p = 14 /\ b <= 1 <= b + 4))
  /\ (length cards = 5%nat ->
      exists q, outside keep = [q] /\ (q < 5)%nat /\ ~ In q keep).
Proof.
  unfold _find_straight_draw. intros Hfind.
  apply scan_bases_inv in Hfind as [b [Hkeep Hlen]].
  assert (Hnd : NoDup keep) by (subst keep; apply NoDup_nodup).
  assert (Hin : forall p, In p keep ->
            (p < length cards)%nat
            /\ (b <= rank_at cards p <= b + 4
                \/ (rank_at cards p = 14 /\ b <= 1 <= b + 4))).
  { intros p Hp. rewrite Hkeep in Hp. apply nodup_In in Hp.
    apply in_map_iff in Hp as [[r p'] [E Hp]]. simpl in E. subst p'.
    apply firstn_incl, window_candidates_In in Hp as [Hp Hwin].
    apply ranks_with_pos_In in Hp as [Hlt [->|[-> H14]]].
    - split; [exact Hlt|]. now left.
    - split; [exact Hlt|]. right. split; [exact H14|exact Hwin]. }
  split; [exact Hnd|]. split; [exact Hlen|].
  split; [intros p Hp; apply (Hin p Hp)|].
  split; [exists b; intros p Hp; apply (Hin p Hp)|].
  intros H5.
  assert (Hout : length (outside keep) = 1%nat).
  { pose proof (outside_count keep 5 Hnd) as Hc.
    unfold outside. rewrite Hlen in Hc.
    assert (forall p, In p keep -> (p < 5)%nat)
      by (intros p Hp; rewrite <- H5; apply (Hin p Hp)).
    specialize (Hc H). lia. }
  destruct (outside keep) as [|q [|? ?]] eqn:E; try discriminate.
  exists q. split; [reflexivity|].
  assert (Hq : In q (outside keep)) by (rewrite E; now left).
  unfold outside in Hq. apply filter_In in Hq as [Hseq Hneg].
  apply in_seq in Hseq. split; [lia|].
  intros Hk. apply pos_in_In in Hk. now rewrite Hk in Hneg.
Qed.

Lemma straight_draw_keeps_four_witness :
  _find_straight_draw straight_draw_hand = Some [0; 2; 3; 4]%nat
  /\ NoDup [0; 2; 3; 4]%nat
  /\ length [0; 2; 3; 4]%nat = 4%nat
  /\ (forall p, In p [0; 2; 3; 4]%nat -> (p < length straight_draw_hand)%nat)
  /\ (exists b, forall p, In p [0; 2; 3; 4]%nat ->
        b <= rank_at straight_draw_hand p <= b + 4
        \/ (rank_at straight_draw_hand p = 14 /\ b <= 1 <= b + 4))
  /\ (length straight_draw_hand = 5%nat ->
      exists q, outside [0; 2; 3; 4]%nat = [q] /\ (q < 5)%nat
                /\ ~ In q [0; 2; 3; 4]%nat).
Proof.
  split; [reflexivity|].
  apply (straight_draw_keeps_four straight_draw_hand [0; 2; 3; 4]%nat).
  reflexivity.
Defined.

(** ** deck.py *)

Lemma set_mem_In (c : Card) (s : list Card) : set_mem c s = true <-> In c s.
Proof.
  unfold set_mem. rewrite existsb_exists. split.
  - intros [x [Hx E]]. now destruct (card_eqb_spec c x); subst.
  - intros Hin. exists c. split; [exact Hin|].
    now destruct (card_eqb_spec c c).
Qed.

Lemma set_mem_false (c : Card) (s : list Card) : set_mem c s = false <-> ~ In c s.
Proof.
  rewrite <- set_mem_In. destruct (set_mem c s); split; congruence.
Qed.

Lemma set_add_In (c x : Card) (s : list Card) :
  In x (set_add c s) <-> x = c \/ In x s.
Proof.
  unfold set_add. destruct (set_mem c s) eqn:E.
  - apply set_mem_In in E. split; [tauto|]. intros [->|H]; assumption.
  - rewrite in_app_iff. simpl. split; [intros [H|[H|[]]]; auto|].
    intros [H|H]; auto.
Qed.

Lemma set_add_NoDup (c : Card) (s : list Card) : NoDup s -> NoDup (set_add c s).
Proof.
  intros Hnd. unfold set_add. destruct (set_mem c s) eqn:E; [exact Hnd|].
  apply set_mem_false in E.
  apply (Permutation_NoDup (l := c :: s)).
  - apply Permutation_cons_append.
  - now constructor.
Qed.

Lemma set_mem_add (c x : Card) (s : list Card) :
  set_mem x (set_add c s) = card_eqb x c || set_mem x s.
Proof.
  destruct (set_mem x (set_add c s)) eqn:E.
  - apply set_mem_In, set_add_In in E as [->|E].
    + now destruct (card_eqb_spec c c).
    + apply set_mem_In in E. rewrite E. now rewrite orb_true_r.
  - apply set_mem_false in E. rewrite set_add_In in E.
    destruct (card_eqb_spec x c) as [->|_]; [tauto|].
    destruct (set_mem x s) eqn:E'; [|reflexivity].
    apply set_mem_In in E'. tauto.
Qed.

Lemma filter_remove_one (f : Card -> bool) (c : Card) (l : list Card) :
  NoDup l -> In c l -> f c = true ->
  (length (filter (fun x => f x && negb (card_eqb x c)) l) + 1
   = length (filter f l))%nat.
Proof.
  intros Hnd Hin Hf.
  induction l as [|y l IH]; [destruct Hin|].
  inversion Hnd as [|? ? Hy Hnd']; subst.
  destruct Hin as [->|Hin].
  - simpl. rewrite Hf. destruct (card_eqb_spec c c); [|congruence].
    simpl. rewrite Nat.add_1_r. f_equal. f_equal.
    apply filter_ext_in. intros x Hx.
    destruct (card_eqb_spec x c) as [->|_]; [contradiction|].
    now rewrite andb_true_r.
  - simpl. destruct (card_eqb_spec y c) as [->|_]; [contradiction|].
    rewrite andb_true_r. destruct (f y); simpl; rewrite <- (IH Hnd' Hin); lia.
Qed.

Lemma filter_twice {A} (f g : A -> bool) (l : list A) :
  filter f (filter g l) = filter (fun x => f x && g x) l.
Proof.
  induction l as [|x l IH]; [reflexivity|].
  simpl. destruct (g x); simpl.
  - rewrite andb_true_r. destruct (f x); now rewrite IH.
  - now rewrite andb_false_r.
Qed.

Lemma is_empty_nil {A} (l : list A) : is_empty l = true <-> l = [].
Proof. destruct l; simpl; split; congruence. Qed.

Lemma pick_In (r : nat) (l : list Card) : l <> [] -> In (fst (pick r l)) l.
Proof.
  intros Hl. unfold pick. simpl. apply nth_In.
  apply Nat.mod_upper_bound. destruct l; [congruence|discriminate].
Qed.

Lemma available_In {Rng} (self : Deck Rng) (c : Card) :
  deck_ok self ->
  In c (available_cards self)
  <-> is_valid_card c = true /\ is_available c self = true.
Proof.
  intros [Hall _]. unfold available_cards, is_available.
  now rewrite filter_In, Hall, create_full_deck_In.
Qed.

Lemma available_NoDup {Rng} (self : Deck Rng) :
  deck_ok self -> NoDup (available_cards self).
Proof.
  intros [Hall _]. unfold available_cards. rewrite Hall.
  apply NoDup_filter, create_full_deck_NoDup.
Qed.

Lemma mark_used_available {Rng} (card : Card) (self : Deck Rng) :
  available_cards (mark_used card self)
  = filter (fun x => negb (card_eqb x card)) (available_cards self).
Proof.
  unfold available_cards, mark_used. simpl.
  rewrite filter_twice. apply filter_ext. intros x.
  now rewrite set_mem_add, negb_orb.
Qed.

Lemma mark_used_ok {Rng} (card : Card) (self : Deck Rng) :
  deck_ok self -> deck_ok (mark_used card self).
Proof.
  intros [Hall Hnd]. split; [exact Hall|]. simpl. now apply set_add_NoDup.
Qed.

Section DeckFacts.

Variable Rng : Type.
Variable choice : Rng -> list Card -> Card * Rng.
Hypothesis choice_In : forall r l, l <> [] -> In (fst (choice r l)) l.

Lemma draw_card_cases (self : Deck Rng) :
  deck_ok self ->
  (available_cards self = [] /\ draw_card choice self = (None, self))
  \/ (exists card rng,
        In card (available_cards self)
        /\ choice (_rng self) (available_cards self) = (card, rng)
        /\ draw_card choice self
           = (Some card,
              {| _all_cards := _all_cards self;
                 _used_cards := _used_cards self ++ [card];
                 _rng := rng |})).
Proof.
  intros Hok. unfold draw_card.
  destruct (is_empty (available_cards self)) eqn:E.
  - left. apply is_empty_nil in E. now split.
  - right.
    assert (Hne : available_cards self <> []).
    { intros H. rewrite H in E. discriminate. }
    pose proof (choice_In (_rng self) _ Hne) as Hin.
    destruct (choice (_rng self) (available_cards self)) as [card rng].
    simpl in Hin. exists card, rng. split; [exact Hin|]. split; [reflexivity|].
    apply (available_In self card Hok) in Hin as [_ Hav].
    unfold is_available in Hav. apply negb_true_iff in Hav.
    unfold set_add. now rewrite Hav.
Qed.

Lemma drawn_state (self : Deck Rng) (card : Card) (rng : Rng) :
  deck_ok self ->
  In card (available_cards self) ->
  let self' := {| _all_cards := _all_cards self;
                  _used_cards := _used_cards self ++ [card];
                  _rng := rng |} in
  deck_ok self'
  /\ available_cards self'
     = filter (fun x => negb (card_eqb x card)) (available_cards self)
  /\ (length (available_cards self') + 1 = length (available_cards self))%nat.
Proof.
  intros Hok Hin self'.
  pose proof (proj1 (available_In self card Hok) Hin) as [_ Hav].
  unfold is_available in Hav. apply negb_true_iff in Hav.
  assert (Hmark : available_cards self' = available_cards (mark_used card self)).
  { unfold available_cards, mark_used, self', set_add. simpl. now rewrite Hav. }
  assert (Hok' : deck_ok self').
  { destruct (mark_used_ok card self Hok) as [Hall Hnd].
    split; [exact Hall|]. unfold mark_used, set_add in Hnd. simpl in Hnd.
    now rewrite Hav in Hnd. }
  split; [exact Hok'|].
  rewrite Hmark, mark_used_available. split; [reflexivity|].
  pose proof (filter_remove_one (fun _ => true) card (available_cards self)
                (available_NoDup self Hok) Hin eq_refl) as Hlen.
  simpl in Hlen.
  rewrite Hlen. clear.
  induction (available_cards self) as [|y l IH]; [reflexivity|].
  simpl. now rewrite IH.
Qed.

(** X17: [draw_card] on a deck returns a card exactly when a card of the
    deck is unused; the card drawn is a card of the deck that was
    available, it is not available afterwards, and nothing else changes
    its availability; [remaining_count] drops by one.  With every card
    used the deck is returned unchanged with [None]. *)
Theorem draw_card_spec (self : Deck Rng) :
  deck_ok self ->
  match draw_card choice self with
  | (Some card, self') =>
      is_valid_card card = true
      /\ is_available card self = true
      /\ is_available card self' = false
      /\ (forall c, c <> card -> is_available c self' = is_available c self)
      /\ remaining_count self' = remaining_count self - 1
      /\ deck_ok self'
  | (None, self') =>
      self' = self
      /\ forall c, is_valid_card c = true -> is_available c self = false
  end.
Proof.
  intros Hok.
  destruct (draw_card_cases self Hok) as [[Hnil ->]|[card [rng [Hin [_ ->]]]]].
  - split; [reflexivity|]. intros c Hc.
    destruct (is_available c self) eqn:E; [|reflexivity].
    assert (In c (available_cards self)) by (apply available_In; auto).
    rewrite Hnil in H. destruct H.
  - pose proof (proj1 (available_In self card Hok) Hin) as [Hv Hav].
    destruct (drawn_state self card rng Hok Hin) as [Hok' _].
    split; [exact Hv|]. split; [exact Hav|].
    unfold is_available, remaining_count. cbn [_used_cards].
    split; [|split; [|split; [|exact Hok']]].
    + apply negb_false_iff, set_mem_In, in_or_app. right. now left.
    + intros c Hc. f_equal.
      destruct (set_mem c (_used_cards self)) eqn:E.
      * apply set_mem_In. apply set_mem_In in E. apply in_or_app. now left.
      * apply set_mem_false. apply set_mem_false in E.
        intros H. apply in_app_or in H as [H|[H|[]]]; [tauto|congruence].
    + rewrite length_app. cbn [length]. lia.
Qed.

Lemma draw_loop_spec (n : nat) (self : Deck Rng) :
  deck_ok self ->
  let '(cards, self') := draw_loop choice n self in
  deck_ok self'
  /\ _used_cards self' = _used_cards self ++ cards
  /\ NoDup cards
  /\ (forall c, In c cards -> In c (available_cards self))
  /\ available_cards self'
     = filter (fun x => negb (set_mem x cards)) (available_cards self)
  /\ length cards = Nat.min n (length (available_cards self)).
Proof.
  revert self. induction n as [|n IH]; intros self Hok.
  - simpl. split; [exact Hok|]. split; [now rewrite app_nil_r|].
    split; [constructor|]. split; [intros c []|]. split; [|reflexivity].
    symmetry. apply forallb_filter_id. now apply forallb_forall.
  - cbn [draw_loop].
    destruct (draw_card_cases self Hok) as [[Hnil ->]|[card [rng [Hin [_ ->]]]]].
    + split; [exact Hok|]. split; [now rewrite app_nil_r|].
      split; [constructor|]. split; [intros c []|].
      rewrite Hnil. split; reflexivity.
    + destruct (drawn_state self card rng Hok Hin) as [Hok' [Hav' Hlen']].
      specialize (IH _ Hok').
      destruct (draw_loop choice n _) as [cards self''].
      destruct IH as [Hok'' [Hused [Hnd [Hsub [Hav'' Hlen'']]]]].
      split; [exact Hok''|].
      split; [rewrite Hused; simpl; now rewrite <- app_assoc|].
      assert (Hsub' : forall c, In c cards ->
                                In c (available_cards self) /\ c <> card).
      { intros c Hc. specialize (Hsub c Hc). rewrite Hav' in Hsub.
        apply filter_In in Hsub as [H1 H2]. split; [exact H1|].
        intros ->. now destruct (card_eqb_spec card card). }
      split.
      { constructor; [|exact Hnd]. intros Hc. now apply Hsub' in Hc as [_ Hc]. }
      split.
      { intros c [<-|Hc]; [exact Hin|]. now apply Hsub'. }
      split.
      { rewrite Hav'', Hav', filter_twice. apply filter_ext. intros x.
        simpl. unfold set_mem at 2. simpl. fold (set_mem x cards).
        rewrite negb_orb. apply andb_comm. }
      simpl length. rewrite Hlen''. lia.
Qed.

(** X18: [draw_cards(count)] returns [min(count, available)] cards (none
    for a negative count), pairwise distinct, every one a card of the deck
    that was available before; afterwards exactly these have become
    unavailable. *)
Theorem draw_cards_spec (count : Z) (self : Deck Rng) :
  deck_ok self ->
  let '(cards, self') := draw_cards choice count self in
  Z.of_nat (length cards)
    = Z.min (Z.max count 0) (Z.of_nat (length (available_cards self)))
  /\ NoDup cards
  /\ (forall c, In c cards ->
        is_valid_card c = true /\ is_available c self = true)
  /\ (forall c, is_available c self'
                = is_available c self && negb (set_mem c cards))
  /\ deck_ok self'.
Proof.
  intros Hok. unfold draw_cards.
  pose proof (draw_loop_spec (Z.to_nat count) self Hok) as H.
  destruct (draw_loop choice (Z.to_nat count) self) as [cards self'].
  destruct H as [Hok' [Hused [Hnd [Hsub [_ Hlen]]]]].
  split; [rewrite Hlen; lia|]. split; [exact Hnd|].
  split; [intros c Hc; apply (available_In self c Hok), Hsub, Hc|].
  split; [|exact Hok'].
  intros c. unfold is_available. rewrite Hused.
  unfold set_mem. rewrite existsb_app. apply negb_orb.
Qed.

End DeckFacts.

Lemma Deck_init_ok {Rng} (rng : Rng) :
  deck_ok (Deck_init rng) /\ used_in_deck (Deck_init rng).
Proof.
  split; [split; [reflexivity|constructor]|]. intros c [].
Qed.

Lemma draw_card_spec_witness :
  deck_ok (Deck_init 0%nat)
  /\ match draw_card pick (Deck_init 0%nat) with
     | (Some card, self') =>
         is_valid_card card = true
         /\ is_available card (Deck_init 0%nat) = true
         /\ is_available card self' = false
         /\ (forall c, c <> card ->
               is_available c self' = is_available c (Deck_init 0%nat))
         /\ remaining_count self' = remaining_count (Deck_init 0%nat) - 1
         /\ deck_ok self'
     | (None, self') =>
         self' = Deck_init 0%nat
         /\ forall c, is_valid_card c = true ->
                      is_available c (Deck_init 0%nat) = false
     end.
Proof.
  split; [apply Deck_init_ok|].
  apply (draw_card_spec nat pick pick_In (Deck_init 0%nat)).
  apply Deck_init_ok.
Defined.

Lemma draw_cards_spec_witness :
  deck_ok (Deck_init 7%nat)
  /\ let '(cards, self') := draw_cards pick 3 (Deck_init 7%nat) in
     Z.of_nat (length cards)
       = Z.min (Z.max 3 0) (Z.of_nat (length (available_cards (Deck_init 7%nat))))
     /\ NoDup cards
     /\ (forall c, In c cards ->
           is_valid_card c = true /\ is_available c (Deck_init 7%nat) = true)
     /\ (forall c, is_available c self'
                   = is_available c (Deck_init 7%nat) && negb (set_mem c cards))
     /\ deck_ok self'.
Proof.
  split; [apply Deck_init_ok|].
  apply (draw_cards_spec nat pick pick_In 3 (Deck_init 7%nat)).
  apply Deck_init_ok.
Defined.

Lemma used_count {Rng} (self : Deck Rng) :
  deck_ok self -> used_in_deck self ->
  (length (_used_cards self) + length (available_cards self) = 52)%nat.
Proof.
  intros [Hall Hnd] Hused.
  pose proof (filter_length (fun c => set_mem c (_used_cards self))
                            (_all_cards self)) as Hpart.
  assert (Hsame : length (filter (fun c => set_mem c (_used_cards self))
                                 (_all_cards self))
                  = length (_used_cards self)).
  { apply Permutation_length, NoDup_Permutation.
    - rewrite Hall. apply NoDup_filter, create_full_deck_NoDup.
    - exact Hnd.
    - intros c. rewrite filter_In, set_mem_In, Hall, create_full_deck_In.
      split; [tauto|]. intros Hc. split; [now apply Hused|exact Hc]. }
  rewrite Hall in Hpart at 3. change (length create_full_deck) with 52%nat in Hpart.
  unfold available_cards. rewrite <- Hsame. exact Hpart.
Qed.

(** X19: while the used set holds cards of the deck only,
    [remaining_count] is the number of cards [draw_card] can still
    return. *)
Theorem remaining_count_is_available {Rng} (self : Deck Rng) :
  deck_ok self -> used_in_deck self ->
  remaining_count self = Z.of_nat (length (available_cards self)).
Proof.
  intros Hok Hused. pose proof (used_count self Hok Hused).
  unfold remaining_count. lia.
Qed.

Lemma remaining_count_is_available_witness :
  remaining_count (snd (draw_cards pick 5 (Deck_init 0%nat)))
  = Z.of_nat (length (available_cards (snd (draw_cards pick 5 (Deck_init 0%nat))))).
Proof.
  apply (remaining_count_is_available (snd (draw_cards pick 5 (Deck_init 0%nat)))).
  - split; [reflexivity|]. apply distinct_cards_NoDup. vm_compute. reflexivity.
  - intros c Hc. vm_compute in Hc.
    repeat (destruct Hc as [<-|Hc]; [reflexivity|]). destruct Hc.
Defined.

(** X20: marking a card that is not a card of the deck and not yet in the
    used set lowers [remaining_count] by one and leaves the cards that can
    be drawn as they were. *)
Theorem mark_used_foreign_card {Rng} (card : Card) (self : Deck Rng) :
  deck_ok self ->
  is_valid_card card = false ->
  is_available card self = true ->
  remaining_count (mark_used card self) = remaining_count self - 1
  /\ available_cards (mark_used card self) = available_cards self
  /\ deck_ok (mark_used card self).
Proof.
  intros Hok Hinv Hav. unfold is_available in Hav. apply negb_true_iff in Hav.
  split; [|split; [|now apply mark_used_ok]].
  - unfold remaining_count, mark_used, set_add. cbn [_used_cards].
    rewrite Hav, length_app. cbn [length]. lia.
  - rewrite mark_used_available. apply forallb_filter_id.
    apply forallb_forall. intros x Hx.
    apply (available_In self x Hok) in Hx as [Hv _].
    destruct (card_eqb_spec x card) as [->|_]; [congruence|reflexivity].
Qed.

Lemma mark_used_foreign_card_witness :
  remaining_count (mark_used (1, "H") (Deck_init 0%nat))
    = remaining_count (Deck_init 0%nat) - 1
  /\ available_cards (mark_used (1, "H") (Deck_init 0%nat))
     = available_cards (Deck_init 0%nat)
  /\ deck_ok (mark_used (1, "H") (Deck_init 0%nat)).
Proof.
  apply (mark_used_foreign_card (1, "H") (Deck_init 0%nat)).
  - apply Deck_init_ok.
  - reflexivity.
  - reflexivity.
Defined.

Lemma mark_cards_used_spec {Rng} (cards : list Card) (self : Deck Rng) :
  deck_ok self ->
  deck_ok (mark_cards_used cards self)
  /\ _rng (mark_cards_used cards self) = _rng self
  /\ forall c, is_available c (mark_cards_used cards self)
               = is_available c self && negb (set_mem c cards).
Proof.
  unfold mark_cards_used. revert self.
  induction cards as [|card cards IH]; intros self Hok.
  - simpl. split; [exact Hok|]. split; [reflexivity|].
    intros c. now rewrite andb_true_r.
  - cbn [fold_left].
    destruct (IH (mark_used card self) (mark_used_ok card self Hok))
      as [Hok' [Hrng Hav]].
    split; [exact Hok'|]. split; [exact Hrng|].
    intros c. rewrite Hav.
    assert (Hm : is_available c (mark_used card self)
                 = is_available c self && negb (card_eqb c card)).
    { unfold is_available, mark_used. cbn [_used_cards].
      rewrite set_mem_add, negb_orb. apply andb_comm. }
    rewrite Hm.
    change (set_mem c (card :: cards)) with (card_eqb c card || set_mem c cards).
    destruct (is_available c self), (card_eqb c card), (set_mem c cards);
      reflexivity.
Qed.

Lemma available_nothing_used {Rng} (self : Deck Rng) :
  _used_cards self = [] -> available_cards self = _all_cards self.
Proof.
  intros Hused. unfold available_cards. rewrite Hused.
  apply forallb_filter_id. now apply forallb_forall.
Qed.

Lemma filter_none {A} (f : A -> bool) (l : list A) :
  (forall x, In x l -> f x = false) -> filter f l = [].
Proof.
  induction l as [|y l IH]; intros H; [reflexivity|].
  simpl. rewrite (H y) by now left. apply IH. intros x Hx. apply H. now right.
Qed.

Section DeckUse.

Variable Rng : Type.
Variable choice : Rng -> list Card -> Card * Rng.
Hypothesis choice_In : forall r l, l <> [] -> In (fst (choice r l)) l.

(** X21: after [mark_cards_used(cards)] a card is available exactly when
    it was available and is not among [cards], whatever the set held
    before and also for cards marked twice; no later [draw_cards] returns
    a marked card. *)
Theorem marked_cards_are_not_drawn (cards : list Card) (count : Z)
  (self : Deck Rng) :
  deck_ok self ->
  (forall c, is_available c (mark_cards_used cards self)
             = is_available c self && negb (set_mem c cards))
  /\ forall c, In c (fst (draw_cards choice count (mark_cards_used cards self))) ->
               ~ In c cards /\ is_available c self = true.
Proof.
  intros Hok.
  destruct (mark_cards_used_spec cards self Hok) as [Hok' [_ Hav]].
  split; [exact Hav|].
  intros c Hc.
  pose proof (draw_loop_spec Rng choice choice_In (Z.to_nat count) _ Hok') as H.
  unfold draw_cards in Hc.
  destruct (draw_loop choice (Z.to_nat count) (mark_cards_used cards self))
    as [drawn self'].
  destruct H as [_ [_ [_ [Hsub _]]]]. simpl in Hc.
  apply Hsub, (available_In _ c Hok') in Hc as [_ Hc].
  rewrite Hav in Hc. apply andb_true_iff in Hc as [H1 H2].
  split; [|exact H1]. apply negb_true_iff in H2. now apply set_mem_false.
Qed.

Lemma NoDup_distinct_cards (cards : list Card) :
  NoDup cards -> distinct_cards cards = true.
Proof.
  induction 1 as [|c rest Hc Hnd IH]; [reflexivity|].
  simpl. rewrite IH, andb_true_r. apply negb_true_iff.
  fold (set_mem c rest). now apply set_mem_false.
Qed.

(** X22: dealing 52 cards or more from a new deck returns every card of
    the deck exactly once; then [draw_card] returns [None] and
    [remaining_count] is 0; after [reset] the 52 cards are available
    again. *)
Theorem whole_deck_is_dealt (rng : Rng) (count : Z) :
  52 <= count ->
  let '(cards, self') := draw_cards choice count (Deck_init rng) in
  Permutation cards create_full_deck
  /\ remaining_count self' = 0
  /\ draw_card choice self' = (None, self')
  /\ available_cards (reset self') = create_full_deck
  /\ remaining_count (reset self') = 52.
Proof.
  intros Hcount. unfold draw_cards.
  destruct (Deck_init_ok rng) as [Hok _].
  pose proof (draw_loop_spec Rng choice choice_In (Z.to_nat count) _ Hok) as H.
  destruct (draw_loop choice (Z.to_nat count) (Deck_init rng)) as [cards self'].
  destruct H as [Hok' [Hused [Hnd [Hsub [Hav Hlen]]]]].
  assert (Hfull : available_cards (Deck_init rng) = create_full_deck).
  { now apply available_nothing_used. }
  rewrite Hfull in Hsub, Hav, Hlen.
  change (length create_full_deck) with 52%nat in Hlen.
  assert (Hl : length cards = 52%nat) by lia.
  assert (Hperm : Permutation cards create_full_deck).
  { apply NoDup_Permutation_bis; [exact Hnd| |exact Hsub].
    change (length create_full_deck) with 52%nat. lia. }
  split; [exact Hperm|].
  simpl in Hused.
  split; [unfold remaining_count; rewrite Hused, Hl; reflexivity|].
  assert (Hnone : available_cards self' = []).
  { rewrite Hav. apply filter_none. intros x Hx.
    apply negb_false_iff, set_mem_In.
    apply (Permutation_in _ (Permutation_sym Hperm) Hx). }
  split.
  { unfold draw_card. now rewrite Hnone. }
  destruct Hok' as [Hall _].
  split; [|reflexivity].
  rewrite available_nothing_used by reflexivity. exact Hall.
Qed.

(** X23: [generate_initial_hand] on a deck with five cards left or more
    returns five distinct cards of the deck, which [evaluate] classifies,
    and [remaining_count] drops by five; with fewer cards left it returns
    them all and [evaluate] rejects the short hand. *)
Theorem initial_hand_is_valid (self : Deck Rng) :
  deck_ok self ->
  let '(hand, self') := generate_initial_hand choice self in
  ((5 <= length (available_cards self))%nat ->
     valid_hand hand = true
     /\ (exists r, evaluate (full hand) = ret r)
     /\ remaining_count self' = remaining_count self - 5)
  /\ ((length (available_cards self) < 5)%nat ->
      length hand = length (available_cards self)
      /\ evaluate (full hand) = raise InvalidHand).
Proof.
  intros Hok. unfold generate_initial_hand, draw_cards.
  pose proof (draw_loop_spec Rng choice choice_In (Z.to_nat 5) _ Hok) as H.
  destruct (draw_loop choice (Z.to_nat 5) self) as [hand self'].
  destruct H as [Hok' [Hused [Hnd [Hsub [_ Hlen]]]]].
  change (Z.to_nat 5) with 5%nat in Hlen.
  split.
  - intros H5. assert (Hl : length hand = 5%nat) by lia.
    split; [|split].
    + unfold valid_hand. rewrite Hl. simpl.
      rewrite NoDup_distinct_cards, andb_true_r by exact Hnd.
      apply forallb_forall. intros c Hc.
      now apply Hsub, (available_In self c Hok) in Hc as [Hc _].
    + rewrite evaluate_full by exact Hl. now apply classify_total.
    + unfold remaining_count. rewrite Hused, length_app, Hl. lia.
  - intros H5. assert (Hl : length hand = length (available_cards self)) by lia.
    split; [exact Hl|].
    unfold evaluate, InvalidHand. rewrite full_length.
    destruct (Nat.eqb_spec (length hand) 5) as [E|_]; [lia|reflexivity].
Qed.

End DeckUse.

Lemma marked_cards_are_not_drawn_witness :
  deck_ok (Deck_init 3%nat)
  /\ (forall c, is_available c (mark_cards_used [(14, "S"); (2, "H")] (Deck_init 3%nat))
                = is_available c (Deck_init 3%nat)
                  && negb (set_mem c [(14, "S"); (2, "H")]))
  /\ forall c,
       In c (fst (draw_cards pick 52
                    (mark_cards_used [(14, "S"); (2, "H")] (Deck_init 3%nat)))) ->
       ~ In c [(14, "S"); (2, "H")] /\ is_available c (Deck_init 3%nat) = true.
Proof.
  split; [apply Deck_init_ok|].
  apply (marked_cards_are_not_drawn nat pick pick_In
           [(14, "S"); (2, "H")] 52 (Deck_init 3%nat)).
  apply Deck_init_ok.
Defined.

Lemma whole_deck_is_dealt_witness :
  52 <= 60
  /\ let '(cards, self') := draw_cards pick 60 (Deck_init 1%nat) in
     Permutation cards create_full_deck
     /\ remaining_count self' = 0
     /\ draw_card pick self' = (None, self')
     /\ available_cards (reset self') = create_full_deck
     /\ remaining_count (reset self') = 52.
Proof.
  split; [lia|].
  apply (whole_deck_is_dealt nat pick pick_In 1%nat 60). lia.
Defined.

Lemma initial_hand_is_valid_witness :
  deck_ok (Deck_init 2%nat)
  /\ let '(hand, self') := generate_initial_hand pick (Deck_init 2%nat) in
     ((5 <= length (available_cards (Deck_init 2%nat)))%nat ->
        valid_hand hand = true
        /\ (exists r, evaluate (full hand) = ret r)
        /\ remaining_count self' = remaining_count (Deck_init 2%nat) - 5)
     /\ ((length (available_cards (Deck_init 2%nat)) < 5)%nat ->
         length hand = length (available_cards (Deck_init 2%nat))
         /\ evaluate (full hand) = raise InvalidHand).
Proof.
  split; [apply Deck_init_ok|].
  apply (initial_hand_is_valid nat pick pick_In (Deck_init 2%nat)).
  apply Deck_init_ok.
Defined.
